(** * tempchk: hwmon sensor discovery, quirk detection and normalisation

    A shallow embedding of the Go program [tempchk] (latest revision of
    [main], [GetSensorData], [SetGlobalSensorFlags] and the [Sensor]
    struct), followed by the properties of its sensor pipeline.

    Conventions of the embedding:
    - Go's [int] is the 64-bit two's complement integer of the amd64
      target; it is a [Z] and every arithmetic result goes through
      [Go.wrapInt].
    - Go strings and byte slices are [string] (a list of bytes).
    - The file system is a finite map from paths to file contents; a
      path without entry is a file whose read returns an error.  The
      program only uses the data of a read whose error is [nil].
    - Every read of the file system and every line written to standard
      output is recorded, in order, in a trace of [Event]s.
    - The two loops of [GetSensorData] run on fuel (the first has no
      bound in the source, the counter of the second could wrap around);
      [None] is a run that did not finish within it.  On a file system
      whose number of files fits [int] the fuel given is never used up
      ([SensorFacts.GetSensorData_total]). *)

From Stdlib Require Import ZArith String Ascii List Lia DecimalString DecimalZ.
From Stdlib Require Import Permutation Sorted.
From stdpp Require Import base gmap strings list fin_maps.

Open Scope Z_scope.

(* ===================================================================== *)
(** ** The parts of the Go runtime and standard library the program uses *)
(* ===================================================================== *)

Module Go.

(** [int] on amd64. *)
Definition minInt : Z := - 2 ^ 63.
Definition maxInt : Z := 2 ^ 63 - 1.

Definition wrapInt (z : Z) : Z := (z + 2 ^ 63) mod 2 ^ 64 - 2 ^ 63.

Definition inInt (z : Z) : Prop := minInt <= z <= maxInt.

(** [a + b], [a - b] and [a / b] on [int]; division truncates toward zero. *)
Definition add (a b : Z) : Z := wrapInt (a + b).
Definition sub (a b : Z) : Z := wrapInt (a - b).
Definition quo (a b : Z) : Z := wrapInt (Z.quot a b).

(** [len(s)] of a string or byte slice. *)
Definition len (s : string) : Z := Z.of_nat (String.length s).

(** The line feed, written ["\n"] in Go. *)
Definition nl : string := String "010"%char EmptyString.

(** [strings.Trim(s, cutset)]: all leading and trailing bytes of [s] that
    occur in [cutset] are removed. *)
Fixpoint inCutset (c : ascii) (cutset : string) : bool :=
  match cutset with
  | EmptyString => false
  | String d rest => Ascii.eqb c d || inCutset c rest
  end.

Fixpoint TrimLeft (s cutset : string) : string :=
  match s with
  | EmptyString => EmptyString
  | String c rest => if inCutset c cutset then TrimLeft rest cutset else s
  end.

Fixpoint TrimRight (s cutset : string) : string :=
  match s with
  | EmptyString => EmptyString
  | String c rest =>
      match TrimRight rest cutset with
      | EmptyString =>
          if inCutset c cutset then EmptyString else String c EmptyString
      | kept => String c kept
      end
  end.

Definition Trim (s cutset : string) : string :=
  TrimRight (TrimLeft s cutset) cutset.

(** [strings.Contains(s, substr)]. *)
Fixpoint HasPrefix (s prefix : string) : bool :=
  match prefix, s with
  | EmptyString, _ => true
  | String a prefix', String b s' => Ascii.eqb a b && HasPrefix s' prefix'
  | String _ _, EmptyString => false
  end.

Fixpoint Contains (s substr : string) : bool :=
  HasPrefix s substr
  || match s with
     | EmptyString => false
     | String _ rest => Contains rest substr
     end.

(** [strconv.Itoa(i)]: the decimal text of [i], with a minus sign for a
    negative number and no leading zero. *)
Definition Itoa (i : Z) : string := NilZero.string_of_int (Z.to_int i).

(** [strconv.Atoi(s)]: an optional sign, then one or more decimal digits
    and nothing else; the value has to fit [int].  [None] stands for the
    non-nil error ([ErrSyntax] or [ErrRange]). *)
Definition digitValue (c : ascii) : option Z :=
  let n := Z.of_nat (nat_of_ascii c) in
  if (48 <=? n) && (n <=? 57) then Some (n - 48) else None.

Fixpoint parseDigits (s : string) (acc : Z) : option Z :=
  match s with
  | EmptyString => Some acc
  | String c rest =>
      match digitValue c with
      | Some d => parseDigits rest (acc * 10 + d)
      | None => None
      end
  end.

Definition parseUnsigned (s : string) : option Z :=
  match s with
  | EmptyString => None
  | String _ _ => parseDigits s 0
  end.

Definition checkRange (v : Z) : option Z :=
  if (minInt <=? v) && (v <=? maxInt) then Some v else None.

Definition Atoi (s : string) : option Z :=
  match s with
  | EmptyString => None
  | String c rest =>
      if Ascii.eqb c "-"%char then
        match parseUnsigned rest with
        | Some u => checkRange (- u)
        | None => None
        end
      else if Ascii.eqb c "+"%char then
        match parseUnsigned rest with
        | Some u => checkRange u
        | None => None
        end
      else
        match parseUnsigned s with
        | Some u => checkRange u
        | None => None
        end
  end.

(** The text [fmt.Println(operands...)] writes: the operands separated by
    one space, then a line feed. *)
Fixpoint joinSpaces (operands : list string) : string :=
  match operands with
  | [] => EmptyString
  | [x] => x
  | x :: rest => x +:+ " " +:+ joinSpaces rest
  end.

Definition Sprintln (operands : list string) : string :=
  joinSpaces operands +:+ nl.

End Go.

(* ===================================================================== *)
(** ** The program *)
(* ===================================================================== *)

Module Tempchk.

Import Go.

(** *** sensor.go *)

Record Sensor := mkSensor {
  name : string;      (* name of sensor *)
  path : string;      (* location to the OS path *)
  category : string;  (* sensor type *)
  intData : Z;        (* refined sensor data, as an int *)
  number : Z;         (* current sensor number, for a given category *)
  count : Z           (* maximum number of sensors, for a given category *)
}.

(** *** Package-level variables of main.go *)

Definition cpuinfoDirectory : string := "/proc/cpuinfo".
Definition hardwareMonitorDirectory : string := "/sys/class/hwmon/".
Definition hardwareNameFile : string := "name".
Definition tempPrefix : string := "temp".
Definition inputSuffix : string := "_input".
Definition spacerSize : Z := 4.

(** The variables the command line sets ([flag.BoolVar]) and the version
    the linker sets. *)
Record Options := mkOptions {
  printVersion : bool;
  debugMode : bool;
  Version : string
}.

(** The variables the run itself assigns. *)
Record Globals := mkGlobals {
  digitalAmdPowerModuleInUse : bool;
  maxEntryLength : Z
}.

Definition initialGlobals : Globals :=
  {| digitalAmdPowerModuleInUse := false; maxEntryLength := 0 |}.

(** *** The world outside the process *)

(** What [ioutil.ReadDir(hardwareMonitorDirectory)] returns (the names of
    the entries, or [None] for an error) and the files. *)
Record World := mkWorld {
  rootListing : option (list string);
  files : gmap string string
}.

Definition ReadFile (fs : gmap string string) (p : string) : option string :=
  fs !! p.

(** A line on standard output, by the call that prints it. *)
Inductive Line :=
| DebugLine (msg : string)
| TextLine (msg : string)
| NotAvailableLine (dev padded : string)
| SensorLine (dev padded : string) (value : Z) (sensorLabel : string).

Inductive Event :=
| EvReadDir (p : string)
| EvReadFile (p : string)
| EvPrintln (l : Line).

(** How a run of [main] ends. *)
Inductive Outcome :=
| Returned
| Exited (status : Z)
| Panicked.

Definition exitStatus (o : Outcome) : Z :=
  match o with
  | Returned => 0
  | Exited status => status
  | Panicked => 2
  end.

(** The bytes a [Line] puts on standard output. *)
Definition render (l : Line) : string :=
  match l with
  | DebugLine msg => Sprintln [msg]
  | TextLine msg => Sprintln [msg]
  | NotAvailableLine dev padded => Sprintln [dev; "  "; padded; "N/A"]
  | SensorLine dev padded value sensorLabel =>
      Sprintln [dev; "  "; padded; Itoa value; sensorLabel]
  end.

Fixpoint stdout (t : list Event) : list Line :=
  match t with
  | [] => []
  | EvPrintln l :: rest => l :: stdout rest
  | _ :: rest => stdout rest
  end.

Fixpoint fileReads (t : list Event) : list string :=
  match t with
  | [] => []
  | EvReadFile p :: rest => p :: fileReads rest
  | _ :: rest => fileReads rest
  end.

(** The report proper: the lines that show a device. *)
Definition lineDevice (l : Line) : option string :=
  match l with
  | NotAvailableLine dev _ => Some dev
  | SensorLine dev _ _ _ => Some dev
  | DebugLine _ | TextLine _ => None
  end.

Definition isReportLine (l : Line) : bool :=
  match lineDevice l with Some _ => true | None => false end.

(** Puts a trace in front of the trace of a computation that may not
    finish. *)
Definition after {A : Type} (t : list Event) (r : option (A * list Event))
  : option (A * list Event) :=
  match r with
  | Some (x, t') => Some (x, t ++ t')
  | None => None
  end.

(** *** functions.go *)

Definition cutset : string := " " +:+ nl.

Definition debug (dbg : bool) (debugMsg : string) : list Event :=
  if negb dbg then []
  else if len debugMsg <? 1 then []
  else
    let debugMsg := Trim debugMsg " " in
    if len debugMsg <? 1 then [] else [EvPrintln (DebugLine debugMsg)].

(** The path of input file [i] of device directory [hwmon]. *)
Definition inputPath (hwmon : string) (i : Z) : string :=
  hardwareMonitorDirectory +:+ hwmon +:+ "/" +:+
  tempPrefix +:+ Itoa i +:+ inputSuffix.

(** First loop of [GetSensorData]: the number of sensors of the device. *)
Fixpoint countLoop (fs : gmap string string) (hwmon : string)
    (fuel : nat) (count : Z) : option (Z * list Event) :=
  match fuel with
  | O => None
  | S fuel' =>
      let path := inputPath hwmon count in
      match ReadFile fs path with
      | None => Some (sub count 1, [EvReadFile path])
      | Some rawData =>
          if len rawData <? 1 then Some (sub count 1, [EvReadFile path])
          else after [EvReadFile path]
                 (countLoop fs hwmon fuel' (add count 1))
      end
  end.

(** Second loop of [GetSensorData]: [for i := 1; i <= count; i++]. *)
Fixpoint readLoop (dbg : bool) (fs : gmap string string)
    (name hwmon : string) (count : Z)
    (fuel : nat) (i : Z) (sensors : list Sensor)
  : option (list Sensor * list Event) :=
  match fuel with
  | O => None
  | S fuel' =>
      if negb (i <=? count) then Some (sensors, [])
      else
        let path := inputPath hwmon i in
        let opened :=
          debug dbg ("Opening " +:+ hwmon +:+ " file at:" +:+ nl +:+ path)
          ++ [EvReadFile path] in
        match ReadFile fs path with
        | None => Some (sensors, opened)
        | Some rawData =>
            if len rawData <? 1 then Some (sensors, opened)
            else
              let converted :=
                opened ++
                debug dbg ("Converting temperature file data from " +:+
                           hwmon +:+ " into a string.") in
              match Atoi (Trim rawData cutset) with
              | None =>
                  after converted
                    (readLoop dbg fs name hwmon count fuel' (add i 1) sensors)
              | Some trimmedIntData =>
                  if trimmedIntData <? 1 then
                    after converted
                      (readLoop dbg fs name hwmon count fuel' (add i 1)
                         sensors)
                  else
                    let sensor :=
                      {| name := name;
                         path := path;
                         category := tempPrefix;
                         intData := trimmedIntData;
                         number := i;
                         count := count |} in
                    after converted
                      (readLoop dbg fs name hwmon count fuel' (add i 1)
                         (sensors ++ [sensor]))
              end
        end
  end.

(** [GetSensorData(name, hwmon)].  The input files are regenerated by the
    kernel at every read, so the counting pass and the reading pass each
    get the files as they are when the pass runs: [fsCount] and [fsRead]. *)
Definition GetSensorData (dbg : bool) (fsCount fsRead : gmap string string)
    (name hwmon : string)
  : option ((list Sensor * option string) * list Event) :=
  let sensors : list Sensor := [] in
  if String.eqb name EmptyString || String.eqb hwmon EmptyString then
    Some ((sensors, Some "GetSensorData(): invalid input"), [])
  else
    match countLoop fsCount hwmon (S (size fsCount)) 1 with
    | None => None
    | Some (count, counted) =>
        match readLoop dbg fsRead name hwmon count
                (S (Z.to_nat count)) 1 sensors with
        | None => None
        | Some (sensors, read) =>
            if Z.of_nat (length sensors) =? 0 then
              Some ((sensors, Some "GetSensorData(): no valid sensors"),
                    counted ++ read)
            else Some ((sensors, None), counted ++ read)
        end
    end.

(** The path of the name file of a device directory. *)
Definition namePath (dir : string) : string :=
  hardwareMonitorDirectory +:+ dir +:+ "/" +:+ hardwareNameFile.

(** The [for _, dir := range dirs] of [SetGlobalSensorFlags]. *)
Fixpoint flagsLoop (dbg : bool) (fs : gmap string string)
    (dirs : list string) (g : Globals) : Globals * list Event :=
  match dirs with
  | [] => (g, [])
  | dir :: rest =>
      let hardwareNameFilepathOfGivenDevice := namePath dir in
      let opened :=
        debug dbg (dir +:+ " --> " +:+ hardwareNameFilepathOfGivenDevice)
        ++ [EvReadFile hardwareNameFilepathOfGivenDevice] in
      match ReadFile fs hardwareNameFilepathOfGivenDevice with
      | None =>
          let '(g', t) := flagsLoop dbg fs rest g in
          (g', opened ++
               debug dbg ("Warning: " +:+ dir +:+ " does not contain a " +:+
                          "hardware name file. Skipping...") ++ t)
      | Some nameValueOfHardwareDevice =>
          if len nameValueOfHardwareDevice <? 1 then
            let '(g', t) := flagsLoop dbg fs rest g in
            (g', opened ++
                 debug dbg ("Warning: The hardware name file of " +:+ dir +:+
                            " does not contain valid data. Skipping...") ++ t)
          else
            let nameValueOfHardwareDeviceAsString :=
              Trim nameValueOfHardwareDevice cutset in
            let g1 :=
              if len nameValueOfHardwareDeviceAsString >? maxEntryLength g
              then {| digitalAmdPowerModuleInUse :=
                        digitalAmdPowerModuleInUse g;
                      maxEntryLength :=
                        len nameValueOfHardwareDeviceAsString |}
              else g in
            let g2 :=
              if String.eqb nameValueOfHardwareDeviceAsString "fam15h_power"
              then {| digitalAmdPowerModuleInUse := true;
                      maxEntryLength := maxEntryLength g1 |}
              else g1 in
            let '(g', t) := flagsLoop dbg fs rest g2 in
            (g', opened ++ t)
      end
  end.

(** [SetGlobalSensorFlags(dirs)]: the returned error, the variables after
    the call and the trace. *)
Definition SetGlobalSensorFlags (dbg : bool) (fs : gmap string string)
    (dirs : list string) (g : Globals)
  : (option string * Globals) * list Event :=
  match dirs with
  | [] => ((Some "SetGlobalSensorFlags(): invalid input", g), [])
  | _ :: _ =>
      let '(g1, looped) := flagsLoop dbg fs dirs g in
      let t := looped ++ [EvReadFile cpuinfoDirectory] in
      match ReadFile fs cpuinfoDirectory with
      | None => ((None, g1), t)
      | Some cpuinfoFileAsBytes =>
          if len cpuinfoFileAsBytes =? 0 then ((None, g1), t)
          else
            let cpuinfoString := cpuinfoFileAsBytes in
            if String.eqb cpuinfoString EmptyString then ((None, g1), t)
            else if Contains cpuinfoString "Ryzen" then
              ((None, {| digitalAmdPowerModuleInUse := true;
                         maxEntryLength := maxEntryLength g1 |}), t)
            else ((None, g1), t)
      end
  end.

(** *** main.go *)

(** [for len(paddedName) < maxEntryLength+spacerSize { paddedName += " " }] *)
Fixpoint padLoop (n : nat) (paddedName : string) : string :=
  match n with
  | O => paddedName
  | S n' => padLoop n' (paddedName +:+ " ")
  end.

Definition pad (g : Globals) (s : string) : string :=
  padLoop (Z.to_nat (add (maxEntryLength g) spacerSize - len s)) s.

(** The statements of the sensor loop that change [sensor.intData]. *)
Definition normalize (g : Globals) (sensor : Sensor) : Sensor :=
  let scaled := quo (intData sensor) 1000 in
  let corrected :=
    if String.eqb (name sensor) "k10temp"
       && negb (digitalAmdPowerModuleInUse g)
    then add scaled 30
    else scaled in
  {| name := name sensor;
     path := path sensor;
     category := category sensor;
     intData := corrected;
     number := number sensor;
     count := count sensor |}.

(** The body of [for _, sensor := range sensors]: the line it prints. *)
Definition sensorLine (g : Globals) (dir : string) (sensor : Sensor) : Line :=
  let sensor := normalize g sensor in
  let paddedName := pad g (name sensor) in
  let sensorLabel := EmptyString in
  let sensorLabel :=
    if String.eqb (category sensor) "temp" then "C" else sensorLabel in
  let sensorLabel :=
    if String.eqb (category sensor) "temp"
    then sensorLabel +:+ "   temperature sensor " +:+ Itoa (number sensor)
    else sensorLabel in
  SensorLine dir paddedName (intData sensor) sensorLabel.

(** The body of [for _, dir := range listOfDeviceDirs].  The run of
    [main] is studied on files that stay as they are while it runs, so
    both passes of [GetSensorData] get [fs]. *)
Definition reportDevice (dbg : bool) (fs : gmap string string)
    (g : Globals) (dir : string) : option (list Event) :=
  let hardwareNameFilepathOfGivenDevice := namePath dir in
  let opened :=
    debug dbg (dir +:+ " --> " +:+ hardwareNameFilepathOfGivenDevice)
    ++ [EvReadFile hardwareNameFilepathOfGivenDevice] in
  match ReadFile fs hardwareNameFilepathOfGivenDevice with
  | None =>
      Some (opened ++
            debug dbg ("Warning: " +:+ dir +:+ " does not contain a " +:+
                       "hardware name file. Skipping..."))
  | Some nameValueOfHardwareDevice =>
      if len nameValueOfHardwareDevice <? 1 then
        Some (opened ++
              debug dbg ("Warning: The hardware name file of " +:+ dir +:+
                         " does not contain valid data. Skipping..."))
      else
        let trimmedName := Trim nameValueOfHardwareDevice cutset in
        match GetSensorData dbg fs fs trimmedName dir with
        | None => None
        | Some ((sensors, err), got) =>
            if (match err with Some _ => true | None => false end)
               || (Z.of_nat (length sensors) <? 1)
            then
              let paddedName := pad g trimmedName in
              Some (opened ++ got ++
                    debug dbg ("Warning: " +:+ dir +:+
                               " does not contain " +:+
                               "valid sensor data in the hardware input file, "
                               +:+ "ergo no temperature data to print " +:+
                               "for this device.")
                    ++ [EvPrintln (NotAvailableLine dir paddedName)])
            else
              Some (opened ++ got ++
                    map (fun sensor => EvPrintln (sensorLine g dir sensor))
                      sensors)
        end
  end.

Fixpoint reportLoop (dbg : bool) (fs : gmap string string) (g : Globals)
    (dirs : list string) : option (list Event) :=
  match dirs with
  | [] => Some []
  | dir :: rest =>
      match reportDevice dbg fs g dir with
      | None => None
      | Some t =>
          match reportLoop dbg fs g rest with
          | None => None
          | Some t' => Some (t ++ t')
          end
      end
  end.

(** [main()], started with the variables [g]. *)
Definition main (opts : Options) (w : World) (g : Globals)
  : option (Outcome * list Event) :=
  if printVersion opts then
    Some (Exited 0, [EvPrintln (TextLine ("tempchk v" +:+ Version opts))])
  else
    let listed := [EvReadDir hardwareMonitorDirectory] in
    match rootListing w with
    | None => Some (Panicked, listed)
    | Some listOfDeviceDirs =>
        let shown :=
          if debugMode opts then
            debug (debugMode opts)
              ("The following IDs are present in the hardware sensor " +:+
               "monitoring directory:" +:+ nl)
            ++ concat (map (fun dir => debug (debugMode opts) ("* " +:+ dir))
                         listOfDeviceDirs)
          else [] in
        let '((err, g'), flagged) :=
          SetGlobalSensorFlags (debugMode opts) (files w)
            listOfDeviceDirs g in
        match err with
        | Some e =>
            Some (Exited 1, listed ++ shown ++ flagged ++
                            [EvPrintln (TextLine e)])
        | None =>
            match reportLoop (debugMode opts) (files w) g'
                    listOfDeviceDirs with
            | None => None
            | Some reported =>
                Some (Returned, listed ++ shown ++ flagged ++ reported)
            end
        end
    end.

(** A run of the program as the operating system starts it. *)
Definition run (opts : Options) (w : World) : option (Outcome * list Event) :=
  main opts w initialGlobals.

End Tempchk.

(* ===================================================================== *)
(** ** Vocabulary of the properties *)
(* ===================================================================== *)

Module Props.

Import Go Tempchk.

(** The file system is small enough for an [int] to count its files. *)
Definition fitsInt (fs : gmap string string) : Prop :=
  Z.of_nat (size fs) < maxInt.

(** Input file [i] of device [hwmon] can be read and is not empty. *)
Definition inputPresent (fs : gmap string string) (hwmon : string) (i : Z)
  : Prop :=
  exists rawData,
    ReadFile fs (inputPath hwmon i) = Some rawData /\ rawData <> EmptyString.

(** Input file [i] of device [hwmon] can be read, is not empty and its
    trimmed text is the base-10 integer [v]. *)
Definition inputParses (fs : gmap string string) (hwmon : string) (i v : Z)
  : Prop :=
  exists rawData,
    ReadFile fs (inputPath hwmon i) = Some rawData /\ rawData <> EmptyString /\
    Atoi (Trim rawData cutset) = Some v.

(** The trimmed text of the name file of device directory [dir]. *)
Definition labelOf (fs : gmap string string) (dir label : string) : Prop :=
  exists content,
    ReadFile fs (namePath dir) = Some content /\ content <> EmptyString /\
    Trim content cutset = label.

(** Sensor [i] is among the records. *)
Definition hasNumber (sensors : list Sensor) (i : Z) : Prop :=
  exists s, In s sensors /\ number s = i.

(** The record the reading pass builds for a reading [v] at index [i]. *)
Definition record (label hwmon : string) (total i v : Z) : Sensor :=
  {| name := label;
     path := inputPath hwmon i;
     category := tempPrefix;
     intData := v;
     number := i;
     count := total |}.

(** What one turn of the reading pass does with the records, by the file
    at [i]: [None] is the [break], [Some l] the records it appends. *)
Definition turn (fs : gmap string string) (label hwmon : string)
    (total i : Z) : option (list Sensor) :=
  match ReadFile fs (inputPath hwmon i) with
  | None => None
  | Some rawData =>
      if len rawData <? 1 then None
      else match Atoi (Trim rawData cutset) with
           | None => Some []
           | Some v =>
               if v <? 1 then Some [] else Some [record label hwmon total i v]
           end
  end.

(** The records the pass returns from index [i] on, in [n] turns: those
    of the turns up to the first [break]. *)
Fixpoint collected (fs : gmap string string) (label hwmon : string)
    (total : Z) (n : nat) (i : Z) : list Sensor :=
  match n with
  | O => []
  | S n' =>
      match turn fs label hwmon total i with
      | None => []
      | Some l => l ++ collected fs label hwmon total n' (i + 1)
      end
  end.

(** The lines of the report among the events of a run. *)
Definition reportLines (t : list Event) : list Line :=
  List.filter isReportLine (stdout t).

(** The name file of [dir] can be read, is not empty and trims to
    ["fam15h_power"]. *)
Definition isPowerModule (fs : gmap string string) (dir : string) : bool :=
  match ReadFile fs (namePath dir) with
  | None => false
  | Some content =>
      negb (len content <? 1)
      && String.eqb (Trim content cutset) "fam15h_power"
  end.

(** The CPU identification file can be read and has ["Ryzen"] in it. *)
Definition cpuIsRyzen (fs : gmap string string) : bool :=
  match ReadFile fs cpuinfoDirectory with
  | None => false
  | Some cpuinfo => Contains cpuinfo "Ryzen"
  end.

(** The lines the report has for device directory [dir]. *)
Definition deviceReport (dbg : bool) (fs : gmap string string) (g : Globals)
    (dir : string) : list Line :=
  match ReadFile fs (namePath dir) with
  | None => []
  | Some content =>
      if len content <? 1 then []
      else
        match GetSensorData dbg fs fs (Trim content cutset) dir with
        | Some ((s :: sensors, None), _) =>
            map (sensorLine g dir) (s :: sensors)
        | _ => [NotAvailableLine dir (pad g (Trim content cutset))]
        end
  end.

(** The variables after the quirk detection of a run over [dirs]. *)
Definition detected (dbg : bool) (fs : gmap string string)
    (dirs : list string) : Globals :=
  (SetGlobalSensorFlags dbg fs dirs initialGlobals).1.2.

(** The widest label so far after the quirk detection has seen [dir]:
    a name file that cannot be read or is empty leaves it as it is. *)
Definition widen (fs : gmap string string) (m : Z) (dir : string) : Z :=
  match ReadFile fs (namePath dir) with
  | None => m
  | Some content =>
      if len content <? 1 then m else Z.max m (len (Trim content cutset))
  end.

Definition widest (fs : gmap string string) (dirs : list string) (m : Z) : Z :=
  fold_left (widen fs) dirs m.

(** Input file [i] of device [hwmon] holds a reading the program keeps:
    a base-10 integer of at least 1. *)
Definition inputValid (fs : gmap string string) (hwmon : string) (i : Z)
  : Prop :=
  exists v, inputParses fs hwmon i v /\ 1 <= v.

End Props.

(* ===================================================================== *)
(** ** Worlds to run the program on *)
(* ===================================================================== *)

Module Examples.

Import Go Tempchk Props.

Definition defaults : Options :=
  {| printVersion := false; debugMode := false; Version := "0.0" |}.

(** A machine with the legacy driver only: [hwmon0] is a k10temp with
    three input files of which the second holds no number, [hwmon1] a
    coretemp whose only input file holds no number, [hwmon2] a directory
    without name file. *)
Definition legacyFiles : gmap string string :=
  list_to_map
    [ ("/sys/class/hwmon/hwmon0/name", "k10temp" +:+ nl);
      ("/sys/class/hwmon/hwmon0/temp1_input", "45000" +:+ nl);
      ("/sys/class/hwmon/hwmon0/temp2_input", "abc");
      ("/sys/class/hwmon/hwmon0/temp3_input", " 51999");
      ("/sys/class/hwmon/hwmon1/name", "coretemp" +:+ nl);
      ("/sys/class/hwmon/hwmon1/temp1_input", "abc");
      ("/proc/cpuinfo", "model name : AMD Phenom(tm) II X4" +:+ nl) ].

Definition legacyWorld : World :=
  {| rootListing := Some ["hwmon0"; "hwmon1"; "hwmon2"];
     files := legacyFiles |}.

(** A machine with the alternate power module next to the legacy driver. *)
Definition powerFiles : gmap string string :=
  list_to_map
    [ ("/sys/class/hwmon/hwmon1/name", "fam15h_power" +:+ nl);
      ("/sys/class/hwmon/hwmon2/name", "k10temp" +:+ nl);
      ("/sys/class/hwmon/hwmon2/temp1_input", "50000") ].

Definition powerWorld : World :=
  {| rootListing := Some ["hwmon2"; "hwmon1"]; files := powerFiles |}.

(** Two input files at the time of the count; at the time of the read
    the first one can no longer be read. *)
Definition filesAtCount : gmap string string :=
  list_to_map
    [ ("/sys/class/hwmon/hwmon0/temp1_input", "45000" +:+ nl);
      ("/sys/class/hwmon/hwmon0/temp2_input", "50000" +:+ nl) ].

Definition filesAtRead : gmap string string :=
  list_to_map
    [ ("/sys/class/hwmon/hwmon0/temp2_input", "50000" +:+ nl) ].

(** One device directory and nothing in it. *)
Definition namelessWorld : World :=
  {| rootListing := Some ["hwmon0"]; files := ∅ |}.

(** No hwmon directory at all. *)
Definition unlistedWorld : World :=
  {| rootListing := None; files := legacyFiles |}.

(** An hwmon directory without entries, on a Ryzen. *)
Definition emptyWorld : World :=
  {| rootListing := Some [];
     files := list_to_map
                [ ("/proc/cpuinfo", "model name : AMD Ryzen 7" +:+ nl) ] |}.

End Examples.


(* ===================================================================== *)
(** ** [strconv.Atoi] with the value and the kind of error it returns *)
(* ===================================================================== *)

Module GoNum.

Import Go.

Inductive NumError := ErrSyntax | ErrRange.

Definition maxUint64 : Z := 2 ^ 64 - 1.

(** The loop of [strconv.ParseUint(s, 10, 64)] over the bytes of [s],
    with [n] the [uint64] read so far. *)
Fixpoint parseUintLoop (s : string) (n : Z) : Z * option NumError :=
  match s with
  | EmptyString => (n, None)
  | String c rest =>
      match digitValue c with
      | None => (0, Some ErrSyntax)
      | Some d =>
          if n >=? maxUint64 / 10 + 1 then (maxUint64, Some ErrRange)
          else
            let n := n * 10 in
            let n1 := (n + d) mod 2 ^ 64 in
            if (n1 <? n) || (n1 >? maxUint64) then (maxUint64, Some ErrRange)
            else parseUintLoop rest n1
      end
  end.

Definition ParseUint (s : string) : Z * option NumError :=
  match s with
  | EmptyString => (0, Some ErrSyntax)
  | String _ _ => parseUintLoop s 0
  end.

(** [strconv.ParseInt(s, 10, 0)] on a 64-bit platform. *)
Definition ParseInt (s : string) : Z * option NumError :=
  match s with
  | EmptyString => (0, Some ErrSyntax)
  | String c rest =>
      let neg := Ascii.eqb c "-"%char in
      let s := if Ascii.eqb c "+"%char || neg then rest else s in
      match ParseUint s with
      | (_, Some ErrSyntax) => (0, Some ErrSyntax)
      | (un, _) =>
          let cutoff := 2 ^ 63 in
          if negb neg && (un >=? cutoff) then (cutoff - 1, Some ErrRange)
          else if neg && (un >? cutoff) then (- cutoff, Some ErrRange)
          else (wrapInt (if neg then - wrapInt un else wrapInt un), None)
      end
  end.

(** [strconv.Atoi(s)]: its short-text loop and [ParseInt(s, 10, 0)] give
    the same value and error. *)
Definition AtoiResult (s : string) : Z * option NumError := ParseInt s.

End GoNum.

(* ===================================================================== *)
(** ** Earlier revisions of the program *)
(* ===================================================================== *)

Module Previous.

Import Go Tempchk GoNum.

(** *** functions.go before the CPU identification file was consulted *)

(** [SetGlobalSensorFlags(dirs)] of that revision: the same loop over the
    name files, and nothing after it.  Its flag, then the variable
    [fam15hPowerModuleInUse], is the field [digitalAmdPowerModuleInUse]
    of [Globals]. *)
Definition SetGlobalSensorFlags (dbg : bool) (fs : gmap string string)
    (dirs : list string) (g : Globals)
  : (option string * Globals) * list Event :=
  match dirs with
  | [] => ((Some "SetGlobalSensorFlags() --> invalid input", g), [])
  | _ :: _ =>
      let '(g1, looped) := flagsLoop dbg fs dirs g in
      ((None, g1), looped)
  end.

(** *** functions.go when a device had one sensor *)

Inductive Error :=
| InvalidInput (msg : string)
| ReadFailed
| AtoiFailed (e : NumError).

(** [GetSensorData(name, hwmon) (error, int)]: the reading of
    [temp1_input]. *)
Definition GetSensorData (dbg : bool) (fs : gmap string string)
    (name hwmon : string) : (option Error * Z) * list Event :=
  if String.eqb name EmptyString || String.eqb hwmon EmptyString then
    ((Some (InvalidInput "GetSensorData(): invalid input"), -1), [])
  else
    let path :=
      hardwareMonitorDirectory +:+ hwmon +:+ "/" +:+
      tempPrefix +:+ "1" +:+ inputSuffix in
    let opened := debug dbg (hwmon +:+ " --> " +:+ path) ++ [EvReadFile path] in
    match ReadFile fs path with
    | None => ((Some ReadFailed, -1), opened)
    | Some rawData =>
        if len rawData <? 1 then ((None, -1), opened)
        else
          let converted :=
            opened ++
            debug dbg ("Converting temperature file data from " +:+
                       hwmon +:+ " into a string.") in
          let '(trimmedIntData, err) := AtoiResult (Trim rawData cutset) in
          ((option_map AtoiFailed err, trimmedIntData), converted)
    end.

(** *** main.go when the sensor loop padded the device name in place *)

(** [for _, sensor := range sensors] of that revision; [trimmedName] is
    the variable of the enclosing device loop, which the loop pads. *)
Fixpoint sensorLoop (g : Globals) (dir trimmedName : string)
    (sensors : list Sensor) : list Event :=
  match sensors with
  | [] => []
  | sensor :: rest =>
      let scaled := quo (intData sensor) 1000 in
      let corrected :=
        if String.eqb trimmedName "k10temp"
           && negb (digitalAmdPowerModuleInUse g)
        then add scaled 30
        else scaled in
      let trimmedName := pad g trimmedName in
      EvPrintln (SensorLine dir trimmedName corrected "C")
      :: sensorLoop g dir trimmedName rest
  end.

End Previous.

(* ===================================================================== *)
(** ** The revision that read one temperature per device in [main] *)
(* ===================================================================== *)

Module Single.

Import Go Tempchk GoNum.

(** The variable [fam15hPowerModuleInUse] of this revision is the field
    [digitalAmdPowerModuleInUse] of [Globals]; [debugPrint] is [debug]. *)

Definition hardwareTempFile : string := "temp1_input".

(** The text of a line: [fmt.Println(dir.Name(), " | ", name, "N/A\n")]
    and [fmt.Println(dir.Name(), " | ", name, value, "C\n")]. *)
Definition render (l : Line) : string :=
  match l with
  | DebugLine msg => Sprintln [msg]
  | TextLine msg => Sprintln [msg]
  | NotAvailableLine dev padded =>
      Sprintln [dev; " | "; padded; "N/A" +:+ nl]
  | SensorLine dev padded value sensorLabel =>
      Sprintln [dev; " | "; padded; Itoa value; sensorLabel]
  end.

(** The body of [for _, dir := range listOfDeviceDirs]. *)
Definition reportDevice (dbg : bool) (fs : gmap string string)
    (g : Globals) (dir : string) : list Event :=
  let hardwareNameFilepathOfGivenDevice :=
    hardwareMonitorDirectory +:+ dir +:+ "/" +:+ hardwareNameFile in
  let opened :=
    debug dbg (dir +:+ " --> " +:+ hardwareNameFilepathOfGivenDevice)
    ++ [EvReadFile hardwareNameFilepathOfGivenDevice] in
  match ReadFile fs hardwareNameFilepathOfGivenDevice with
  | None =>
      opened ++
      debug dbg ("Warning: " +:+ dir +:+ " does not contain a " +:+
                 "hardware name file. Skipping...")
  | Some nameValueOfHardwareDevice =>
      if len nameValueOfHardwareDevice <? 1 then
        opened ++
        debug dbg ("Warning: The hardware name file of " +:+ dir +:+
                   " does not contain valid data. Skipping...")
      else
        let nameValueOfHardwareDeviceAsString :=
          Trim nameValueOfHardwareDevice cutset in
        let hardwareTemperatureFilepathOfGivenDevice :=
          hardwareMonitorDirectory +:+ dir +:+ "/" +:+ hardwareTempFile in
        let read :=
          opened ++
          debug dbg (dir +:+ " --> " +:+
                     hardwareTemperatureFilepathOfGivenDevice)
          ++ [EvReadFile hardwareTemperatureFilepathOfGivenDevice] in
        let missing :=
          read ++
          debug dbg ("Warning: " +:+ dir +:+ " does not contain a " +:+
                     "valid hardware temperature file, ergo no " +:+
                     "temperature data to print for this device.")
          ++ [EvPrintln
                (NotAvailableLine dir
                   (pad g nameValueOfHardwareDeviceAsString))] in
        match ReadFile fs hardwareTemperatureFilepathOfGivenDevice with
        | None => missing
        | Some temperatureValueOfHardwareDevice =>
            if len temperatureValueOfHardwareDevice <? 1 then missing
            else
              let converted :=
                read ++
                debug dbg ("Converting temperature file data from " +:+
                           dir +:+ " into a string.") in
              let '(temperatureValueOfHardwareDeviceAsInt, err) :=
                AtoiResult (Trim temperatureValueOfHardwareDevice cutset) in
              if (match err with Some _ => true | None => false end)
                 || (len temperatureValueOfHardwareDevice <? 1)
              then
                converted ++
                debug dbg ("Warning: " +:+ dir +:+ " does not contain a " +:+
                           "integer data in the hardware temperature file, "
                           +:+ "ergo no temperature data to print " +:+
                           "for this device.")
                ++ [EvPrintln
                      (NotAvailableLine dir
                         (pad g nameValueOfHardwareDeviceAsString))]
              else
                let temperatureValueOfHardwareDeviceAsInt :=
                  quo temperatureValueOfHardwareDeviceAsInt 1000 in
                let temperatureValueOfHardwareDeviceAsInt :=
                  if String.eqb nameValueOfHardwareDeviceAsString "k10temp"
                     && negb (digitalAmdPowerModuleInUse g)
                  then add temperatureValueOfHardwareDeviceAsInt 30
                  else temperatureValueOfHardwareDeviceAsInt in
                converted ++
                [EvPrintln
                   (SensorLine dir
                      (pad g nameValueOfHardwareDeviceAsString)
                      temperatureValueOfHardwareDeviceAsInt
                      ("C" +:+ nl))]
        end
  end.

Definition reportLoop (dbg : bool) (fs : gmap string string) (g : Globals)
    (dirs : list string) : list Event :=
  concat (map (reportDevice dbg fs g) dirs).

Definition main (opts : Options) (w : World) (g : Globals)
  : Outcome * list Event :=
  if printVersion opts then
    (Exited 0, [EvPrintln (TextLine ("tempchk v" +:+ Version opts))])
  else
    let started :=
      [EvPrintln
         (TextLine
            (nl +:+ "-----------------------------------------------"));
       EvPrintln (TextLine "Hardware Temperature Info Tool for Linux x86-64");
       EvPrintln
         (TextLine
            ("-----------------------------------------------" +:+ nl));
       EvReadDir hardwareMonitorDirectory] in
    match rootListing w with
    | None => (Panicked, started)
    | Some listOfDeviceDirs =>
        let shown :=
          if debugMode opts then
            debug (debugMode opts)
              ("The following IDs are present in the hardware sensor " +:+
               "monitoring directory:" +:+ nl)
            ++ debug (debugMode opts)
                 (fold_left (fun acc dir => acc +:+ "* " +:+ dir +:+ nl)
                    listOfDeviceDirs EmptyString)
          else [] in
        let '((err, g'), flagged) :=
          Previous.SetGlobalSensorFlags (debugMode opts) (files w)
            listOfDeviceDirs g in
        match err with
        | Some e =>
            (Exited 1, started ++ shown ++ flagged ++
                       [EvPrintln (TextLine e)])
        | None =>
            (Exited 0,
             started ++ shown ++ flagged ++
             reportLoop (debugMode opts) (files w) g' listOfDeviceDirs)
        end
    end.

End Single.

(* ===================================================================== *)
(** ** Vocabulary of the further properties *)
(* ===================================================================== *)

Module MoreProps.

Import Go Tempchk Props.

(** A trace without the lines of debug mode. *)
Definition isDebugEvent (e : Event) : bool :=
  match e with
  | EvPrintln (DebugLine _) => true
  | _ => false
  end.

Definition eraseDebug (t : list Event) : list Event :=
  List.filter (fun e => negb (isDebugEvent e)) t.

(** [n] spaces. *)
Fixpoint spaces (n : nat) : string :=
  match n with
  | O => EmptyString
  | S n' => " " +:+ spaces n'
  end.

(** The device name column of a line of the report. *)
Definition linePadded (l : Line) : option string :=
  match l with
  | NotAvailableLine _ padded => Some padded
  | SensorLine _ padded _ _ => Some padded
  | DebugLine _ | TextLine _ => None
  end.


Fixpoint lastByte (s : string) : option ascii :=
  match s with
  | EmptyString => None
  | String c EmptyString => Some c
  | String _ rest => lastByte rest
  end.

(** The paths of the input files [1..n] of device directory [hwmon]. *)
Definition inputPaths (hwmon : string) (n : Z) : list string :=
  map (inputPath hwmon) (map Z.of_nat (seq 1 (Z.to_nat n))).

(** A computation that may not finish, with the debug lines taken out of
    its trace. *)
Definition eraseRun {A : Type} (r : option (A * list Event))
  : option (A * list Event) :=
  match r with
  | Some (x, t) => Some (x, eraseDebug t)
  | None => None
  end.

(** The options with debug mode switched off. *)
Definition withoutDebug (opts : Options) : Options :=
  {| printVersion := printVersion opts;
     debugMode := false;
     Version := Version opts |}.

(** The files the device loop of [main] reads for device directory
    [dir]: the name file, then, for a device with a label, what
    [GetSensorData] reads. *)
Definition deviceReads (fs : gmap string string) (dir : string)
  : list string :=
  namePath dir ::
  match ReadFile fs (namePath dir) with
  | None => []
  | Some content =>
      if len content <? 1 then []
      else if String.eqb (Trim content cutset) EmptyString
              || String.eqb dir EmptyString then []
      else
        match countLoop fs dir (S (size fs)) 1 with
        | Some (total, _) =>
            inputPaths dir (total + 1) ++ inputPaths dir total
        | None => []
        end
  end.

(** The name file of [dir] can be read and is not empty. *)
Definition hasLabel (fs : gmap string string) (dir : string) : bool :=
  match ReadFile fs (namePath dir) with
  | Some content => negb (len content <? 1)
  | None => false
  end.

(** The value a reading [v] is shown as for a device with label [label]. *)
Definition shown (g : Globals) (label : string) (v : Z) : Z :=
  if String.eqb label "k10temp" && negb (digitalAmdPowerModuleInUse g)
  then Z.quot v 1000 + 30
  else Z.quot v 1000.

End MoreProps.
(* ===================================================================== *)
(** ** Facts about the library functions *)
(* ===================================================================== *)

Module GoFacts.

Import Go.

Lemma wrapInt_id z : inInt z -> wrapInt z = z.
Proof.
  unfold inInt, wrapInt, minInt, maxInt. intros Hz.
  rewrite Z.mod_small; lia.
Qed.

Lemma len_nonneg s : 0 <= len s.
Proof. unfold len. lia. Qed.

Lemma len_lt_1 s : (len s <? 1) = true <-> s = EmptyString.
Proof.
  unfold len. split.
  - intros H. apply Z.ltb_lt in H.
    destruct s; [reflexivity | simpl String.length in H; lia].
  - intros ->. reflexivity.
Qed.

Lemma len_eq_0 s : (len s =? 0) = true <-> s = EmptyString.
Proof.
  unfold len. split.
  - intros H. apply Z.eqb_eq in H.
    destruct s; [reflexivity | simpl String.length in H; lia].
  - intros ->. reflexivity.
Qed.

(** Appending is associative and cancellative on both sides. *)
Lemma string_app_nil_l t : EmptyString +:+ t = t.
Proof. reflexivity. Qed.

Lemma string_app_cons c s t : String c s +:+ t = String c (s +:+ t).
Proof. reflexivity. Qed.

Lemma string_length_app s t :
  String.length (s +:+ t) = (String.length s + String.length t)%nat.
Proof.
  induction s as [|c s IH]; [reflexivity|].
  rewrite string_app_cons. simpl. now rewrite IH.
Qed.

Lemma string_app_cancel_r s1 s2 t : s1 +:+ t = s2 +:+ t -> s1 = s2.
Proof.
  revert s2. induction s1 as [|c s1 IH]; intros [|d s2] H.
  - reflexivity.
  - apply (f_equal String.length) in H.
    rewrite !string_length_app in H. simpl in H. lia.
  - apply (f_equal String.length) in H.
    rewrite !string_length_app in H. simpl in H. lia.
  - rewrite !string_app_cons in H. injection H as -> H. f_equal. now apply IH.
Qed.

Lemma string_app_cancel_l s t1 t2 : s +:+ t1 = s +:+ t2 -> t1 = t2.
Proof.
  induction s as [|c s IH]; intros H; [exact H|].
  rewrite !string_app_cons in H. injection H as H. auto.
Qed.

(** [Itoa] gives different texts to different numbers. *)
Lemma Itoa_inj a b : Itoa a = Itoa b -> a = b.
Proof.
  unfold Itoa. intros H.
  apply DecimalZ.to_int_inj.
  assert (Hnn : forall z, Z.to_int z <> Decimal.Pos Decimal.Nil /\
                          Z.to_int z <> Decimal.Neg Decimal.Nil).
  { intros [|p|p]; simpl; split; try discriminate;
      intros [= E]; now apply DecimalPos.Unsigned.to_uint_nonnil in E. }
  destruct (Hnn a) as [Ha1 Ha2], (Hnn b) as [Hb1 Hb2].
  pose proof (NilZero.isi _ Ha1 Ha2) as Ea.
  pose proof (NilZero.isi _ Hb1 Hb2) as Eb.
  rewrite H in Ea. congruence.
Qed.

(** [HasPrefix] and [Contains] against their meaning on texts. *)
Lemma HasPrefix_spec s p : HasPrefix s p = true <-> exists b, s = p +:+ b.
Proof.
  revert s. induction p as [|a p IH]; intros s.
  - split; [intros _; now exists s | intros _; destruct s; reflexivity].
  - destruct s as [|c s]; simpl.
    + split; [discriminate | intros [b Hb]; discriminate].
    + rewrite andb_true_iff, Ascii.eqb_eq, IH. split.
      * intros [-> [b ->]]. now exists b.
      * intros [b Hb]. rewrite string_app_cons in Hb. injection Hb as -> ->.
        split; [reflexivity | now exists b].
Qed.

Lemma Contains_unfold s sub :
  Contains s sub =
  HasPrefix s sub
  || match s with
     | EmptyString => false
     | String _ rest => Contains rest sub
     end.
Proof. destruct s; reflexivity. Qed.

Lemma Contains_spec s sub :
  Contains s sub = true <-> exists a b, s = a +:+ sub +:+ b.
Proof.
  induction s as [|c s IH]; rewrite Contains_unfold.
  - rewrite orb_false_r, HasPrefix_spec. split.
    + intros [b Hb]. now exists EmptyString, b.
    + intros [[|x a] [b Hb]]; [now exists b | discriminate].
  - rewrite orb_true_iff, IH, HasPrefix_spec. split.
    + intros [[b Hb] | [a [b Hab]]].
      * now exists EmptyString, b.
      * exists (String c a), b. rewrite string_app_cons. now rewrite Hab.
    + intros [[|x a] [b Hab]].
      * left. now exists b.
      * right. rewrite string_app_cons in Hab. injection Hab as -> Hab.
        now exists a, b.
Qed.

(** Trimming. *)
Lemma TrimRight_empty_inv s cs :
  TrimRight s cs = EmptyString ->
  forall c r, s = String c r -> inCutset c cs = true.
Proof.
  intros H c r ->. simpl in H.
  destruct (TrimRight r cs); [|discriminate].
  destruct (inCutset c cs); [reflexivity | discriminate].
Qed.

Lemma Trim_empty cs : Trim EmptyString cs = EmptyString.
Proof. reflexivity. Qed.

(** [Atoi] succeeds only with a value of [int]. *)
Lemma checkRange_Some v r : checkRange v = Some r -> r = v /\ inInt v.
Proof.
  unfold checkRange, inInt.
  destruct (andb _ _) eqn:E; [|discriminate].
  apply andb_true_iff in E as [E1 E2].
  apply Z.leb_le in E1, E2. intros [= <-]. auto.
Qed.

Lemma Atoi_inInt s v : Atoi s = Some v -> inInt v.
Proof.
  unfold Atoi. destruct s as [|c r]; [discriminate|].
  destruct (Ascii.eqb c "-"); [|destruct (Ascii.eqb c "+")];
    (destruct (parseUnsigned _); [|discriminate]);
    intros H; apply checkRange_Some in H as [-> H]; exact H.
Qed.

(** The library functions on texts of the kind the kernel writes. *)
Example wrapInt_overflow : wrapInt (maxInt + 1) = minInt.
Proof. reflexivity. Qed.

Example Itoa_texts :
  Itoa 0 = "0" /\ Itoa 12 = "12" /\ Itoa (-7) = "-7".
Proof. repeat split. Qed.

Example Atoi_texts :
  Atoi "45000" = Some 45000 /\ Atoi "+5" = Some 5 /\ Atoi "-0" = Some 0 /\
  Atoi "007" = Some 7 /\ Atoi EmptyString = None /\ Atoi "-" = None /\
  Atoi "abc" = None /\ Atoi "1_0" = None /\ Atoi " 5" = None /\
  Atoi "9223372036854775807" = Some maxInt /\
  Atoi "9223372036854775808" = None /\
  Atoi "-9223372036854775808" = Some minInt.
Proof. repeat split. Qed.

Example Trim_texts :
  Trim ("  45000 " +:+ nl) (" " +:+ nl) = "45000" /\
  Trim " a b " " " = "a b" /\
  Trim (nl +:+ " ") (" " +:+ nl) = EmptyString.
Proof. repeat split. Qed.

Example Contains_texts :
  Contains "model name : AMD Ryzen 7" "Ryzen" = true /\
  Contains "model name : AMD ryzen 7" "Ryzen" = false /\
  Contains EmptyString "Ryzen" = false.
Proof. repeat split. Qed.

End GoFacts.

(* ===================================================================== *)
(** ** The counting pass *)
(* ===================================================================== *)

Module CountFacts.

Import Go Tempchk Props GoFacts.

Lemma inputPath_inj hwmon i j : inputPath hwmon i = inputPath hwmon j -> i = j.
Proof.
  unfold inputPath. intros H.
  do 4 apply string_app_cancel_l in H.
  apply string_app_cancel_r in H. now apply Itoa_inj.
Qed.

Lemma inputPresent_dec fs hwmon i :
  inputPresent fs hwmon i \/ ~ inputPresent fs hwmon i.
Proof.
  unfold inputPresent.
  destruct (ReadFile fs (inputPath hwmon i)) as [d|] eqn:E.
  - destruct (String.eqb_spec d EmptyString) as [->|Hd].
    + right. intros [r [[= <-] Hr]]. now apply Hr.
    + left. now exists d.
  - right. intros [r [[=] _]].
Qed.

(** A directory cannot hold more input files than the file system has
    files. *)
Lemma present_bound fs hwmon k :
  0 <= k ->
  (forall i, 1 <= i <= k -> inputPresent fs hwmon i) ->
  k <= Z.of_nat (size fs).
Proof.
  intros Hk Hall.
  set (l := (fun n => inputPath hwmon (Z.of_nat n)) <$> seq 1 (Z.to_nat k)).
  assert (Hnd : NoDup l).
  { apply NoDup_fmap_2; [|apply NoDup_seq].
    intros a b Hab. apply inputPath_inj in Hab. lia. }
  assert (Hsub : (list_to_set l : gset string) ⊆ dom fs).
  { intros p Hp. apply elem_of_list_to_set in Hp.
    apply list_elem_of_fmap in Hp as [n [-> Hn]].
    apply elem_of_seq in Hn.
    destruct (Hall (Z.of_nat n)) as [d [Hd _]]; [lia|].
    apply elem_of_dom. now exists d. }
  apply subseteq_size in Hsub.
  rewrite size_list_to_set in Hsub by exact Hnd.
  rewrite size_dom in Hsub.
  unfold l in Hsub. rewrite length_fmap, length_seq in Hsub. lia.
Qed.

Lemma countLoop_step fs hwmon fuel c :
  countLoop fs hwmon (S fuel) c =
  match ReadFile fs (inputPath hwmon c) with
  | None => Some (sub c 1, [EvReadFile (inputPath hwmon c)])
  | Some rawData =>
      if len rawData <? 1
      then Some (sub c 1, [EvReadFile (inputPath hwmon c)])
      else after [EvReadFile (inputPath hwmon c)]
             (countLoop fs hwmon fuel (add c 1))
  end.
Proof. reflexivity. Qed.

(** From [count = c] with the files below [c] present, the loop stops at
    the first file that is missing or empty. *)
Lemma countLoop_from fs hwmon :
  fitsInt fs ->
  forall fuel c,
    1 <= c ->
    (forall i, 1 <= i < c -> inputPresent fs hwmon i) ->
    Z.of_nat (size fs) + 1 < c + Z.of_nat fuel ->
    exists N t,
      countLoop fs hwmon fuel c = Some (N, t) /\
      c - 1 <= N /\
      (forall i, 1 <= i <= N -> inputPresent fs hwmon i) /\
      ~ inputPresent fs hwmon (N + 1) /\
      fileReads t = map (inputPath hwmon)
                      (map Z.of_nat (seq (Z.to_nat c) (Z.to_nat (N + 2 - c)))).
Proof.
  intros Hsmall. unfold fitsInt, maxInt in Hsmall.
  induction fuel as [|fuel IH]; intros c Hc Hbelow Hfuel.
  - exfalso.
    assert (c - 1 <= Z.of_nat (size fs)).
    { apply (present_bound fs hwmon); [lia|]. intros i Hi. apply Hbelow. lia. }
    lia.
  - assert (Hcle : c - 1 <= Z.of_nat (size fs)).
    { apply (present_bound fs hwmon); [lia|]. intros i Hi. apply Hbelow. lia. }
    assert (Hsub : sub c 1 = c - 1).
    { apply wrapInt_id. unfold inInt, minInt, maxInt. lia. }
    assert (Hstop : ~ inputPresent fs hwmon c ->
      exists N t,
        Some (sub c 1, [EvReadFile (inputPath hwmon c)]) = Some (N, t) /\
        c - 1 <= N /\
        (forall i, 1 <= i <= N -> inputPresent fs hwmon i) /\
        ~ inputPresent fs hwmon (N + 1) /\
        fileReads t =
          map (inputPath hwmon)
            (map Z.of_nat (seq (Z.to_nat c) (Z.to_nat (N + 2 - c))))).
    { intros Hno. exists (c - 1), [EvReadFile (inputPath hwmon c)].
      rewrite Hsub. repeat split.
      - lia.
      - intros i Hi. apply Hbelow. lia.
      - now replace (c - 1 + 1) with c by lia.
      - replace (c - 1 + 2 - c) with 1 by lia. simpl.
        now rewrite Z2Nat.id by lia. }
    rewrite countLoop_step.
    destruct (ReadFile fs (inputPath hwmon c)) as [rawData|] eqn:Eread.
    + destruct (len rawData <? 1) eqn:Elen.
      * apply Hstop. intros [d [Hd Hne]]. rewrite Eread in Hd.
        injection Hd as <-. apply len_lt_1 in Elen. contradiction.
      * assert (Hpres : inputPresent fs hwmon c).
        { exists rawData. split; [exact Eread|]. intros ->. discriminate. }
        assert (Hall : forall i, 1 <= i < c + 1 -> inputPresent fs hwmon i).
        { intros i Hi. destruct (Z.eq_dec i c) as [->|]; [exact Hpres|].
          apply Hbelow. lia. }
        assert (c <= Z.of_nat (size fs)).
        { apply (present_bound fs hwmon); [lia|].
          intros i Hi. apply Hall. lia. }
        assert (Hadd : add c 1 = c + 1).
        { apply wrapInt_id. unfold inInt, minInt, maxInt. lia. }
        rewrite Hadd.
        destruct (IH (c + 1)) as [N [t [Hrun [HN [Hok [Hend Hreads]]]]]];
          [lia | exact Hall | lia |].
        exists N, (EvReadFile (inputPath hwmon c) :: t).
        rewrite Hrun. repeat split; try assumption; try lia.
        simpl. rewrite Hreads.
        replace (Z.to_nat (N + 2 - c)) with (S (Z.to_nat (N + 2 - (c + 1))))
          by lia.
        simpl. rewrite Z2Nat.id by lia.
        now replace (S (Z.to_nat c)) with (Z.to_nat (c + 1)) by lia.
    + apply Hstop. intros [d [Hd _]]. rewrite Eread in Hd. discriminate.
Qed.

End CountFacts.

(* ===================================================================== *)
(** ** The reading pass *)
(* ===================================================================== *)

Module ReadFacts.

Import Go Tempchk Props GoFacts CountFacts.

Lemma after_Some {A} (t : list Event) (r : option (A * list Event)) x t' :
  r = Some (x, t') -> after t r = Some (x, t ++ t').
Proof. intros ->. reflexivity. Qed.

Section ReadPass.

Variable dbg : bool.
Variable fs : gmap string string.
Variables label hwmon : string.
Variable total : Z.

Local Abbreviation record := (Props.record label hwmon total).
Local Abbreviation turn := (Props.turn fs label hwmon total).
Local Abbreviation collected := (Props.collected fs label hwmon total).

Lemma turn_None i : turn i = None <-> ~ inputPresent fs hwmon i.
Proof.
  unfold Props.turn, inputPresent.
  destruct (ReadFile fs (inputPath hwmon i)) as [d|] eqn:E.
  - destruct (len d <? 1) eqn:El.
    + apply len_lt_1 in El. subst d. split; [|reflexivity].
      intros _ [r [[= <-] Hr]]. now apply Hr.
    + split.
      * destruct (Atoi _) as [v|]; [destruct (v <? 1)|]; discriminate.
      * intros Hno. exfalso. apply Hno. exists d. split; [reflexivity|].
        intros ->. discriminate.
  - split; [|reflexivity]. intros _ [r [[=] _]].
Qed.

Lemma turn_record i s l :
  turn i = Some l -> In s l ->
  s = record i (intData s) /\ inputParses fs hwmon i (intData s) /\
  1 <= intData s.
Proof.
  unfold Props.turn, inputParses.
  destruct (ReadFile fs (inputPath hwmon i)) as [d|] eqn:E; [|discriminate].
  destruct (len d <? 1) eqn:El; [discriminate|].
  destruct (Atoi (Trim d cutset)) as [v|] eqn:Ea.
  - destruct (v <? 1) eqn:Ev; intros [= <-]; [intros []|].
    intros [<-|[]]. simpl. repeat split.
    + exists d. repeat split; auto. intros ->. discriminate.
    + apply Z.ltb_ge in Ev. lia.
  - intros [= <-] [].
Qed.

Lemma turn_parses i v :
  inputParses fs hwmon i v -> 1 <= v -> turn i = Some [record i v].
Proof.
  intros [d [Hd [Hne Hv]]] Hpos. unfold Props.turn. rewrite Hd.
  destruct (len d <? 1) eqn:El; [apply len_lt_1 in El; contradiction|].
  rewrite Hv. destruct (v <? 1) eqn:Ev; [apply Z.ltb_lt in Ev; lia|].
  reflexivity.
Qed.

Lemma readLoop_step fuel i sensors :
  readLoop dbg fs label hwmon total (S fuel) i sensors =
  if negb (i <=? total) then Some (sensors, [])
  else
    let opened :=
      debug dbg ("Opening " +:+ hwmon +:+ " file at:" +:+ nl +:+
                 inputPath hwmon i)
      ++ [EvReadFile (inputPath hwmon i)] in
    match turn i with
    | None => Some (sensors, opened)
    | Some l =>
        after (opened ++
               debug dbg ("Converting temperature file data from " +:+
                          hwmon +:+ " into a string."))
          (readLoop dbg fs label hwmon total fuel (add i 1) (sensors ++ l))
    end.
Proof.
  simpl. unfold Props.turn, Props.record.
  destruct (negb (i <=? total)); [reflexivity|].
  destruct (ReadFile fs (inputPath hwmon i)) as [d|]; [|reflexivity].
  destruct (len d <? 1); [reflexivity|].
  destruct (Atoi (Trim d cutset)) as [v|].
  - destruct (v <? 1); [now rewrite app_nil_r | reflexivity].
  - now rewrite app_nil_r.
Qed.

Lemma readLoop_collected :
  total < maxInt ->
  forall fuel i sensors,
    1 <= i <= total + 1 ->
    total + 1 - i < Z.of_nat fuel ->
    exists t,
      readLoop dbg fs label hwmon total fuel i sensors =
      Some (sensors ++ collected (Z.to_nat (total + 1 - i)) i, t).
Proof.
  intros Htotal. unfold maxInt in Htotal.
  induction fuel as [|fuel IH]; intros i sensors Hi Hfuel; [lia|].
  rewrite readLoop_step.
  destruct (i <=? total) eqn:Ele; simpl.
  - apply Z.leb_le in Ele.
    replace (Z.to_nat (total + 1 - i))
      with (S (Z.to_nat (total + 1 - (i + 1)))) by lia.
    simpl. destruct (turn i) as [l|].
    + assert (Hadd : add i 1 = i + 1).
      { apply wrapInt_id. unfold inInt, minInt, maxInt. lia. }
      rewrite Hadd.
      destruct (IH (i + 1) (sensors ++ l)) as [t Ht]; [lia | lia |].
      rewrite Ht. simpl. rewrite <- List.app_assoc. eauto.
    + rewrite app_nil_r. eauto.
  - apply Z.leb_gt in Ele.
    replace (total + 1 - i) with 0 by lia. simpl.
    rewrite app_nil_r. eauto.
Qed.

(** The records of [collected]. *)
Lemma collected_records n i s :
  In s (collected n i) ->
  s = record (number s) (intData s) /\
  i <= number s < i + Z.of_nat n /\
  inputParses fs hwmon (number s) (intData s) /\
  1 <= intData s /\
  forall j, i <= j <= number s -> inputPresent fs hwmon j.
Proof.
  revert i. induction n as [|n IH]; intros i; simpl; [intros []|].
  destruct (turn i) as [l|] eqn:Et; [|intros []].
  assert (Hpres : inputPresent fs hwmon i).
  { destruct (inputPresent_dec fs hwmon i) as [H|H]; [exact H|].
    apply turn_None in H. congruence. }
  intros Hin. apply in_app_or in Hin as [Hin|Hin].
  - destruct (turn_record i s l Et Hin) as [Hs [Hp Hv]].
    assert (Hn : number s = i) by (rewrite Hs; reflexivity).
    rewrite Hn. split; [exact Hs|]. split; [lia|].
    split; [exact Hp|]. split; [exact Hv|].
    intros j Hj. now replace j with i by lia.
  - destruct (IH (i + 1) Hin) as [Hs [Hr [Hp [Hv Hall]]]].
    split; [exact Hs|]. split; [lia|].
    split; [exact Hp|]. split; [exact Hv|].
    intros j Hj. destruct (Z.eq_dec j i) as [->|]; [exact Hpres|].
    apply Hall. lia.
Qed.

Lemma collected_complete n i k v :
  i <= k < i + Z.of_nat n ->
  (forall j, i <= j <= k -> inputPresent fs hwmon j) ->
  inputParses fs hwmon k v -> 1 <= v ->
  In (record k v) (collected n i).
Proof.
  revert i. induction n as [|n IH]; intros i Hk Hall Hp Hv; [lia|].
  simpl. destruct (turn i) as [l|] eqn:Et.
  - apply in_or_app. destruct (Z.eq_dec k i) as [->|Hne].
    + left. rewrite (turn_parses i v Hp Hv) in Et.
      injection Et as <-. now left.
    + right. apply IH; try assumption; [lia|].
      intros j Hj. apply Hall. lia.
  - apply turn_None in Et. exfalso. apply Et, Hall. lia.
Qed.

Lemma collected_sorted n i :
  StronglySorted Z.lt (map number (collected n i)).
Proof.
  revert i. induction n as [|n IH]; intros i; simpl; [constructor|].
  destruct (turn i) as [l|] eqn:Et; [|constructor].
  assert (Hl : l = [] \/ exists s, l = [s] /\ number s = i).
  { unfold Props.turn in Et.
    destruct (ReadFile fs (inputPath hwmon i)) as [d|]; [|discriminate].
    destruct (len d <? 1); [discriminate|].
    destruct (Atoi _) as [v|]; [destruct (v <? 1)|];
      injection Et as <-; auto.
    right. now exists (record i v). }
  destruct Hl as [->|[s [-> Hs]]]; simpl; [apply IH|].
  constructor; [apply IH|].
  apply List.Forall_forall. intros x Hx.
  apply in_map_iff in Hx as [s' [<- Hs']].
  apply collected_records in Hs'. lia.
Qed.

End ReadPass.

End ReadFacts.

(* ===================================================================== *)
(** ** [GetSensorData] *)
(* ===================================================================== *)

Module SensorFacts.

Import Go Tempchk Props GoFacts CountFacts ReadFacts.

Lemma countLoop_total fs hwmon :
  fitsInt fs ->
  exists N t,
    countLoop fs hwmon (S (size fs)) 1 = Some (N, t) /\
    0 <= N <= Z.of_nat (size fs) /\
    (forall i, 1 <= i <= N -> inputPresent fs hwmon i) /\
    ~ inputPresent fs hwmon (N + 1) /\
    fileReads t =
      map (inputPath hwmon) (map Z.of_nat (seq 1 (Z.to_nat (N + 1)))).
Proof.
  intros Hsmall.
  destruct (countLoop_from fs hwmon Hsmall (S (size fs)) 1)
    as [N [t [Hrun [HN [Hok [Hend Hreads]]]]]];
    [lia | intros i Hi; lia | lia |].
  exists N, t. repeat split; try assumption; try lia.
  - apply (present_bound fs hwmon); [lia | exact Hok].
  - rewrite Hreads. now replace (N + 2 - 1) with (N + 1) by lia.
Qed.

(** With a label and a directory that are not empty, the call returns
    the records of the reading pass, and the error exactly when there is
    no record. *)
Lemma GetSensorData_valid dbg fsCount fsRead label hwmon :
  fitsInt fsCount -> label <> EmptyString -> hwmon <> EmptyString ->
  exists total counted t,
    countLoop fsCount hwmon (S (size fsCount)) 1 = Some (total, counted) /\
    0 <= total <= Z.of_nat (size fsCount) /\
    GetSensorData dbg fsCount fsRead label hwmon =
      Some ((collected fsRead label hwmon total (Z.to_nat total) 1,
             match collected fsRead label hwmon total (Z.to_nat total) 1 with
             | [] => Some "GetSensorData(): no valid sensors"
             | _ :: _ => None
             end), t).
Proof.
  intros Hsmall Hl Hh.
  destruct (countLoop_total fsCount hwmon Hsmall)
    as [total [counted [Hrun [Htotal _]]]].
  assert (Hlt : total < maxInt) by (unfold fitsInt in Hsmall; lia).
  destruct (readLoop_collected dbg fsRead label hwmon total Hlt
              (S (Z.to_nat total)) 1 []) as [t Ht]; [lia | lia |].
  replace (total + 1 - 1) with total in Ht by lia. simpl app in Ht.
  exists total, counted. eexists. split; [exact Hrun|]. split; [exact Htotal|].
  unfold GetSensorData.
  apply String.eqb_neq in Hl, Hh. rewrite Hl, Hh. simpl orb. cbv iota.
  rewrite Hrun, Ht.
  destruct (collected fsRead label hwmon total (Z.to_nat total) 1);
    reflexivity.
Qed.

Lemma GetSensorData_invalid dbg fsCount fsRead label hwmon :
  label = EmptyString \/ hwmon = EmptyString ->
  GetSensorData dbg fsCount fsRead label hwmon =
    Some (([], Some "GetSensorData(): invalid input"), []).
Proof.
  intros H. unfold GetSensorData.
  destruct H as [-> | ->]; [reflexivity|].
  now rewrite orb_true_r.
Qed.

Lemma GetSensorData_total dbg fsCount fsRead label hwmon :
  fitsInt fsCount ->
  exists sensors err t,
    GetSensorData dbg fsCount fsRead label hwmon = Some ((sensors, err), t) /\
    (err = None <-> sensors <> []).
Proof.
  intros Hsmall.
  destruct (String.eqb_spec label EmptyString) as [->|Hl].
  { rewrite GetSensorData_invalid by auto.
    eexists _, _, _. split; [reflexivity|].
    split; [discriminate | congruence]. }
  destruct (String.eqb_spec hwmon EmptyString) as [->|Hh].
  { rewrite GetSensorData_invalid by auto.
    eexists _, _, _. split; [reflexivity|].
    split; [discriminate | congruence]. }
  destruct (GetSensorData_valid dbg fsCount fsRead label hwmon Hsmall Hl Hh)
    as [total [counted [t [_ [_ Hrun]]]]].
  rewrite Hrun. eexists _, _, _. split; [reflexivity|].
  destruct (collected _ _ _ _ _ _); split; congruence.
Qed.

End SensorFacts.

(* ===================================================================== *)
(** ** Traces *)
(* ===================================================================== *)

Module TraceFacts.

Import Go Tempchk Props GoFacts CountFacts ReadFacts SensorFacts.

Lemma stdout_app t1 t2 : stdout (t1 ++ t2) = stdout t1 ++ stdout t2.
Proof.
  induction t1 as [|[p|p|l] t1 IH]; simpl;
    [reflexivity | exact IH | exact IH |].
  now rewrite IH.
Qed.

Lemma fileReads_app t1 t2 : fileReads (t1 ++ t2) = fileReads t1 ++ fileReads t2.
Proof.
  induction t1 as [|[p|p|l] t1 IH]; simpl;
    [reflexivity | exact IH | | exact IH].
  now rewrite IH.
Qed.

Lemma reportLines_app t1 t2 :
  reportLines (t1 ++ t2) = reportLines t1 ++ reportLines t2.
Proof. unfold reportLines. now rewrite stdout_app, List.filter_app. Qed.

Lemma debug_cases dbg msg :
  debug dbg msg = [] \/ exists m, debug dbg msg = [EvPrintln (DebugLine m)].
Proof.
  unfold debug. destruct (negb dbg); [now left|].
  destruct (len msg <? 1); [now left|].
  destruct (len (Trim msg " ") <? 1); [now left|]. right. eauto.
Qed.

Lemma debug_off msg : debug false msg = [].
Proof. reflexivity. Qed.

Lemma reportLines_debug dbg msg : reportLines (debug dbg msg) = [].
Proof. destruct (debug_cases dbg msg) as [->|[m ->]]; reflexivity. Qed.

Lemma fileReads_debug dbg msg : fileReads (debug dbg msg) = [].
Proof. destruct (debug_cases dbg msg) as [->|[m ->]]; reflexivity. Qed.

Lemma reportLines_read p : reportLines [EvReadFile p] = [].
Proof. reflexivity. Qed.

Create Rewrite HintDb quiet.
#[export] Hint Rewrite reportLines_app reportLines_debug reportLines_read
  List.app_nil_r : quiet.

(** The passes of [GetSensorData] print nothing but debug messages. *)
Lemma countLoop_quiet fs hwmon fuel c N t :
  countLoop fs hwmon fuel c = Some (N, t) -> reportLines t = [].
Proof.
  revert c t. induction fuel as [|fuel IH]; intros c t; [discriminate|].
  rewrite countLoop_step.
  destruct (ReadFile fs (inputPath hwmon c)) as [d|].
  - destruct (len d <? 1); [intros [= _ <-]; reflexivity|].
    destruct (countLoop fs hwmon fuel (add c 1)) as [[N' t']|] eqn:E;
      [|discriminate].
    simpl. intros [= <- <-]. now apply IH in E.
  - intros [= _ <-]. reflexivity.
Qed.

Lemma readLoop_quiet dbg fs label hwmon total fuel i acc r t :
  readLoop dbg fs label hwmon total fuel i acc = Some (r, t) ->
  reportLines t = [].
Proof.
  revert i acc t. induction fuel as [|fuel IH]; intros i acc t; [discriminate|].
  rewrite readLoop_step.
  destruct (negb (i <=? total)); [intros [= _ <-]; reflexivity|].
  cbv zeta. destruct (turn fs label hwmon total i) as [l|].
  - destruct (readLoop dbg fs label hwmon total fuel (add i 1) (acc ++ l))
      as [[r' t']|] eqn:E; [|discriminate].
    simpl. intros [= <- <-]. apply IH in E.
    autorewrite with quiet. now rewrite E.
  - intros [= _ <-]. now autorewrite with quiet.
Qed.

Lemma GetSensorData_quiet dbg fsCount fsRead label hwmon r t :
  GetSensorData dbg fsCount fsRead label hwmon = Some (r, t) ->
  reportLines t = [].
Proof.
  unfold GetSensorData.
  destruct (String.eqb label EmptyString || String.eqb hwmon EmptyString);
    [intros [= _ <-]; reflexivity|].
  destruct (countLoop _ _ _ _) as [[total counted]|] eqn:Ec; [|discriminate].
  destruct (readLoop _ _ _ _ _ _ _ _) as [[sensors read]|] eqn:Er;
    [|discriminate].
  apply countLoop_quiet in Ec. apply readLoop_quiet in Er.
  destruct (Z.of_nat (length sensors) =? 0); intros [= _ <-];
    now rewrite reportLines_app, Ec, Er.
Qed.

(** *** The quirk detection *)

Lemma flagsLoop_step dbg fs dir rest g :
  flagsLoop dbg fs (dir :: rest) g =
  let opened :=
    debug dbg (dir +:+ " --> " +:+ namePath dir)
    ++ [EvReadFile (namePath dir)] in
  match ReadFile fs (namePath dir) with
  | None =>
      ((flagsLoop dbg fs rest g).1,
       opened ++
       debug dbg ("Warning: " +:+ dir +:+ " does not contain a " +:+
                  "hardware name file. Skipping...") ++
       (flagsLoop dbg fs rest g).2)
  | Some content =>
      if len content <? 1 then
        ((flagsLoop dbg fs rest g).1,
         opened ++
         debug dbg ("Warning: The hardware name file of " +:+ dir +:+
                    " does not contain valid data. Skipping...") ++
         (flagsLoop dbg fs rest g).2)
      else
        let label := Trim content cutset in
        let g1 :=
          if len label >? maxEntryLength g
          then {| digitalAmdPowerModuleInUse := digitalAmdPowerModuleInUse g;
                  maxEntryLength := len label |}
          else g in
        let g2 :=
          if String.eqb label "fam15h_power"
          then {| digitalAmdPowerModuleInUse := true;
                  maxEntryLength := maxEntryLength g1 |}
          else g1 in
        ((flagsLoop dbg fs rest g2).1, opened ++ (flagsLoop dbg fs rest g2).2)
  end.
Proof.
  simpl.
  destruct (ReadFile fs (namePath dir)) as [content|].
  - destruct (len content <? 1).
    + now destruct (flagsLoop dbg fs rest g).
    + now destruct (flagsLoop dbg fs rest _).
  - now destruct (flagsLoop dbg fs rest g).
Qed.

Lemma flagsLoop_flag dbg fs dirs g :
  digitalAmdPowerModuleInUse (flagsLoop dbg fs dirs g).1 =
  digitalAmdPowerModuleInUse g || existsb (isPowerModule fs) dirs.
Proof.
  revert g. induction dirs as [|dir rest IH]; intros g.
  - simpl. now rewrite orb_false_r.
  - rewrite flagsLoop_step. cbv zeta. simpl existsb.
    unfold isPowerModule at 1.
    destruct (ReadFile fs (namePath dir)) as [content|]; simpl.
    + destruct (len content <? 1); simpl; [apply IH|].
      rewrite IH.
      destruct (String.eqb (Trim content cutset) "fam15h_power"); simpl.
      * now rewrite orb_true_r.
      * now destruct (len (Trim content cutset) >? maxEntryLength g).
    + apply IH.
Qed.

Lemma flagsLoop_trace dbg fs dirs g :
  reportLines (flagsLoop dbg fs dirs g).2 = [] /\
  fileReads (flagsLoop dbg fs dirs g).2 = map namePath dirs.
Proof.
  revert g. induction dirs as [|dir rest IH]; intros g; [now split|].
  rewrite flagsLoop_step. cbv zeta.
  destruct (ReadFile fs (namePath dir)) as [content|];
    [destruct (len content <? 1)|]; simpl snd;
    rewrite ?reportLines_app, ?fileReads_app, ?reportLines_debug,
      ?fileReads_debug; simpl;
    match goal with
    | |- context [flagsLoop dbg fs rest ?g'] =>
        destruct (IH g') as [-> ->]
    end; now split.
Qed.

Lemma cpuIsRyzen_spec fs :
  cpuIsRyzen fs = true <->
  exists cpuinfo,
    ReadFile fs cpuinfoDirectory = Some cpuinfo /\ cpuinfo <> EmptyString /\
    exists a b, cpuinfo = a +:+ "Ryzen" +:+ b.
Proof.
  unfold cpuIsRyzen.
  destruct (ReadFile fs cpuinfoDirectory) as [c|].
  - rewrite Contains_spec. split.
    + intros [a [b Hab]]. exists c. repeat split; eauto.
      intros ->. destruct a; discriminate.
    + intros [c' [[= <-] [_ H]]]. exact H.
  - split; [discriminate | intros [c [[=] _]]].
Qed.

Lemma isPowerModule_spec fs dir :
  isPowerModule fs dir = true <->
  exists content,
    ReadFile fs (namePath dir) = Some content /\
    Trim content cutset = "fam15h_power".
Proof.
  unfold isPowerModule.
  destruct (ReadFile fs (namePath dir)) as [c|].
  - rewrite andb_true_iff, String.eqb_eq. split.
    + intros [_ H]. now exists c.
    + intros [c' [[= <-] H]]. split; [|exact H].
      destruct (len c <? 1) eqn:E; [|reflexivity].
      apply len_lt_1 in E. subst c. discriminate.
  - split; [discriminate | intros [c [[=] _]]].
Qed.

Lemma SetGlobalSensorFlags_run dbg fs dirs g :
  dirs <> [] ->
  exists g' t,
    SetGlobalSensorFlags dbg fs dirs g = ((None, g'), t) /\
    digitalAmdPowerModuleInUse g' =
      digitalAmdPowerModuleInUse g
      || existsb (isPowerModule fs) dirs || cpuIsRyzen fs /\
    reportLines t = [] /\
    fileReads t = map namePath dirs ++ [cpuinfoDirectory].
Proof.
  intros Hne. destruct dirs as [|dir rest]; [contradiction|].
  unfold SetGlobalSensorFlags.
  pose proof (flagsLoop_flag dbg fs (dir :: rest) g) as Hflag.
  destruct (flagsLoop_trace dbg fs (dir :: rest) g) as [Hq Hr].
  destruct (flagsLoop dbg fs (dir :: rest) g) as [g1 looped].
  simpl fst in Hflag. simpl snd in Hq, Hr. unfold cpuIsRyzen.
  assert (Ht : reportLines (looped ++ [EvReadFile cpuinfoDirectory]) = [] /\
               fileReads (looped ++ [EvReadFile cpuinfoDirectory]) =
               map namePath (dir :: rest) ++ [cpuinfoDirectory]).
  { now rewrite reportLines_app, fileReads_app, Hq, Hr. }
  destruct (ReadFile fs cpuinfoDirectory) as [c|].
  - destruct (len c =? 0) eqn:E0.
    { apply len_eq_0 in E0. subst c. eexists _, _. split; [reflexivity|].
      split; [|exact Ht]. rewrite <- Hflag. now rewrite orb_false_r. }
    destruct (String.eqb c EmptyString) eqn:Ee.
    { apply String.eqb_eq in Ee. subst c. discriminate. }
    destruct (Contains c "Ryzen").
    + eexists _, _. split; [reflexivity|]. split; [|exact Ht].
      simpl. now rewrite orb_true_r.
    + eexists _, _. split; [reflexivity|]. split; [|exact Ht].
      rewrite <- Hflag. now rewrite orb_false_r.
  - eexists _, _. split; [reflexivity|]. split; [|exact Ht].
    rewrite <- Hflag. now rewrite orb_false_r.
Qed.

End TraceFacts.

(* ===================================================================== *)
(** ** The report *)
(* ===================================================================== *)

Module ReportFacts.

Import Go Tempchk Props GoFacts CountFacts ReadFacts SensorFacts TraceFacts.

Lemma reportLines_print l t :
  reportLines (EvPrintln l :: t) =
  if isReportLine l then l :: reportLines t else reportLines t.
Proof. reflexivity. Qed.

Lemma sensorLine_isReportLine g dir s :
  isReportLine (sensorLine g dir s) = true.
Proof. reflexivity. Qed.

Lemma reportLines_sensors g dir sensors :
  reportLines (map (fun sensor => EvPrintln (sensorLine g dir sensor)) sensors)
  = map (sensorLine g dir) sensors.
Proof.
  induction sensors as [|s sensors IH]; [reflexivity|].
  rewrite !map_cons, reportLines_print, sensorLine_isReportLine.
  now rewrite IH.
Qed.

Lemma reportLines_listing dbg (dirs : list string) :
  reportLines (concat (map (fun dir => debug dbg ("* " +:+ dir)) dirs)) = [].
Proof.
  induction dirs as [|dir dirs IH]; [reflexivity|].
  simpl. now rewrite reportLines_app, reportLines_debug, IH.
Qed.

(** One turn of the device loop prints the lines of [deviceReport]. *)
Lemma reportDevice_lines dbg fs g dir :
  fitsInt fs ->
  exists t,
    reportDevice dbg fs g dir = Some t /\
    reportLines t = deviceReport dbg fs g dir.
Proof.
  intros Hsmall. unfold reportDevice, deviceReport.
  destruct (ReadFile fs (namePath dir)) as [content|].
  - destruct (len content <? 1).
    + eexists. split; [reflexivity|]. now autorewrite with quiet.
    + destruct (GetSensorData_total dbg fs fs (Trim content cutset) dir Hsmall)
        as [sensors [err [got [Hrun Herr]]]].
      rewrite Hrun. pose proof (GetSensorData_quiet _ _ _ _ _ _ _ Hrun) as Hq.
      destruct err as [e|].
      * eexists. split; [reflexivity|].
        rewrite !reportLines_app, Hq. autorewrite with quiet.
        now destruct sensors.
      * destruct sensors as [|s sensors];
          [exfalso; now apply (proj1 Herr eq_refl)|].
        assert (Hlen : (Z.of_nat (length (s :: sensors)) <? 1) = false).
        { apply Z.ltb_ge. simpl length. lia. }
        rewrite Hlen. eexists. split; [reflexivity|].
        now rewrite !reportLines_app, Hq, reportLines_read,
          reportLines_debug, reportLines_sensors.
  - eexists. split; [reflexivity|]. now autorewrite with quiet.
Qed.

Lemma reportLoop_lines dbg fs g dirs :
  fitsInt fs ->
  exists t,
    reportLoop dbg fs g dirs = Some t /\
    reportLines t = concat (map (deviceReport dbg fs g) dirs).
Proof.
  intros Hsmall. induction dirs as [|dir dirs [t' [Hrun' Hlines']]].
  - now exists [].
  - destruct (reportDevice_lines dbg fs g dir Hsmall) as [t [Hrun Hlines]].
    simpl. rewrite Hrun, Hrun'. eexists. split; [reflexivity|].
    now rewrite reportLines_app, Hlines, Hlines'.
Qed.

(** A run over a listing that is not empty: it returns, and its report is
    the lines of the devices in the order of the listing, under the
    variables the quirk detection has set. *)
Lemma run_report v dbg w dirs :
  rootListing w = Some dirs -> dirs <> [] -> fitsInt (files w) ->
  exists t,
    run (mkOptions false dbg v) w = Some (Returned, t) /\
    reportLines t =
      concat (map (deviceReport dbg (files w) (detected dbg (files w) dirs))
                dirs) /\
    digitalAmdPowerModuleInUse (detected dbg (files w) dirs) =
      existsb (isPowerModule (files w)) dirs || cpuIsRyzen (files w).
Proof.
  intros Hlist Hne Hsmall. unfold run, main, detected. simpl printVersion.
  cbv iota. rewrite Hlist. simpl debugMode.
  destruct (SetGlobalSensorFlags_run dbg (files w) dirs initialGlobals Hne)
    as [g' [flagged [Hflags [Hflag [Hq _]]]]].
  rewrite Hflags. simpl.
  destruct (reportLoop_lines dbg (files w) g' dirs Hsmall)
    as [reported [Hrun Hlines]].
  rewrite Hrun. eexists. split; [reflexivity|]. split; [|exact Hflag].
  change (reportLines (EvReadDir ?p :: ?t)) with (reportLines t).
  rewrite !reportLines_app, Hq, Hlines.
  destruct dbg; [|reflexivity].
  now rewrite reportLines_app, reportLines_debug, reportLines_listing.
Qed.

(** The lines of a device come from its name file and its records. *)
Lemma deviceReport_device dbg fs g dir l :
  In l (deviceReport dbg fs g dir) -> lineDevice l = Some dir.
Proof.
  unfold deviceReport.
  destruct (ReadFile fs (namePath dir)) as [content|]; [|intros []].
  destruct (len content <? 1); [intros []|].
  destruct (GetSensorData _ _ _ _ _) as [[[[|s sensors] [e|]] t]|];
    try (intros [<-|[]]; reflexivity).
  intros H. apply in_map_iff in H as [x [<- _]]. reflexivity.
Qed.

Lemma quot_1000_inInt r :
  inInt r -> inInt (Z.quot r 1000) /\ inInt (Z.quot r 1000 + 30).
Proof.
  unfold inInt, minInt, maxInt. intros Hr.
  pose proof (Z.quot_rem' r 1000) as Hqr.
  destruct (Z.le_gt_cases 0 r) as [Hpos|Hneg].
  - pose proof (Z.rem_bound_pos r 1000 Hpos ltac:(lia)). lia.
  - pose proof (Z.rem_bound_pos_neg r 1000 ltac:(lia) ltac:(lia)). lia.
Qed.

(** The value of a normalised reading, without the wrap-around. *)
Lemma normalize_intData g sensor :
  inInt (intData sensor) ->
  intData (normalize g sensor) =
  if String.eqb (name sensor) "k10temp" && negb (digitalAmdPowerModuleInUse g)
  then Z.quot (intData sensor) 1000 + 30
  else Z.quot (intData sensor) 1000.
Proof.
  intros Hr. destruct (quot_1000_inInt _ Hr) as [Hq Hq30].
  unfold normalize. simpl intData. unfold quo. rewrite (wrapInt_id _ Hq).
  destruct (_ && _); [|reflexivity]. apply wrapInt_id. exact Hq30.
Qed.

(** The records [GetSensorData] returns. *)
Lemma GetSensorData_records dbg fsCount fsRead label hwmon sensors err t s :
  fitsInt fsCount ->
  GetSensorData dbg fsCount fsRead label hwmon = Some ((sensors, err), t) ->
  In s sensors ->
  name s = label /\ inInt (intData s) /\ 1 <= intData s /\
  inputParses fsRead hwmon (number s) (intData s).
Proof.
  intros Hsmall Hrun Hin.
  destruct (String.eqb_spec label EmptyString) as [->|Hl].
  { rewrite GetSensorData_invalid in Hrun by auto.
    injection Hrun as <- _ _. destruct Hin. }
  destruct (String.eqb_spec hwmon EmptyString) as [->|Hh].
  { rewrite GetSensorData_invalid in Hrun by auto.
    injection Hrun as <- _ _. destruct Hin. }
  destruct (GetSensorData_valid dbg fsCount fsRead label hwmon Hsmall Hl Hh)
    as [total [counted [t' [_ [_ Hrun']]]]].
  rewrite Hrun in Hrun'. injection Hrun' as -> _ _.
  apply collected_records in Hin as [Hs [_ [Hp [Hv _]]]].
  split; [rewrite Hs; reflexivity|]. split; [|split; assumption].
  destruct Hp as [d [_ [_ Ha]]]. now apply Atoi_inInt in Ha.
Qed.

(** A reading at an index the count reaches is among the records. *)
Lemma GetSensorData_keeps dbg fs label hwmon sensors err t i raw :
  fitsInt fs -> label <> EmptyString -> hwmon <> EmptyString ->
  GetSensorData dbg fs fs label hwmon = Some ((sensors, err), t) ->
  1 <= i ->
  (forall j, 1 <= j <= i -> inputPresent fs hwmon j) ->
  inputParses fs hwmon i raw -> 1 <= raw ->
  exists s, In s sensors /\ number s = i /\ intData s = raw.
Proof.
  intros Hsmall Hl Hh Hrun Hi Hall Hp Hv.
  destruct (GetSensorData_valid dbg fs fs label hwmon Hsmall Hl Hh)
    as [total [counted [t' [Hcount [Htotal Hrun']]]]].
  rewrite Hrun in Hrun'. injection Hrun' as -> _ _.
  destruct (countLoop_total fs hwmon Hsmall)
    as [N [t0 [Hcount' [_ [_ [Hend _]]]]]].
  rewrite Hcount in Hcount'. injection Hcount' as <- <-.
  assert (i <= total).
  { destruct (Z.le_gt_cases i total) as [Hle|Hgt]; [exact Hle|].
    exfalso. apply Hend, Hall. lia. }
  exists (record label hwmon total i raw). split; [|split; reflexivity].
  apply collected_complete; try assumption. lia.
Qed.

(** A line of the report is a line of one of the listed devices. *)
Lemma in_report dbg fs g dirs l :
  In l (concat (map (deviceReport dbg fs g) dirs)) <->
  exists dir, In dir dirs /\ In l (deviceReport dbg fs g dir).
Proof.
  rewrite in_concat. split.
  - intros [ls [Hls Hl]]. apply in_map_iff in Hls as [dir [<- Hdir]]. eauto.
  - intros [dir [Hdir Hl]]. exists (deviceReport dbg fs g dir).
    split; [|exact Hl]. apply in_map_iff. eauto.
Qed.

Lemma in_report_device dbg fs g dirs dir l :
  In dir dirs -> lineDevice l = Some dir ->
  (In l (concat (map (deviceReport dbg fs g) dirs)) <->
   In l (deviceReport dbg fs g dir)).
Proof.
  intros Hdir Hdev. rewrite in_report. split.
  - intros [dir' [_ Hl]].
    pose proof (deviceReport_device _ _ _ _ _ Hl) as Hdev'.
    rewrite Hdev in Hdev'. injection Hdev' as ->. exact Hl.
  - eauto.
Qed.

(** The lines of a device with a name, by what [GetSensorData] returns. *)
Lemma deviceReport_named dbg fs g dir content sensors err got :
  ReadFile fs (namePath dir) = Some content -> content <> EmptyString ->
  GetSensorData dbg fs fs (Trim content cutset) dir
    = Some ((sensors, err), got) ->
  (err = None <-> sensors <> []) ->
  deviceReport dbg fs g dir =
  match sensors with
  | [] => [NotAvailableLine dir (pad g (Trim content cutset))]
  | _ :: _ => map (sensorLine g dir) sensors
  end.
Proof.
  intros Hread Hne Hrun Herr. unfold deviceReport. rewrite Hread.
  destruct (len content <? 1) eqn:El; [apply len_lt_1 in El; contradiction|].
  rewrite Hrun. destruct sensors as [|s sensors]; [now destruct err|].
  destruct err as [e|]; [|reflexivity].
  exfalso. assert (Some e = None) by (apply Herr; discriminate).
  discriminate.
Qed.

Lemma deviceReport_nameless dbg fs g dir :
  ReadFile fs (namePath dir) = None \/
  ReadFile fs (namePath dir) = Some EmptyString ->
  deviceReport dbg fs g dir = [].
Proof. unfold deviceReport. now intros [-> | ->]. Qed.

End ReportFacts.

(* ===================================================================== *)
(** ** The quirk detection does not depend on the order of the listing *)
(* ===================================================================== *)

Module OrderFacts.

Import Go Tempchk Props GoFacts TraceFacts.

Lemma flagsLoop_width dbg fs dirs g :
  maxEntryLength (flagsLoop dbg fs dirs g).1 =
  widest fs dirs (maxEntryLength g).
Proof.
  revert g. induction dirs as [|dir rest IH]; intros g; [reflexivity|].
  rewrite flagsLoop_step. cbv zeta. unfold widest. simpl fold_left.
  fold (widest fs rest (widen fs (maxEntryLength g) dir)).
  unfold widen.
  destruct (ReadFile fs (namePath dir)) as [content|]; simpl fst.
  - destruct (len content <? 1); simpl fst.
    + apply IH.
    + rewrite IH. f_equal.
      destruct (String.eqb (Trim content cutset) "fam15h_power");
        destruct (len (Trim content cutset) >? maxEntryLength g) eqn:E;
        simpl; rewrite Z.gtb_ltb in E;
        [apply Z.ltb_lt in E | apply Z.ltb_ge in E
        |apply Z.ltb_lt in E | apply Z.ltb_ge in E]; lia.
  - apply IH.
Qed.

Lemma widen_swap fs m a b :
  widen fs (widen fs m a) b = widen fs (widen fs m b) a.
Proof.
  unfold widen.
  destruct (ReadFile fs (namePath a)) as [ca|];
    destruct (ReadFile fs (namePath b)) as [cb|]; try reflexivity.
  destruct (len ca <? 1); destruct (len cb <? 1); try reflexivity. lia.
Qed.

Lemma widest_perm fs dirs dirs' :
  Permutation dirs dirs' -> forall m, widest fs dirs m = widest fs dirs' m.
Proof.
  unfold widest. induction 1 as [|d l l' _ IH|a b l|l l' l'' _ IH1 _ IH2];
    intros m; simpl.
  - reflexivity.
  - apply IH.
  - now rewrite widen_swap.
  - now rewrite IH1.
Qed.

Lemma existsb_perm {A} (f : A -> bool) (l l' : list A) :
  Permutation l l' -> existsb f l = existsb f l'.
Proof.
  intros HP. apply eq_true_iff_eq. rewrite !existsb_exists.
  split; intros [x [Hx Hf]]; exists x; split; try assumption.
  - now apply (Permutation_in _ HP).
  - now apply (Permutation_in _ (Permutation_sym HP)).
Qed.

Lemma globals_eq g1 g2 :
  digitalAmdPowerModuleInUse g1 = digitalAmdPowerModuleInUse g2 ->
  maxEntryLength g1 = maxEntryLength g2 -> g1 = g2.
Proof. destruct g1, g2; simpl; congruence. Qed.

Lemma SetGlobalSensorFlags_width dbg fs dirs g :
  maxEntryLength (SetGlobalSensorFlags dbg fs dirs g).1.2 =
  widest fs dirs (maxEntryLength g).
Proof.
  destruct dirs as [|dir rest]; [reflexivity|].
  unfold SetGlobalSensorFlags.
  pose proof (flagsLoop_width dbg fs (dir :: rest) g) as Hw.
  destruct (flagsLoop dbg fs (dir :: rest) g) as [g1 looped].
  simpl fst in Hw.
  destruct (ReadFile fs cpuinfoDirectory) as [c|]; [|exact Hw].
  destruct (len c =? 0); [exact Hw|].
  destruct (String.eqb c EmptyString); [exact Hw|].
  destruct (Contains c "Ryzen"); exact Hw.
Qed.

(** The variables after the detection are those of any reordering of the
    listing. *)
Lemma detected_perm dbg fs dirs dirs' :
  Permutation dirs dirs' -> detected dbg fs dirs = detected dbg fs dirs'.
Proof.
  intros HP.
  destruct dirs as [|d rest].
  { apply Permutation_nil in HP. now subst. }
  assert (Hne : d :: rest <> []) by discriminate.
  assert (Hne' : dirs' <> []).
  { intros ->. apply Permutation_sym, Permutation_nil in HP. discriminate. }
  apply globals_eq.
  - unfold detected.
    destruct (SetGlobalSensorFlags_run dbg fs (d :: rest) initialGlobals Hne)
      as [g1 [t1 [E1 [F1 _]]]].
    destruct (SetGlobalSensorFlags_run dbg fs dirs' initialGlobals Hne')
      as [g2 [t2 [E2 [F2 _]]]].
    rewrite E1, E2. simpl. rewrite F1, F2.
    now rewrite (existsb_perm _ _ _ HP).
  - unfold detected. rewrite !SetGlobalSensorFlags_width.
    now apply widest_perm.
Qed.

End OrderFacts.

(* ===================================================================== *)
(** ** The properties of the sensor pipeline *)
(* ===================================================================== *)

Module Claims.

Import Go Tempchk Props Examples.
Import GoFacts CountFacts ReadFacts SensorFacts TraceFacts ReportFacts.
Import OrderFacts.

(** C1. A reading with raw value R and device label L is normalised to
    R / 1000 (division truncating toward zero), except that it is
    R / 1000 + 30 when L is "k10temp" and the alternate power module flag
    is false; no other label or flag changes the scaled value, and this
    is the value the line of the sensor shows. *)
Theorem C1_normalized_value (g : Globals) (dir : string) (sensor : Sensor) :
  inInt (intData sensor) ->
  (name sensor = "k10temp" /\ digitalAmdPowerModuleInUse g = false ->
   intData (normalize g sensor) = Z.quot (intData sensor) 1000 + 30) /\
  (name sensor <> "k10temp" \/ digitalAmdPowerModuleInUse g = true ->
   intData (normalize g sensor) = Z.quot (intData sensor) 1000) /\
  (exists padded sensorLabel,
     sensorLine g dir sensor =
     SensorLine dir padded (intData (normalize g sensor)) sensorLabel).
Proof.
  intros Hr. split; [|split].
  - intros [Hname Hflag].
    now rewrite (normalize_intData g sensor Hr), Hname, Hflag.
  - intros [Hname | Hflag]; rewrite (normalize_intData g sensor Hr).
    + apply String.eqb_neq in Hname. now rewrite Hname.
    + rewrite Hflag. now rewrite andb_false_r.
  - unfold sensorLine. eexists _, _. reflexivity.
Qed.

Lemma C1_witness :
  inInt 45000 /\
  intData (normalize initialGlobals (record "k10temp" "hwmon0" 1 1 45000))
  = 75.
Proof.
  split.
  - unfold inInt, minInt, maxInt. lia.
  - apply (C1_normalized_value initialGlobals "hwmon0"
             (record "k10temp" "hwmon0" 1 1 45000)).
    + unfold inInt, minInt, maxInt. simpl. lia.
    + split; reflexivity.
Defined.

(** C2. After the quirk detection over a listing that is not empty, the
    alternate power module flag is true if and only if the name file of
    some listed device trims to exactly "fam15h_power", or the CPU
    identification file can be read, is not empty and contains "Ryzen";
    the call returns no error, and a device whose name file cannot be
    read or is empty leaves the variables as they are. *)
Theorem C2_flag_iff (dbg : bool) (fs : gmap string string)
    (dirs : list string) :
  dirs <> [] ->
  (SetGlobalSensorFlags dbg fs dirs initialGlobals).1.1 = None /\
  (digitalAmdPowerModuleInUse (detected dbg fs dirs) = true <->
   (exists dir content,
      In dir dirs /\ ReadFile fs (namePath dir) = Some content /\
      Trim content cutset = "fam15h_power")
   \/
   (exists cpuinfo,
      ReadFile fs cpuinfoDirectory = Some cpuinfo /\ cpuinfo <> EmptyString /\
      exists a b, cpuinfo = a +:+ "Ryzen" +:+ b)) /\
  (forall dir rest g,
     ReadFile fs (namePath dir) = None \/
     ReadFile fs (namePath dir) = Some EmptyString ->
     (flagsLoop dbg fs (dir :: rest) g).1 = (flagsLoop dbg fs rest g).1).
Proof.
  intros Hne.
  destruct (SetGlobalSensorFlags_run dbg fs dirs initialGlobals Hne)
    as [g' [t [Hrun [Hflag _]]]].
  split; [now rewrite Hrun|]. split.
  - unfold detected. rewrite Hrun. simpl fst. simpl snd.
    rewrite Hflag. simpl digitalAmdPowerModuleInUse.
    rewrite orb_false_l, orb_true_iff, existsb_exists, cpuIsRyzen_spec.
    split.
    + intros [[dir [Hin Hp]] | Hcpu]; [left | now right].
      apply isPowerModule_spec in Hp as [content [Hread Htrim]].
      now exists dir, content.
    + intros [[dir [content [Hin [Hread Htrim]]]] | Hcpu]; [left | now right].
      exists dir. split; [exact Hin|].
      apply isPowerModule_spec. now exists content.
  - intros dir rest g [Hread | Hread]; rewrite flagsLoop_step; cbv zeta;
      rewrite Hread; reflexivity.
Qed.

Lemma C2_witness :
  ["hwmon2"; "hwmon1"] <> [] /\
  digitalAmdPowerModuleInUse (detected false powerFiles ["hwmon2"; "hwmon1"])
  = true.
Proof.
  split; [discriminate|].
  apply (C2_flag_iff false powerFiles ["hwmon2"; "hwmon1"]); [discriminate|].
  left. exists "hwmon1", ("fam15h_power" +:+ nl).
  split; [right; left; reflexivity|].
  split; vm_compute; reflexivity.
Defined.

Lemma countLoop_more_fuel fs hwmon fuel :
  forall c r fuel',
    countLoop fs hwmon fuel c = Some r -> (fuel <= fuel')%nat ->
    countLoop fs hwmon fuel' c = Some r.
Proof.
  induction fuel as [|fuel IH]; intros c r fuel' Hrun Hle; [discriminate|].
  destruct fuel' as [|fuel']; [lia|].
  rewrite countLoop_step in *.
  destruct (ReadFile fs (inputPath hwmon c)) as [d|]; [|exact Hrun].
  destruct (len d <? 1); [exact Hrun|].
  destruct (countLoop fs hwmon fuel (add c 1)) as [[N t]|] eqn:E;
    [|discriminate].
  rewrite (IH _ _ fuel' E) by lia. exact Hrun.
Qed.

(** C3. The count of the counting pass is the largest N >= 0 such that
    every input file with an index in 1..N can be read and is not empty:
    the pass reads the files from index 1 on, in order, and the first
    file that is missing or empty ends it. *)
Theorem C3_sensor_count (fs : gmap string string) (hwmon : string) :
  fitsInt fs ->
  exists N t,
    (forall fuel, (size fs < fuel)%nat ->
                  countLoop fs hwmon fuel 1 = Some (N, t)) /\
    0 <= N /\
    (forall i, 1 <= i <= N -> inputPresent fs hwmon i) /\
    (forall M, 0 <= M ->
               (forall i, 1 <= i <= M -> inputPresent fs hwmon i) -> M <= N) /\
    fileReads t =
      map (inputPath hwmon) (map Z.of_nat (seq 1 (Z.to_nat (N + 1)))).
Proof.
  intros Hsmall.
  destruct (countLoop_total fs hwmon Hsmall)
    as [N [t [Hrun [HN [Hok [Hend Hreads]]]]]].
  exists N, t. split; [|split; [lia|split; [exact Hok|split; [|exact Hreads]]]].
  - intros fuel Hfuel. apply (countLoop_more_fuel _ _ _ _ _ _ Hrun). lia.
  - intros M HM Hall.
    destruct (Z.le_gt_cases M N) as [Hle|Hgt]; [exact Hle|].
    exfalso. apply Hend, Hall. lia.
Qed.

Lemma C3_witness :
  fitsInt legacyFiles /\
  exists N t,
    (forall fuel, (size legacyFiles < fuel)%nat ->
                  countLoop legacyFiles "hwmon0" fuel 1 = Some (N, t)) /\
    0 <= N /\
    (forall i, 1 <= i <= N -> inputPresent legacyFiles "hwmon0" i) /\
    (forall M, 0 <= M ->
       (forall i, 1 <= i <= M -> inputPresent legacyFiles "hwmon0" i) ->
       M <= N) /\
    fileReads t =
      map (inputPath "hwmon0") (map Z.of_nat (seq 1 (Z.to_nat (N + 1)))).
Proof.
  split.
  - vm_compute. reflexivity.
  - apply (C3_sensor_count legacyFiles "hwmon0"). vm_compute. reflexivity.
Defined.

Example C3_legacy_count :
  option_map fst
    (countLoop legacyFiles "hwmon0" (S (size legacyFiles)) 1) = Some 3.
Proof. vm_compute. reflexivity. Qed.

(** C4 as the specification states it, refuted: it says that in the
    reading pass every index of 1..totalForCategory whose file is
    unreadable, empty, not a number or not positive is left out, and that
    the pass goes on to every remaining index.  With two input files at
    the time of the count and the first one unreadable at the time of the
    read, the pass ends at index 1 and the valid reading at index 2 is
    not in the result. *)
Lemma C4_counterexample :
  ~ (forall dbg fsCount fsRead label hwmon total counted sensors err t,
       fitsInt fsCount -> label <> EmptyString -> hwmon <> EmptyString ->
       countLoop fsCount hwmon (S (size fsCount)) 1 = Some (total, counted) ->
       GetSensorData dbg fsCount fsRead label hwmon
         = Some ((sensors, err), t) ->
       forall i, 1 <= i <= total ->
         (~ inputValid fsRead hwmon i -> ~ hasNumber sensors i) /\
         (inputValid fsRead hwmon i -> hasNumber sensors i)).
Proof.
  intros H.
  assert (Hcount : countLoop filesAtCount "hwmon0" (S (size filesAtCount)) 1
                   = Some (2, [EvReadFile (inputPath "hwmon0" 1);
                               EvReadFile (inputPath "hwmon0" 2);
                               EvReadFile (inputPath "hwmon0" 3)]))
    by (vm_compute; reflexivity).
  assert (Hrun : GetSensorData false filesAtCount filesAtRead "k10temp" "hwmon0"
                 = Some (([], Some "GetSensorData(): no valid sensors"),
                         [EvReadFile (inputPath "hwmon0" 1);
                          EvReadFile (inputPath "hwmon0" 2);
                          EvReadFile (inputPath "hwmon0" 3);
                          EvReadFile (inputPath "hwmon0" 1)]))
    by (vm_compute; reflexivity).
  assert (Hsmall : fitsInt filesAtCount) by (vm_compute; reflexivity).
  destruct (H false filesAtCount filesAtRead "k10temp" "hwmon0" _ _ _ _ _
              Hsmall ltac:(discriminate) ltac:(discriminate) Hcount Hrun
              2 ltac:(lia)) as [_ Hkept].
  destruct Hkept as [s [[] _]].
  exists 50000. split; [|lia].
  exists ("50000" +:+ nl). split; [vm_compute; reflexivity|].
  split; [discriminate | vm_compute; reflexivity].
Qed.

(** C4, amended.  In the reading pass, for every index i of
    1..totalForCategory the pass reaches (the files before it could be
    read and were not empty): i is in the result exactly when its file
    can be read, is not empty and parses, after trimming spaces and line
    feeds, to an integer of at least 1; an index whose file does not
    parse or is not positive is left out and the pass goes on.  A file
    that cannot be read or is empty at the time of the read ends the
    pass: that index and all later ones are left out.  When the files are
    those of the counting pass, every index of 1..totalForCategory is
    reached. *)
Theorem C4_read_pass (dbg : bool) (fsCount fsRead : gmap string string)
    (label hwmon : string) :
  fitsInt fsCount -> label <> EmptyString -> hwmon <> EmptyString ->
  exists total counted sensors err t,
    countLoop fsCount hwmon (S (size fsCount)) 1 = Some (total, counted) /\
    GetSensorData dbg fsCount fsRead label hwmon = Some ((sensors, err), t) /\
    (forall i, 1 <= i <= total ->
       (forall j, 1 <= j < i -> inputPresent fsRead hwmon j) ->
       (hasNumber sensors i <-> inputValid fsRead hwmon i)) /\
    (forall i, 1 <= i <= total ->
       ~ inputPresent fsRead hwmon i ->
       forall k, i <= k -> ~ hasNumber sensors k) /\
    (fsRead = fsCount ->
     forall i, 1 <= i <= total ->
       (hasNumber sensors i <-> inputValid fsRead hwmon i)).
Proof.
  intros Hsmall Hl Hh.
  destruct (GetSensorData_valid dbg fsCount fsRead label hwmon Hsmall Hl Hh)
    as [total [counted [t [Hcount [Htotal Hrun]]]]].
  destruct (countLoop_total fsCount hwmon Hsmall)
    as [N [t0 [Hcount' [_ [Hpresent _]]]]].
  rewrite Hcount in Hcount'. injection Hcount' as <- <-.
  set (sensors := collected fsRead label hwmon total (Z.to_nat total) 1) in *.
  assert (Hreached : forall i, 1 <= i <= total ->
            (forall j, 1 <= j < i -> inputPresent fsRead hwmon j) ->
            (hasNumber sensors i <-> inputValid fsRead hwmon i)).
  { intros i Hi Hbefore. split.
    - intros [s [Hin Hnum]].
      apply collected_records in Hin as [_ [_ [Hp [Hv _]]]].
      rewrite Hnum in Hp. now exists (intData s).
    - intros [v [Hp Hv]].
      exists (record label hwmon total i v). split; [|reflexivity].
      apply collected_complete; try assumption; [lia|].
      intros j Hj. destruct (Z.eq_dec j i) as [->|Hne].
      + destruct Hp as [d [Hd [Hne _]]]. now exists d.
      + apply Hbefore. lia. }
  exists total, counted, sensors. eexists _, _.
  split; [exact Hcount|]. split; [exact Hrun|].
  split; [exact Hreached|]. split.
  - intros i Hi Hgone k Hk [s [Hin Hnum]].
    apply collected_records in Hin as [_ [_ [_ [_ Hall]]]].
    apply Hgone, Hall. lia.
  - intros -> i Hi. apply Hreached; [exact Hi|].
    intros j Hj. apply Hpresent. lia.
Qed.

Lemma C4_witness :
  (fitsInt legacyFiles /\
   "k10temp" <> EmptyString /\ "hwmon0" <> EmptyString) /\
  exists total counted sensors err t,
    countLoop legacyFiles "hwmon0" (S (size legacyFiles)) 1
      = Some (total, counted) /\
    GetSensorData false legacyFiles legacyFiles "k10temp" "hwmon0"
      = Some ((sensors, err), t) /\
    (forall i, 1 <= i <= total ->
       (forall j, 1 <= j < i -> inputPresent legacyFiles "hwmon0" j) ->
       (hasNumber sensors i <-> inputValid legacyFiles "hwmon0" i)) /\
    (forall i, 1 <= i <= total ->
       ~ inputPresent legacyFiles "hwmon0" i ->
       forall k, i <= k -> ~ hasNumber sensors k) /\
    (legacyFiles = legacyFiles ->
     forall i, 1 <= i <= total ->
       (hasNumber sensors i <-> inputValid legacyFiles "hwmon0" i)).
Proof.
  split.
  - split; [vm_compute; reflexivity | split; discriminate].
  - apply (C4_read_pass false legacyFiles legacyFiles "k10temp" "hwmon0");
      [vm_compute; reflexivity | discriminate | discriminate].
Defined.

Example C4_legacy_numbers :
  option_map (fun r => map number (fst (fst r)))
    (GetSensorData false legacyFiles legacyFiles "k10temp" "hwmon0")
  = Some [1; 3].
Proof. vm_compute. reflexivity. Qed.

(** C9. In every list of records [GetSensorData] returns without error,
    each record has 1 <= number <= count, all records carry as count the
    total the counting pass has found before any record was built, and
    the numbers go strictly up along the list. *)
Theorem C9_numbers_and_count (dbg : bool)
    (fsCount fsRead : gmap string string) (label hwmon : string)
    (sensors : list Sensor) (t : list Event) :
  fitsInt fsCount ->
  GetSensorData dbg fsCount fsRead label hwmon = Some ((sensors, None), t) ->
  exists total counted,
    countLoop fsCount hwmon (S (size fsCount)) 1 = Some (total, counted) /\
    Forall (fun s => 1 <= number s <= count s /\ count s = total) sensors /\
    StronglySorted Z.lt (map number sensors).
Proof.
  intros Hsmall Hrun.
  destruct (String.eqb_spec label EmptyString) as [->|Hl].
  { rewrite GetSensorData_invalid in Hrun by auto. discriminate. }
  destruct (String.eqb_spec hwmon EmptyString) as [->|Hh].
  { rewrite GetSensorData_invalid in Hrun by auto. discriminate. }
  destruct (GetSensorData_valid dbg fsCount fsRead label hwmon Hsmall Hl Hh)
    as [total [counted [t' [Hcount [Htotal Hrun']]]]].
  rewrite Hrun in Hrun'. injection Hrun' as -> _ _.
  exists total, counted. split; [exact Hcount|]. split.
  - apply List.Forall_forall. intros s Hin.
    apply collected_records in Hin as [Hs [Hnum _]].
    assert (Hc : count s = total) by (rewrite Hs; reflexivity).
    rewrite Hc. split; [lia | reflexivity].
  - apply collected_sorted.
Qed.

Lemma C9_witness :
  fitsInt legacyFiles /\
  exists total counted,
    countLoop legacyFiles "hwmon0" (S (size legacyFiles)) 1
      = Some (total, counted) /\
    Forall (fun s => 1 <= number s <= count s /\ count s = total)
      [record "k10temp" "hwmon0" 3 1 45000;
       record "k10temp" "hwmon0" 3 3 51999] /\
    StronglySorted Z.lt
      (map number [record "k10temp" "hwmon0" 3 1 45000;
                   record "k10temp" "hwmon0" 3 3 51999]).
Proof.
  split; [vm_compute; reflexivity|].
  eapply (C9_numbers_and_count false legacyFiles legacyFiles
            "k10temp" "hwmon0");
    vm_compute; reflexivity.
Defined.

(** C5. In every listing with a device labelled "k10temp" and a device
    labelled "fam15h_power", wherever they stand, each reading of the
    k10temp device is shown as raw / 1000 without the 30 added, and the
    lines of that device are the same for every reordering of the
    listing: the detection has gone over all devices before any reading
    is normalised. *)
Theorem C5_order_independent (v : string) (dbg : bool) (w : World)
    (dirs : list string) (dk df : string) :
  rootListing w = Some dirs -> fitsInt (files w) ->
  In dk dirs -> In df dirs ->
  labelOf (files w) dk "k10temp" -> labelOf (files w) df "fam15h_power" ->
  exists t sensors err got,
    run (mkOptions false dbg v) w = Some (Returned, t) /\
    GetSensorData dbg (files w) (files w) "k10temp" dk
      = Some ((sensors, err), got) /\
    (forall s, In s sensors ->
       exists padded sensorLabel,
         In (SensorLine dk padded (Z.quot (intData s) 1000) sensorLabel)
            (reportLines t)) /\
    (forall i raw,
       dk <> EmptyString -> 1 <= i ->
       (forall j, 1 <= j <= i -> inputPresent (files w) dk j) ->
       inputParses (files w) dk i raw -> 1 <= raw ->
       exists padded sensorLabel,
         In (SensorLine dk padded (Z.quot raw 1000) sensorLabel)
            (reportLines t)) /\
    (forall padded value sensorLabel,
       In (SensorLine dk padded value sensorLabel) (reportLines t) ->
       exists s, In s sensors /\ value = Z.quot (intData s) 1000) /\
    (forall w' dirs' o t',
       Permutation dirs dirs' ->
       rootListing w' = Some dirs' -> files w' = files w ->
       run (mkOptions false dbg v) w' = Some (o, t') ->
       forall l, lineDevice l = Some dk ->
                 (In l (reportLines t) <-> In l (reportLines t'))).
Proof.
  intros Hlist Hsmall Hdk Hdf [ck [Hck [Hnek Hlk]]] [cf [Hcf [Hnef Hlf]]].
  assert (Hne : dirs <> []) by (intros ->; destruct Hdk).
  destruct (run_report v dbg w dirs Hlist Hne Hsmall)
    as [t [Hrun [Hlines Hflag]]].
  set (g := detected dbg (files w) dirs) in *.
  assert (Hon : digitalAmdPowerModuleInUse g = true).
  { rewrite Hflag. apply orb_true_iff. left. apply existsb_exists.
    exists df. split; [exact Hdf|]. apply isPowerModule_spec. now exists cf. }
  destruct (GetSensorData_total dbg (files w) (files w) "k10temp" dk Hsmall)
    as [sensors [err [got [Hget Herr]]]].
  assert (Hdev : deviceReport dbg (files w) g dk =
                 match sensors with
                 | [] => [NotAvailableLine dk (pad g "k10temp")]
                 | _ :: _ => map (sensorLine g dk) sensors
                 end).
  { rewrite <- Hlk.
    apply (deviceReport_named dbg (files w) g dk ck sensors err got);
      try assumption. now rewrite Hlk. }
  assert (Hval : forall s, In s sensors ->
            intData (normalize g s) = Z.quot (intData s) 1000).
  { intros s Hs.
    destruct (GetSensorData_records _ _ _ _ _ _ _ _ s Hsmall Hget Hs)
      as [_ [Hr _]].
    rewrite (normalize_intData g s Hr), Hon. now rewrite andb_false_r. }
  assert (Hshown : forall s, In s sensors ->
            exists padded sensorLabel,
              In (SensorLine dk padded (Z.quot (intData s) 1000) sensorLabel)
                 (reportLines t)).
  { intros s Hs. rewrite <- (Hval s Hs). eexists _, _.
    rewrite Hlines. apply in_report. exists dk. split; [exact Hdk|].
    rewrite Hdev. destruct sensors as [|s0 rest]; [destruct Hs|].
    apply in_map_iff. exists s. split; [reflexivity | exact Hs]. }
  exists t, sensors, err, got.
  split; [exact Hrun|]. split; [exact Hget|]. split; [exact Hshown|].
  split; [|split].
  - intros i raw Hdkne Hi Hall Hp Hv.
    destruct (GetSensorData_keeps dbg (files w) "k10temp" dk sensors err got
                i raw Hsmall ltac:(discriminate) Hdkne Hget Hi Hall Hp Hv)
      as [s [Hs [_ Hraw]]].
    rewrite <- Hraw. now apply Hshown.
  - intros padded value sensorLabel Hin.
    rewrite Hlines in Hin.
    apply (in_report_device dbg (files w) g dirs dk) in Hin;
      [|exact Hdk | reflexivity].
    rewrite Hdev in Hin. destruct sensors as [|s0 rest].
    + destruct Hin as [Hin|[]]. discriminate.
    + apply in_map_iff in Hin as [s [Hline Hs]].
      exists s. split; [exact Hs|].
      rewrite <- (Hval s Hs). unfold sensorLine in Hline.
      now injection Hline.
  - intros w' dirs' o t' HP Hlist' Hfiles Hrun' l Hl.
    assert (Hne' : dirs' <> []).
    { intros ->. apply Permutation_sym, Permutation_nil in HP. contradiction. }
    assert (Hsmall' : fitsInt (files w')) by now rewrite Hfiles.
    destruct (run_report v dbg w' dirs' Hlist' Hne' Hsmall')
      as [t'' [Hrun'' [Hlines' _]]].
    rewrite Hrun' in Hrun''. injection Hrun'' as _ <-.
    rewrite Hfiles in Hlines'.
    rewrite <- (detected_perm dbg (files w) dirs dirs' HP) in Hlines'.
    fold g in Hlines'. rewrite Hlines, Hlines'.
    rewrite (in_report_device dbg (files w) g dirs dk l Hdk Hl).
    rewrite (in_report_device dbg (files w) g dirs' dk l
               (Permutation_in _ HP Hdk) Hl).
    reflexivity.
Qed.

Lemma C5_witness :
  (rootListing powerWorld = Some ["hwmon2"; "hwmon1"] /\
   fitsInt (files powerWorld) /\
   In "hwmon2" ["hwmon2"; "hwmon1"] /\ In "hwmon1" ["hwmon2"; "hwmon1"] /\
   labelOf (files powerWorld) "hwmon2" "k10temp" /\
   labelOf (files powerWorld) "hwmon1" "fam15h_power") /\
  exists t,
    run defaults powerWorld = Some (Returned, t) /\
    exists padded sensorLabel,
      In (SensorLine "hwmon2" padded 50 sensorLabel) (reportLines t).
Proof.
  assert (Hk : labelOf (files powerWorld) "hwmon2" "k10temp").
  { exists ("k10temp" +:+ nl).
    split; [vm_compute; reflexivity|].
    split; [discriminate | vm_compute; reflexivity]. }
  assert (Hf : labelOf (files powerWorld) "hwmon1" "fam15h_power").
  { exists ("fam15h_power" +:+ nl).
    split; [vm_compute; reflexivity|].
    split; [discriminate | vm_compute; reflexivity]. }
  assert (Hsmall : fitsInt (files powerWorld)) by (vm_compute; reflexivity).
  split.
  - split; [reflexivity|]. split; [exact Hsmall|].
    split; [now left|]. split; [right; now left|]. split; assumption.
  - destruct (C5_order_independent "0.0" false powerWorld
                ["hwmon2"; "hwmon1"] "hwmon2" "hwmon1"
                eq_refl Hsmall (or_introl eq_refl)
                (or_intror (or_introl eq_refl)) Hk Hf)
      as [t [sensors [err [got [Hrun [_ [_ [Hraw _]]]]]]]].
    exists t. split; [exact Hrun|]. clear Hrun.
    assert (Hone : inputParses (files powerWorld) "hwmon2" 1 50000).
    { exists "50000". split; [vm_compute; reflexivity|].
      split; [discriminate | vm_compute; reflexivity]. }
    refine (Hraw 1 50000 _ _ _ Hone _).
    + discriminate.
    + reflexivity.
    + intros j Hj. assert (j = 1) as -> by (clear - Hj; lia).
      destruct Hone as [d [Hd [Hne _]]]. exists d. split; assumption.
    + discriminate.
Defined.

Example C5_power_report :
  option_map (fun r => reportLines (snd r)) (run defaults powerWorld)
  = Some [SensorLine "hwmon2" "k10temp         " 50 "C   temperature sensor 1";
          NotAvailableLine "hwmon1" "fam15h_power    "].
Proof. vm_compute. reflexivity. Qed.

Example C5_legacy_report :
  option_map (fun r => reportLines (snd r)) (run defaults legacyWorld)
  = Some [SensorLine "hwmon0" "k10temp     " 75 "C   temperature sensor 1";
          SensorLine "hwmon0" "k10temp     " 81 "C   temperature sensor 3";
          NotAvailableLine "hwmon1" "coretemp    "].
Proof. vm_compute. reflexivity. Qed.

Example legacy_stdout :
  option_map (fun r => map render (stdout (snd r))) (run defaults legacyWorld)
  = Some
      [ "hwmon0    k10temp      75 C   temperature sensor 1" +:+ nl;
        "hwmon0    k10temp      81 C   temperature sensor 3" +:+ nl;
        "hwmon1    coretemp     N/A" +:+ nl ].
Proof. vm_compute. reflexivity. Qed.

(** C6. [GetSensorData] returns an error if and only if it returns no
    record (which is also the case when the label or the directory is
    empty); with a label and a directory the error of an empty result is
    "no valid sensors".  In [main] the error is not fatal: the device is
    printed with the N/A marker, the devices after it are reported and
    the run returns. *)
Theorem C6_error_iff_no_reading (dbg : bool) :
  (forall fsCount fsRead label hwmon,
     fitsInt fsCount ->
     exists sensors err t,
       GetSensorData dbg fsCount fsRead label hwmon
         = Some ((sensors, err), t) /\
       (err <> None <-> sensors = []) /\
       (label <> EmptyString -> hwmon <> EmptyString -> sensors = [] ->
        err = Some "GetSensorData(): no valid sensors") /\
       (label = EmptyString \/ hwmon = EmptyString ->
        err = Some "GetSensorData(): invalid input")) /\
  (forall v w before dir after content sensors err got,
     rootListing w = Some (before ++ dir :: after) ->
     fitsInt (files w) ->
     ReadFile (files w) (namePath dir) = Some content ->
     content <> EmptyString ->
     GetSensorData dbg (files w) (files w) (Trim content cutset) dir
       = Some ((sensors, err), got) ->
     err <> None ->
     exists t,
       run (mkOptions false dbg v) w = Some (Returned, t) /\
       exitStatus Returned = 0 /\
       reportLines t =
         concat (map (deviceReport dbg (files w)
                        (detected dbg (files w) (before ++ dir :: after)))
                   before)
         ++ [NotAvailableLine dir
               (pad (detected dbg (files w) (before ++ dir :: after))
                    (Trim content cutset))]
         ++ concat (map (deviceReport dbg (files w)
                           (detected dbg (files w) (before ++ dir :: after)))
                      after)).
Proof.
  split.
  - intros fsCount fsRead label hwmon Hsmall.
    destruct (String.eqb_spec label EmptyString) as [->|Hl].
    { rewrite GetSensorData_invalid by auto. eexists _, _, _.
      split; [reflexivity|]. split; [split; [reflexivity | discriminate]|].
      split; [intros H; now destruct H | reflexivity]. }
    destruct (String.eqb_spec hwmon EmptyString) as [->|Hh].
    { rewrite GetSensorData_invalid by auto. eexists _, _, _.
      split; [reflexivity|]. split; [split; [reflexivity | discriminate]|].
      split; [intros _ H; now destruct H | reflexivity]. }
    destruct (GetSensorData_valid dbg fsCount fsRead label hwmon Hsmall Hl Hh)
      as [total [counted [t [_ [_ Hrun]]]]].
    rewrite Hrun. eexists _, _, _. split; [reflexivity|].
    destruct (collected fsRead label hwmon total (Z.to_nat total) 1).
    + split; [split; [reflexivity | discriminate]|].
      split; [reflexivity|]. intros [H|H]; contradiction.
    + split; [split; [intros H; now destruct H | discriminate]|].
      split; [discriminate|]. intros [H|H]; contradiction.
  - intros v w before dir after content sensors err got
      Hlist Hsmall Hread Hne Hget Herr.
    assert (Hdirs : before ++ dir :: after <> []) by (now destruct before).
    destruct (run_report v dbg w _ Hlist Hdirs Hsmall) as [t [Hrun [Hlines _]]].
    exists t. split; [exact Hrun|]. split; [reflexivity|].
    rewrite Hlines, map_app, concat_app, map_cons, concat_cons.
    f_equal. f_equal.
    unfold deviceReport. rewrite Hread.
    destruct (len content <? 1) eqn:El; [apply len_lt_1 in El; contradiction|].
    rewrite Hget. destruct err as [e|]; [|contradiction].
    now destruct sensors.
Qed.

Lemma C6_witness :
  fitsInt legacyFiles /\
  exists t,
    run defaults legacyWorld = Some (Returned, t) /\
    In (NotAvailableLine "hwmon1" "coretemp    ") (reportLines t).
Proof.
  assert (Hsmall : fitsInt legacyFiles) by (vm_compute; reflexivity).
  split; [exact Hsmall|].
  destruct (C6_error_iff_no_reading false) as [_ Hmain].
  destruct (Hmain "0.0" legacyWorld ["hwmon0"] "hwmon1" ["hwmon2"]
              ("coretemp" +:+ nl) []
              (Some "GetSensorData(): no valid sensors")
              [EvReadFile (inputPath "hwmon1" 1);
               EvReadFile (inputPath "hwmon1" 2);
               EvReadFile (inputPath "hwmon1" 1)])
    as [t [Hrun [_ Hlines]]].
  - reflexivity.
  - exact Hsmall.
  - vm_compute. reflexivity.
  - discriminate.
  - vm_compute. reflexivity.
  - discriminate.
  - exists t. split; [exact Hrun|]. rewrite Hlines.
    apply in_or_app. right. left.
    vm_compute. reflexivity.
Defined.

(** C7 as the specification states it, refuted: it says that every
    device directory of the listing is shown in the report, with the N/A
    marker when it has no usable data.  A device directory without name
    file is passed over: the run prints nothing at all for it. *)
Lemma C7_counterexample :
  ~ (forall opts w dirs o t dir,
       printVersion opts = false ->
       rootListing w = Some dirs ->
       run opts w = Some (o, t) ->
       In dir dirs ->
       exists l, In l (stdout t) /\ lineDevice l = Some dir).
Proof.
  intros H.
  destruct (H defaults namelessWorld ["hwmon0"] Returned
              [EvReadDir hardwareMonitorDirectory;
               EvReadFile (namePath "hwmon0");
               EvReadFile cpuinfoDirectory;
               EvReadFile (namePath "hwmon0")]
              "hwmon0" eq_refl eq_refl)
    as [l [Hin _]].
  - vm_compute. reflexivity.
  - left. reflexivity.
  - exact Hin.
Qed.

(** C7, amended.  Every device directory of the listing whose name file
    can be read and is not empty is shown in the report: with the N/A
    marker when [GetSensorData] returns no record for it, with one line
    per record otherwise.  A device directory whose name file cannot be
    read or is empty has no line in the report. *)
Theorem C7_listed_devices (v : string) (dbg : bool) (w : World)
    (dirs : list string) :
  rootListing w = Some dirs -> dirs <> [] -> fitsInt (files w) ->
  exists t,
    run (mkOptions false dbg v) w = Some (Returned, t) /\
    forall dir, In dir dirs ->
      (forall content,
         ReadFile (files w) (namePath dir) = Some content ->
         content <> EmptyString ->
         (exists l, In l (reportLines t) /\ lineDevice l = Some dir) /\
         exists sensors err got,
           GetSensorData dbg (files w) (files w) (Trim content cutset) dir
             = Some ((sensors, err), got) /\
           (sensors = [] ->
            In (NotAvailableLine dir
                  (pad (detected dbg (files w) dirs) (Trim content cutset)))
               (reportLines t)) /\
           (forall s, In s sensors ->
              In (sensorLine (detected dbg (files w) dirs) dir s)
                 (reportLines t))) /\
      (ReadFile (files w) (namePath dir) = None \/
       ReadFile (files w) (namePath dir) = Some EmptyString ->
       forall l, In l (reportLines t) -> lineDevice l <> Some dir).
Proof.
  intros Hlist Hne Hsmall.
  destruct (run_report v dbg w dirs Hlist Hne Hsmall) as [t [Hrun [Hlines _]]].
  set (g := detected dbg (files w) dirs) in *.
  exists t. split; [exact Hrun|]. intros dir Hdir. split.
  - intros content Hread Hcontent.
    destruct (GetSensorData_total dbg (files w) (files w)
                (Trim content cutset) dir Hsmall)
      as [sensors [err [got [Hget Herr]]]].
    pose proof (deviceReport_named dbg (files w) g dir content sensors err got
                  Hread Hcontent Hget Herr) as Hdev.
    assert (Hfrom : forall l, In l (deviceReport dbg (files w) g dir) ->
                              In l (reportLines t)).
    { intros l Hl. rewrite Hlines. apply in_report. eauto. }
    split.
    + destruct sensors as [|s sensors].
      * exists (NotAvailableLine dir (pad g (Trim content cutset))).
        split; [|reflexivity]. apply Hfrom. rewrite Hdev. now left.
      * exists (sensorLine g dir s). split; [|reflexivity].
        apply Hfrom. rewrite Hdev. now left.
    + exists sensors, err, got. split; [exact Hget|]. split.
      * intros ->. apply Hfrom. rewrite Hdev. now left.
      * intros s Hs. apply Hfrom. rewrite Hdev.
        destruct sensors as [|s0 rest]; [destruct Hs|].
        apply in_map_iff. eauto.
  - intros Hnone l Hl Hdev. rewrite Hlines in Hl.
    apply (in_report_device dbg (files w) g dirs dir l Hdir Hdev) in Hl.
    rewrite (deviceReport_nameless dbg (files w) g dir Hnone) in Hl.
    destruct Hl.
Qed.

Lemma C7_witness :
  (rootListing legacyWorld = Some ["hwmon0"; "hwmon1"; "hwmon2"] /\
   ["hwmon0"; "hwmon1"; "hwmon2"] <> [] /\ fitsInt (files legacyWorld)) /\
  exists t,
    run defaults legacyWorld = Some (Returned, t) /\
    (exists l, In l (reportLines t) /\ lineDevice l = Some "hwmon1") /\
    (forall l, In l (reportLines t) -> lineDevice l <> Some "hwmon2").
Proof.
  assert (Hsmall : fitsInt (files legacyWorld)) by (vm_compute; reflexivity).
  split; [split; [reflexivity | split; [discriminate | exact Hsmall]]|].
  destruct (C7_listed_devices "0.0" false legacyWorld
              ["hwmon0"; "hwmon1"; "hwmon2"] eq_refl
              ltac:(discriminate) Hsmall)
    as [t [Hrun Hdevs]].
  exists t. split; [exact Hrun|]. split.
  - destruct (Hdevs "hwmon1" (or_intror (or_introl eq_refl))) as [Hnamed _].
    destruct (Hnamed ("coretemp" +:+ nl)) as [Hshown _].
    + vm_compute. reflexivity.
    + discriminate.
    + exact Hshown.
  - destruct (Hdevs "hwmon2" (or_intror (or_intror (or_introl eq_refl))))
      as [_ Hnameless].
    apply Hnameless. left. vm_compute. reflexivity.
Defined.

(** C8. When the hardware-monitor root directory cannot be listed, the
    run panics (exit status 2) with the listing as its only event: no
    file is read and nothing is printed.  No other failure of the file
    system ends the run early: once the root is listed the outcome is
    fixed by the listing alone, and with a listing that is not empty the
    run returns whatever the files are. *)
Theorem C8_unlisted_root_is_fatal (v : string) (dbg : bool) (w : World) :
  (rootListing w = None ->
   run (mkOptions false dbg v) w
     = Some (Panicked, [EvReadDir hardwareMonitorDirectory]) /\
   exitStatus Panicked <> 0) /\
  (forall o t, run (mkOptions false dbg v) w = Some (o, t) ->
               o = Panicked -> rootListing w = None) /\
  (forall dirs, rootListing w = Some dirs -> dirs <> [] ->
                fitsInt (files w) ->
                exists t, run (mkOptions false dbg v) w = Some (Returned, t)).
Proof.
  split; [|split].
  - intros Hlist. unfold run, main. simpl printVersion. cbv iota.
    rewrite Hlist. split; [reflexivity | discriminate].
  - intros o t Hrun ->. unfold run, main in Hrun. simpl printVersion in Hrun.
    cbv iota in Hrun.
    destruct (rootListing w) as [dirs|]; [|reflexivity].
    exfalso.
    destruct (SetGlobalSensorFlags _ _ _ _) as [[[e|] g'] flagged];
      [discriminate|].
    destruct (reportLoop _ _ _ _); discriminate.
  - intros dirs Hlist Hne Hsmall.
    destruct (run_report v dbg w dirs Hlist Hne Hsmall) as [t [Hrun _]].
    now exists t.
Qed.

Lemma C8_witness :
  rootListing unlistedWorld = None /\
  run defaults unlistedWorld
    = Some (Panicked, [EvReadDir hardwareMonitorDirectory]) /\
  exitStatus Panicked <> 0.
Proof.
  split; [reflexivity|].
  apply (C8_unlisted_root_is_fatal "0.0" false unlistedWorld). reflexivity.
Defined.

(** C10. When the listing of the root is empty, the quirk detection
    returns the "invalid input" error and leaves the variables alone, and
    the run exits with status 1: it prints the error, no line of the
    report, and reads no file, the CPU identification file included. *)
Theorem C10_empty_listing_is_fatal (v : string) (dbg : bool) (w : World) :
  rootListing w = Some [] ->
  SetGlobalSensorFlags dbg (files w) [] initialGlobals
    = ((Some "SetGlobalSensorFlags(): invalid input", initialGlobals), []) /\
  exists t,
    run (mkOptions false dbg v) w = Some (Exited 1, t) /\
    exitStatus (Exited 1) <> 0 /\
    reportLines t = [] /\
    In (TextLine "SetGlobalSensorFlags(): invalid input") (stdout t) /\
    fileReads t = [] /\
    ~ In (EvReadFile cpuinfoDirectory) t.
Proof.
  intros Hlist. split; [reflexivity|].
  unfold run, main. simpl printVersion. cbv iota. rewrite Hlist.
  simpl debugMode. simpl SetGlobalSensorFlags. cbv iota beta.
  eexists. split; [reflexivity|]. split; [discriminate|].
  destruct dbg.
  - simpl. split; [reflexivity|]. split; [right; left; reflexivity|].
    split; [reflexivity|].
    intros [H|[H|[H|[]]]]; discriminate.
  - simpl. split; [reflexivity|]. split; [left; reflexivity|].
    split; [reflexivity|].
    intros [H|[H|[]]]; discriminate.
Qed.

Lemma C10_witness :
  rootListing emptyWorld = Some [] /\
  exists t,
    run defaults emptyWorld = Some (Exited 1, t) /\
    exitStatus (Exited 1) <> 0 /\
    reportLines t = [] /\
    In (TextLine "SetGlobalSensorFlags(): invalid input") (stdout t) /\
    fileReads t = [] /\
    ~ In (EvReadFile cpuinfoDirectory) t.
Proof.
  split; [reflexivity|].
  apply (C10_empty_listing_is_fatal "0.0" false emptyWorld). reflexivity.
Defined.

Example C10_cpu_is_ryzen : cpuIsRyzen (files emptyWorld) = true.
Proof. vm_compute. reflexivity. Qed.

End Claims.

(* ===================================================================== *)
(** ** Debug mode *)
(* ===================================================================== *)

Module DebugFacts.

Import Go Tempchk Props MoreProps Examples.
Import GoFacts CountFacts ReadFacts SensorFacts TraceFacts.








(** *** Debug mode changes nothing but the debug lines *)

#[local] Arguments eraseDebug : simpl never.

Lemma eraseDebug_app t1 t2 :
  eraseDebug (t1 ++ t2) = eraseDebug t1 ++ eraseDebug t2.
Proof. unfold eraseDebug. apply List.filter_app. Qed.

Lemma eraseDebug_debug dbg msg : eraseDebug (debug dbg msg) = [].
Proof. destruct (debug_cases dbg msg) as [->|[m ->]]; reflexivity. Qed.

Lemma eraseDebug_read p : eraseDebug [EvReadFile p] = [EvReadFile p].
Proof. reflexivity. Qed.

Lemma eraseDebug_listed p t :
  eraseDebug (EvReadDir p :: t) = EvReadDir p :: eraseDebug t.
Proof. reflexivity. Qed.

Lemma eraseRun_after {A} t (r : option (A * list Event)) :
  eraseRun (after t r) = after (eraseDebug t) (eraseRun r).
Proof.
  destruct r as [[x t']|]; [|reflexivity].
  simpl. now rewrite eraseDebug_app.
Qed.

Lemma countLoop_plain fs hwmon fuel c :
  eraseRun (countLoop fs hwmon fuel c) = countLoop fs hwmon fuel c.
Proof.
  revert c. induction fuel as [|fuel IH]; intros c; [reflexivity|].
  rewrite countLoop_step.
  destruct (ReadFile fs (inputPath hwmon c)) as [d|]; [|reflexivity].
  destruct (len d <? 1); [reflexivity|].
  now rewrite eraseRun_after, IH.
Qed.

Lemma readLoop_erase dbg fs label hwmon total fuel i acc :
  eraseRun (readLoop dbg fs label hwmon total fuel i acc)
  = readLoop false fs label hwmon total fuel i acc.
Proof.
  revert i acc. induction fuel as [|fuel IH]; intros i acc; [reflexivity|].
  rewrite !readLoop_step.
  destruct (negb (i <=? total)); [reflexivity|]. cbv zeta.
  destruct (turn fs label hwmon total i) as [l|].
  - rewrite eraseRun_after, IH, !debug_off.
    now rewrite !eraseDebug_app, !eraseDebug_debug.
  - simpl. now rewrite eraseDebug_app, eraseDebug_debug.
Qed.

Lemma GetSensorData_erase dbg fsCount fsRead label hwmon :
  eraseRun (GetSensorData dbg fsCount fsRead label hwmon)
  = GetSensorData false fsCount fsRead label hwmon.
Proof.
  unfold GetSensorData.
  destruct (String.eqb label EmptyString || String.eqb hwmon EmptyString);
    [reflexivity|].
  pose proof (countLoop_plain fsCount hwmon (S (size fsCount)) 1) as Hc.
  destruct (countLoop fsCount hwmon (S (size fsCount)) 1)
    as [[total counted]|]; [|reflexivity].
  simpl in Hc. injection Hc as Hc.
  rewrite <- (readLoop_erase dbg fsRead label hwmon total).
  destruct (readLoop dbg fsRead label hwmon total _ 1 [])
    as [[sensors read]|]; [|reflexivity].
  simpl. destruct (Z.of_nat (length sensors) =? 0); simpl;
    now rewrite eraseDebug_app, Hc.
Qed.

Lemma flagsLoop_erase dbg fs dirs g :
  (flagsLoop dbg fs dirs g).1 = (flagsLoop false fs dirs g).1 /\
  eraseDebug (flagsLoop dbg fs dirs g).2 = (flagsLoop false fs dirs g).2.
Proof.
  revert g. induction dirs as [|dir rest IH]; intros g; [now split|].
  rewrite !flagsLoop_step. cbv zeta.
  destruct (ReadFile fs (namePath dir)) as [content|];
    [destruct (len content <? 1)|]; simpl fst; simpl snd;
    rewrite ?eraseDebug_app, ?eraseDebug_debug, ?debug_off;
    match goal with
    | |- context [flagsLoop dbg fs rest ?g'] =>
        destruct (IH g') as [-> ->]
    end; now split.
Qed.

Lemma SetGlobalSensorFlags_erase dbg fs dirs g :
  (SetGlobalSensorFlags dbg fs dirs g).1
  = (SetGlobalSensorFlags false fs dirs g).1 /\
  eraseDebug (SetGlobalSensorFlags dbg fs dirs g).2
  = (SetGlobalSensorFlags false fs dirs g).2.
Proof.
  destruct dirs as [|dir rest]; [now split|].
  unfold SetGlobalSensorFlags.
  destruct (flagsLoop_erase dbg fs (dir :: rest) g) as [H1 H2].
  destruct (flagsLoop dbg fs (dir :: rest) g) as [g1 looped].
  destruct (flagsLoop false fs (dir :: rest) g) as [g1' looped'].
  simpl in H1, H2. subst g1' looped'.
  destruct (ReadFile fs cpuinfoDirectory) as [c|];
    [destruct (len c =? 0); [|destruct (String.eqb c EmptyString);
       [|destruct (Contains c "Ryzen")]]|];
    simpl; now rewrite eraseDebug_app.
Qed.

Lemma eraseDebug_sensors g dir sensors :
  eraseDebug (map (fun sensor => EvPrintln (sensorLine g dir sensor)) sensors)
  = map (fun sensor => EvPrintln (sensorLine g dir sensor)) sensors.
Proof.
  induction sensors as [|s sensors IH]; [reflexivity|].
  rewrite !map_cons. unfold eraseDebug in *. simpl. now rewrite IH.
Qed.

Lemma reportDevice_erase dbg fs g dir :
  option_map eraseDebug (reportDevice dbg fs g dir)
  = reportDevice false fs g dir.
Proof.
  unfold reportDevice.
  destruct (ReadFile fs (namePath dir)) as [content|].
  - destruct (len content <? 1).
    + simpl. now rewrite !eraseDebug_app, !eraseDebug_debug.
    + rewrite <- (GetSensorData_erase dbg fs fs (Trim content cutset) dir).
      destruct (GetSensorData dbg fs fs (Trim content cutset) dir)
        as [[[sensors err] got]|]; [|reflexivity].
      simpl eraseRun. cbv iota beta.
      destruct ((match err with Some _ => true | None => false end)
                || (Z.of_nat (length sensors) <? 1)); simpl;
        rewrite !eraseDebug_app, ?eraseDebug_debug, ?eraseDebug_sensors;
        reflexivity.
  - simpl. now rewrite !eraseDebug_app, !eraseDebug_debug.
Qed.

Lemma reportLoop_erase dbg fs g dirs :
  option_map eraseDebug (reportLoop dbg fs g dirs) = reportLoop false fs g dirs.
Proof.
  induction dirs as [|dir rest IH]; [reflexivity|].
  simpl. rewrite <- (reportDevice_erase dbg fs g dir), <- IH.
  destruct (reportDevice dbg fs g dir) as [t|]; [|reflexivity].
  destruct (reportLoop dbg fs g rest) as [t'|]; [|reflexivity].
  simpl. now rewrite eraseDebug_app.
Qed.

Lemma eraseDebug_listing dbg (dirs : list string) :
  eraseDebug (concat (map (fun dir => debug dbg ("* " +:+ dir)) dirs)) = [].
Proof.
  induction dirs as [|dir dirs IH]; [reflexivity|].
  simpl. now rewrite eraseDebug_app, eraseDebug_debug, IH.
Qed.

(** X2. Debug mode changes nothing but the debug lines: a run with any
    options ends as the run with debug mode off does, and its trace
    without the debug lines is the trace of that run, with the same file
    reads and the same lines in the same order. *)
Theorem X2_debug_is_transparent (opts : Options) (w : World) :
  eraseRun (run opts w) = run (withoutDebug opts) w.
Proof.
  unfold run, main, withoutDebug. simpl printVersion. simpl debugMode.
  simpl Version.
  destruct (printVersion opts); [reflexivity|].
  destruct (rootListing w) as [dirs|]; [|reflexivity].
  destruct (SetGlobalSensorFlags_erase (debugMode opts) (files w) dirs
              initialGlobals) as [H1 H2].
  destruct (SetGlobalSensorFlags (debugMode opts) (files w) dirs
              initialGlobals) as [[err g'] flagged].
  destruct (SetGlobalSensorFlags false (files w) dirs initialGlobals)
    as [[err' g''] flagged'].
  simpl in H1, H2. injection H1 as <- <-. subst flagged'.
  assert (Hshown : eraseDebug
            (if debugMode opts
             then debug (debugMode opts)
                    ("The following IDs are present in the hardware sensor "
                     +:+ "monitoring directory:" +:+ nl) ++
                  concat (map (fun dir => debug (debugMode opts) ("* " +:+ dir))
                            dirs)
             else []) = []).
  { destruct (debugMode opts); [|reflexivity].
    now rewrite eraseDebug_app, eraseDebug_debug, eraseDebug_listing. }
  destruct err as [e|].
  - simpl eraseRun.
    rewrite eraseDebug_listed, !eraseDebug_app, Hshown. reflexivity.
  - rewrite <- (reportLoop_erase (debugMode opts) (files w) g' dirs).
    destruct (reportLoop (debugMode opts) (files w) g' dirs) as [reported|];
      [|reflexivity].
    simpl eraseRun. simpl option_map. cbv iota beta.
    rewrite eraseDebug_listed, !eraseDebug_app, Hshown. reflexivity.
Qed.

End DebugFacts.

(* ===================================================================== *)
(** ** What [GetSensorData] reads and what its records hold *)
(* ===================================================================== *)

Module RecordFacts.

Import Go Tempchk Props MoreProps Examples.
Import GoFacts CountFacts ReadFacts SensorFacts TraceFacts.

Lemma readLoop_reads dbg fs label hwmon total :
  total < maxInt ->
  forall fuel i acc r t,
    1 <= i <= total + 1 ->
    (forall j, i <= j <= total -> inputPresent fs hwmon j) ->
    readLoop dbg fs label hwmon total fuel i acc = Some (r, t) ->
    fileReads t =
      map (inputPath hwmon)
        (map Z.of_nat (seq (Z.to_nat i) (Z.to_nat (total + 1 - i)))).
Proof.
  intros Htotal. unfold maxInt in Htotal.
  induction fuel as [|fuel IH]; intros i acc r t Hi Hall; [discriminate|].
  rewrite readLoop_step.
  destruct (i <=? total) eqn:Ele; simpl negb; cbv iota.
  - apply Z.leb_le in Ele. cbv zeta.
    destruct (turn fs label hwmon total i) as [l|] eqn:Et.
    + assert (Hadd : add i 1 = i + 1).
      { apply wrapInt_id. unfold inInt, minInt, maxInt. lia. }
      rewrite Hadd.
      destruct (readLoop dbg fs label hwmon total fuel (i + 1) (acc ++ l))
        as [[r' t']|] eqn:Erun; [|discriminate].
      simpl. intros [= <- <-].
      rewrite !fileReads_app, !fileReads_debug. simpl.
      rewrite (IH (i + 1) (acc ++ l) r' t'); [|lia| |exact Erun].
      * replace (Z.to_nat (total + 1 - i))
          with (S (Z.to_nat (total + 1 - (i + 1)))) by lia.
        simpl. rewrite Z2Nat.id by lia.
        now replace (S (Z.to_nat i)) with (Z.to_nat (i + 1)) by lia.
      * intros j Hj. apply Hall. lia.
    + apply turn_None in Et. exfalso. apply Et, Hall. lia.
  - apply Z.leb_gt in Ele. intros [= <- <-].
    now replace (total + 1 - i) with 0 by lia.
Qed.

(** The reads of a call on files that stay as they are. *)
Lemma GetSensorData_reads dbg fs label hwmon :
  fitsInt fs -> label <> EmptyString -> hwmon <> EmptyString ->
  exists total counted r t,
    countLoop fs hwmon (S (size fs)) 1 = Some (total, counted) /\
    GetSensorData dbg fs fs label hwmon = Some (r, t) /\
    fileReads t = inputPaths hwmon (total + 1) ++ inputPaths hwmon total.
Proof.
  intros Hsmall Hl Hh.
  destruct (countLoop_total fs hwmon Hsmall)
    as [total [counted [Hcount [Htotal [Hpresent [_ Hreads]]]]]].
  assert (Hlt : total < maxInt) by (unfold fitsInt in Hsmall; lia).
  destruct (readLoop_collected dbg fs label hwmon total Hlt
              (S (Z.to_nat total)) 1 []) as [read Hread]; [lia | lia |].
  pose proof (readLoop_reads dbg fs label hwmon total Hlt _ 1 [] _ read
                ltac:(lia) ltac:(intros j Hj; apply Hpresent; lia) Hread)
    as Hreads'.
  replace (total + 1 - 1) with total in Hreads' by lia.
  exists total, counted.
  unfold GetSensorData.
  apply String.eqb_neq in Hl, Hh. rewrite Hl, Hh. simpl orb. cbv iota.
  rewrite Hcount, Hread.
  destruct (Z.of_nat (length _) =? 0); eexists _, _;
    (split; [reflexivity|]); (split; [reflexivity|]);
    rewrite fileReads_app, Hreads, Hreads'; reflexivity.
Qed.

(** X3. On files that stay as they are, [GetSensorData] reads the input
    files 1..N+1 of the device in order to count them and then the input
    files 1..N again to read them, N being the count, and no other file;
    with an empty label or directory it reads nothing. *)
Theorem X3_files_read (dbg : bool) (fs : gmap string string)
    (label hwmon : string) :
  fitsInt fs ->
  (label <> EmptyString -> hwmon <> EmptyString ->
   exists total counted r t,
     countLoop fs hwmon (S (size fs)) 1 = Some (total, counted) /\
     GetSensorData dbg fs fs label hwmon = Some (r, t) /\
     fileReads t = inputPaths hwmon (total + 1) ++ inputPaths hwmon total) /\
  (label = EmptyString \/ hwmon = EmptyString ->
   exists r, GetSensorData dbg fs fs label hwmon = Some (r, [])).
Proof.
  intros Hsmall. split.
  - now apply GetSensorData_reads.
  - intros H. rewrite GetSensorData_invalid by exact H. eauto.
Qed.

Lemma X3_witness :
  fitsInt legacyFiles /\
  exists r t,
    GetSensorData false legacyFiles legacyFiles "k10temp" "hwmon0"
      = Some (r, t) /\
    fileReads t = inputPaths "hwmon0" 4 ++ inputPaths "hwmon0" 3.
Proof.
  assert (Hsmall : fitsInt legacyFiles) by (vm_compute; reflexivity).
  split; [exact Hsmall|].
  destruct (X3_files_read false legacyFiles "k10temp" "hwmon0" Hsmall)
    as [Hvalid _].
  destruct Hvalid as [total [counted [r [t [Hcount [Hrun Hreads]]]]]];
    [discriminate | discriminate |].
  exists r, t. split; [exact Hrun|].
  assert (Htotal : total = 3).
  { clear - Hcount.
    assert (H : countLoop legacyFiles "hwmon0" (S (size legacyFiles)) 1
                = Some (3, [EvReadFile (inputPath "hwmon0" 1);
                            EvReadFile (inputPath "hwmon0" 2);
                            EvReadFile (inputPath "hwmon0" 3);
                            EvReadFile (inputPath "hwmon0" 4)]))
      by (vm_compute; reflexivity).
    rewrite H in Hcount. now injection Hcount. }
  rewrite Hreads, Htotal. reflexivity.
Defined.



(** The shape of a record of a call with a label and a directory. *)
Lemma GetSensorData_record_shape dbg fsCount fsRead label hwmon
    sensors err t s :
  fitsInt fsCount ->
  GetSensorData dbg fsCount fsRead label hwmon = Some ((sensors, err), t) ->
  In s sensors ->
  name s = label /\ category s = tempPrefix /\ 1 <= number s /\
  1 <= intData s /\ inInt (intData s).
Proof.
  intros Hsmall Hrun Hin.
  destruct (String.eqb_spec label EmptyString) as [->|Hl].
  { rewrite GetSensorData_invalid in Hrun by auto.
    injection Hrun as <- _ _. destruct Hin. }
  destruct (String.eqb_spec hwmon EmptyString) as [->|Hh].
  { rewrite GetSensorData_invalid in Hrun by auto.
    injection Hrun as <- _ _. destruct Hin. }
  destruct (GetSensorData_valid dbg fsCount fsRead label hwmon Hsmall Hl Hh)
    as [total [counted [t' [_ [_ Hrun']]]]].
  rewrite Hrun in Hrun'. injection Hrun' as -> _ _.
  apply collected_records in Hin as [Hs [Hn [Hp [Hv _]]]].
  split; [rewrite Hs; reflexivity|]. split; [rewrite Hs; reflexivity|].
  split; [lia|]. split; [exact Hv|].
  destruct Hp as [d [_ [_ Ha]]]. now apply Atoi_inInt in Ha.
Qed.

End RecordFacts.

(* ===================================================================== *)
(** ** The variables the quirk detection sets *)
(* ===================================================================== *)

Module DetectionFacts.

Import Go Tempchk Props MoreProps Examples.
Import GoFacts TraceFacts OrderFacts.

Lemma widen_le fs m dir : m <= widen fs m dir.
Proof.
  unfold widen. destruct (ReadFile fs (namePath dir)) as [c|]; [|lia].
  destruct (len c <? 1); lia.
Qed.

Lemma widest_le fs dirs m : m <= widest fs dirs m.
Proof.
  unfold widest. revert m. induction dirs as [|dir rest IH]; intros m; simpl.
  - lia.
  - pose proof (widen_le fs m dir). pose proof (IH (widen fs m dir)). lia.
Qed.

Lemma widen_max fs a b dir :
  widen fs (Z.max a b) dir = Z.max a (widen fs b dir).
Proof.
  unfold widen. destruct (ReadFile fs (namePath dir)) as [c|]; [|reflexivity].
  destruct (len c <? 1); lia.
Qed.

Lemma widest_max fs dirs a b :
  widest fs dirs (Z.max a b) = Z.max a (widest fs dirs b).
Proof.
  unfold widest. revert b. induction dirs as [|dir rest IH]; intros b; simpl.
  - reflexivity.
  - now rewrite widen_max, IH.
Qed.

Lemma widest_twice fs dirs m :
  widest fs dirs (widest fs dirs m) = widest fs dirs m.
Proof.
  pose proof (widest_le fs dirs m) as Hle.
  rewrite <- (Z.max_l (widest fs dirs m) m) at 1 by exact Hle.
  rewrite widest_max. lia.
Qed.

Lemma widen_label fs m dir label :
  labelOf fs dir label -> widen fs m dir = Z.max m (len label).
Proof.
  intros [c [Hread [Hne <-]]]. unfold widen. rewrite Hread.
  destruct (len c <? 1) eqn:E; [apply len_lt_1 in E; contradiction|].
  reflexivity.
Qed.

Lemma widest_ge_label fs dirs m dir label :
  In dir dirs -> labelOf fs dir label -> len label <= widest fs dirs m.
Proof.
  unfold widest. revert m.
  induction dirs as [|d rest IH]; intros m Hin Hlabel; [destruct Hin|].
  simpl. destruct Hin as [->|Hin].
  - rewrite (widen_label fs m dir label Hlabel).
    fold (widest fs rest (Z.max m (len label))).
    pose proof (widest_le fs rest (Z.max m (len label))). lia.
  - now apply IH.
Qed.

Lemma widen_cases fs m dir :
  widen fs m dir = m \/
  exists label, labelOf fs dir label /\ widen fs m dir = len label.
Proof.
  unfold widen.
  destruct (ReadFile fs (namePath dir)) as [c|] eqn:Hread; [|now left].
  destruct (len c <? 1) eqn:E; [now left|].
  destruct (Z.max_spec m (len (Trim c cutset))) as [[_ ->] | [_ ->]];
    [|now left].
  right. exists (Trim c cutset). split; [|reflexivity].
  exists c. split; [exact Hread|]. split; [|reflexivity].
  intros ->. discriminate.
Qed.

Lemma widest_attained fs dirs m :
  widest fs dirs m = m \/
  exists dir label,
    In dir dirs /\ labelOf fs dir label /\ widest fs dirs m = len label.
Proof.
  unfold widest. revert m.
  induction dirs as [|d rest IH]; intros m; [now left|].
  simpl. destruct (IH (widen fs m d)) as [Heq | [dir [label [Hin [Hl Heq]]]]].
  - rewrite Heq. destruct (widen_cases fs m d) as [H | [label [Hl H]]].
    + now left.
    + right. exists d, label. split; [now left|]. now split.
  - right. exists dir, label. split; [now right|]. now split.
Qed.

Lemma detected_width dbg fs dirs :
  maxEntryLength (detected dbg fs dirs) = widest fs dirs 0.
Proof. unfold detected. now rewrite SetGlobalSensorFlags_width. Qed.

(** X5. After the quirk detection of a run, [maxEntryLength] is the
    length of the longest trimmed label among the listed devices whose
    name file can be read and is not empty: no such label is longer, and
    it is 0 or the length of one of them. *)
Theorem X5_widest_label (dbg : bool) (fs : gmap string string)
    (dirs : list string) :
  (forall dir label,
     In dir dirs -> labelOf fs dir label ->
     len label <= maxEntryLength (detected dbg fs dirs)) /\
  (maxEntryLength (detected dbg fs dirs) = 0 \/
   exists dir label,
     In dir dirs /\ labelOf fs dir label /\
     maxEntryLength (detected dbg fs dirs) = len label).
Proof.
  rewrite detected_width. split.
  - intros dir label. apply widest_ge_label.
  - apply widest_attained.
Qed.

Lemma X5_witness :
  (In "hwmon1" ["hwmon0"; "hwmon1"; "hwmon2"] /\
   labelOf legacyFiles "hwmon1" "coretemp") /\
  len "coretemp"
  <= maxEntryLength (detected false legacyFiles ["hwmon0"; "hwmon1"; "hwmon2"]).
Proof.
  assert (Hl : labelOf legacyFiles "hwmon1" "coretemp").
  { exists ("coretemp" +:+ nl). split; [vm_compute; reflexivity|].
    split; [discriminate | vm_compute; reflexivity]. }
  split; [split; [right; left; reflexivity | exact Hl]|].
  refine (proj1 (X5_widest_label false legacyFiles
                   ["hwmon0"; "hwmon1"; "hwmon2"]) "hwmon1" "coretemp" _ Hl).
  right. left. reflexivity.
Defined.

(** X6. [SetGlobalSensorFlags] only raises the variables: it never clears
    the flag and never lowers [maxEntryLength]; and a second call over
    the same listing and files changes nothing. *)
Theorem X6_detection_is_idempotent (dbg : bool) (fs : gmap string string)
    (dirs : list string) (g : Globals) :
  (digitalAmdPowerModuleInUse g = true ->
   digitalAmdPowerModuleInUse (SetGlobalSensorFlags dbg fs dirs g).1.2 = true)
  /\
  maxEntryLength g <= maxEntryLength (SetGlobalSensorFlags dbg fs dirs g).1.2
  /\
  (SetGlobalSensorFlags dbg fs dirs
     (SetGlobalSensorFlags dbg fs dirs g).1.2).1.2
  = (SetGlobalSensorFlags dbg fs dirs g).1.2.
Proof.
  destruct dirs as [|dir rest].
  { simpl. split; [auto|]. split; [lia | reflexivity]. }
  assert (Hne : dir :: rest <> []) by discriminate.
  destruct (SetGlobalSensorFlags_run dbg fs (dir :: rest) g Hne)
    as [g1 [t1 [E1 [F1 _]]]].
  pose proof (SetGlobalSensorFlags_width dbg fs (dir :: rest) g) as W1.
  rewrite E1 in W1 |- *. cbn [fst snd] in W1 |- *.
  destruct (SetGlobalSensorFlags_run dbg fs (dir :: rest) g1 Hne)
    as [g2 [t2 [E2 [F2 _]]]].
  pose proof (SetGlobalSensorFlags_width dbg fs (dir :: rest) g1) as W2.
  rewrite E2 in W2 |- *. cbn [fst snd] in W2 |- *.
  split; [|split].
  - intros Hg. rewrite F1, Hg. reflexivity.
  - rewrite W1. apply widest_le.
  - apply globals_eq.
    + rewrite F2, F1.
      destruct (digitalAmdPowerModuleInUse g),
        (existsb (isPowerModule fs) (dir :: rest)), (cpuIsRyzen fs);
        reflexivity.
    + rewrite W2, W1. apply widest_twice.
Qed.

Lemma namePath_not_cpuinfo dir : namePath dir <> cpuinfoDirectory.
Proof. unfold namePath, cpuinfoDirectory. discriminate. Qed.

Lemma previous_flags dbg fs dirs g :
  dirs <> [] ->
  Previous.SetGlobalSensorFlags dbg fs dirs g
  = ((None, (flagsLoop dbg fs dirs g).1), (flagsLoop dbg fs dirs g).2).
Proof.
  intros Hne. destruct dirs as [|dir rest]; [contradiction|].
  unfold Previous.SetGlobalSensorFlags.
  now destruct (flagsLoop dbg fs (dir :: rest) g).
Qed.

Lemma latest_flags_trace dbg fs dirs g :
  dirs <> [] ->
  (SetGlobalSensorFlags dbg fs dirs g).2
  = (flagsLoop dbg fs dirs g).2 ++ [EvReadFile cpuinfoDirectory].
Proof.
  intros Hne. destruct dirs as [|dir rest]; [contradiction|].
  unfold SetGlobalSensorFlags.
  destruct (flagsLoop dbg fs (dir :: rest) g) as [g1 looped].
  destruct (ReadFile fs cpuinfoDirectory) as [c|];
    [destruct (len c =? 0); [|destruct (String.eqb c EmptyString);
       [|destruct (Contains c "Ryzen")]]|]; reflexivity.
Qed.

(** X12. The revision of [SetGlobalSensorFlags] before the CPU
    identification check sets the flag exactly when a listed name file
    trims to "fam15h_power" and never reads the CPU identification file;
    the latest revision does the same reads, then that one more, leaves
    the same [maxEntryLength] and has the flag set when the earlier one
    has it set or the CPU identification file has "Ryzen" in it. *)
Theorem X12_detection_before_cpuinfo (dbg : bool) (fs : gmap string string)
    (dirs : list string) :
  dirs <> [] ->
  (Previous.SetGlobalSensorFlags dbg fs dirs initialGlobals).1.1 = None /\
  (digitalAmdPowerModuleInUse
     (Previous.SetGlobalSensorFlags dbg fs dirs initialGlobals).1.2 = true
   <->
   exists dir content,
     In dir dirs /\ ReadFile fs (namePath dir) = Some content /\
     Trim content cutset = "fam15h_power") /\
  ~ In cpuinfoDirectory
      (fileReads (Previous.SetGlobalSensorFlags dbg fs dirs initialGlobals).2)
  /\
  (SetGlobalSensorFlags dbg fs dirs initialGlobals).2
  = (Previous.SetGlobalSensorFlags dbg fs dirs initialGlobals).2
    ++ [EvReadFile cpuinfoDirectory] /\
  maxEntryLength (detected dbg fs dirs)
  = maxEntryLength
      (Previous.SetGlobalSensorFlags dbg fs dirs initialGlobals).1.2 /\
  digitalAmdPowerModuleInUse (detected dbg fs dirs)
  = digitalAmdPowerModuleInUse
      (Previous.SetGlobalSensorFlags dbg fs dirs initialGlobals).1.2
    || cpuIsRyzen fs.
Proof.
  intros Hne.
  destruct (SetGlobalSensorFlags_run dbg fs dirs initialGlobals Hne)
    as [g' [t [Hrun [Hflag _]]]].
  pose proof (SetGlobalSensorFlags_width dbg fs dirs initialGlobals) as Hwidth.
  pose proof (latest_flags_trace dbg fs dirs initialGlobals Hne) as Hlatest.
  unfold detected. rewrite Hrun in Hwidth, Hlatest |- *.
  cbn [fst snd] in Hwidth, Hlatest |- *.
  rewrite (previous_flags dbg fs dirs initialGlobals Hne). cbn [fst snd].
  pose proof (flagsLoop_flag dbg fs dirs initialGlobals) as Hf.
  pose proof (flagsLoop_width dbg fs dirs initialGlobals) as Hw.
  destruct (flagsLoop_trace dbg fs dirs initialGlobals) as [_ Hr].
  split; [reflexivity|]. split; [|split; [|split; [exact Hlatest|split]]].
  - rewrite Hf. simpl digitalAmdPowerModuleInUse. rewrite orb_false_l.
    rewrite existsb_exists. split.
    + intros [d [Hin Hp]].
      apply isPowerModule_spec in Hp as [content [Hread Htrim]].
      now exists d, content.
    + intros [d [content [Hin [Hread Htrim]]]]. exists d.
      split; [exact Hin|]. apply isPowerModule_spec. now exists content.
  - rewrite Hr. intros Hin. apply in_map_iff in Hin as [d [Hd _]].
    now apply namePath_not_cpuinfo in Hd.
  - now rewrite Hwidth, Hw.
  - now rewrite Hflag, Hf.
Qed.

Lemma X12_witness :
  ["hwmon0"] <> [] /\
  digitalAmdPowerModuleInUse
    (Previous.SetGlobalSensorFlags false (files emptyWorld) ["hwmon0"]
       initialGlobals).1.2 = false /\
  digitalAmdPowerModuleInUse (detected false (files emptyWorld) ["hwmon0"])
  = true.
Proof.
  split; [discriminate|].
  destruct (X12_detection_before_cpuinfo false (files emptyWorld) ["hwmon0"]
              ltac:(discriminate)) as [_ [_ [_ [_ [_ Hflag]]]]].
  split; [vm_compute; reflexivity|].
  rewrite Hflag. vm_compute. reflexivity.
Defined.

End DetectionFacts.

(* ===================================================================== *)
(** ** The run as a whole: order, reads, columns, values *)
(* ===================================================================== *)

Module RunFacts.

Import Go Tempchk Props MoreProps Examples.
Import GoFacts CountFacts ReadFacts SensorFacts TraceFacts ReportFacts.
Import OrderFacts RecordFacts DetectionFacts.

(** X7. The report of a run follows the listing: it is, device directory
    after device directory in the order of the listing, the lines of that
    device (none, the N/A line, or one line per record in the order of
    the records), and nothing else. *)
Theorem X7_report_in_listing_order (v : string) (dbg : bool) (w : World)
    (dirs : list string) :
  rootListing w = Some dirs -> dirs <> [] -> fitsInt (files w) ->
  exists t,
    run (mkOptions false dbg v) w = Some (Returned, t) /\
    reportLines t =
      concat (map (deviceReport dbg (files w) (detected dbg (files w) dirs))
                dirs) /\
    (forall before dir after,
       dirs = before ++ dir :: after ->
       exists linesBefore linesAfter,
         reportLines t =
           linesBefore
           ++ deviceReport dbg (files w) (detected dbg (files w) dirs) dir
           ++ linesAfter /\
         (forall l, In l linesBefore ->
                    exists d, In d before /\ lineDevice l = Some d) /\
         (forall l, In l linesAfter ->
                    exists d, In d after /\ lineDevice l = Some d)).
Proof.
  intros Hlist Hne Hsmall.
  destruct (run_report v dbg w dirs Hlist Hne Hsmall) as [t [Hrun [Hlines _]]].
  exists t. split; [exact Hrun|]. split; [exact Hlines|].
  intros before dir after ->.
  eexists _, _. split.
  - rewrite Hlines, map_app, concat_app, map_cons, concat_cons. reflexivity.
  - split; intros l Hl; apply in_report in Hl as [d [Hd Hl]];
      exists d; (split; [exact Hd|]);
      exact (deviceReport_device _ _ _ _ _ Hl).
Qed.

Lemma X7_witness :
  (rootListing legacyWorld = Some ["hwmon0"; "hwmon1"; "hwmon2"] /\
   ["hwmon0"; "hwmon1"; "hwmon2"] <> [] /\ fitsInt (files legacyWorld)) /\
  exists t,
    run defaults legacyWorld = Some (Returned, t) /\
    reportLines t =
      concat (map (deviceReport false (files legacyWorld)
                     (detected false (files legacyWorld)
                        ["hwmon0"; "hwmon1"; "hwmon2"]))
                ["hwmon0"; "hwmon1"; "hwmon2"]).
Proof.
  assert (Hsmall : fitsInt (files legacyWorld)) by (vm_compute; reflexivity).
  split; [split; [reflexivity | split; [discriminate | exact Hsmall]]|].
  destruct (X7_report_in_listing_order "0.0" false legacyWorld
              ["hwmon0"; "hwmon1"; "hwmon2"] eq_refl
              ltac:(discriminate) Hsmall) as [t [Hrun [Hlines _]]].
  exists t. split; [exact Hrun | exact Hlines].
Defined.

(** *** The files a run reads *)

Lemma fileReads_prints (ls : list Line) :
  fileReads (map EvPrintln ls) = [].
Proof. induction ls as [|l ls IH]; [reflexivity | exact IH]. Qed.

Lemma fileReads_sensors g dir sensors :
  fileReads (map (fun sensor => EvPrintln (sensorLine g dir sensor)) sensors)
  = [].
Proof. induction sensors as [|s sensors IH]; [reflexivity | exact IH]. Qed.

Lemma fileReads_listing dbg (dirs : list string) :
  fileReads (concat (map (fun dir => debug dbg ("* " +:+ dir)) dirs)) = [].
Proof.
  induction dirs as [|dir dirs IH]; [reflexivity|].
  simpl. now rewrite fileReads_app, fileReads_debug, IH.
Qed.

Lemma reportDevice_reads dbg fs g dir :
  fitsInt fs ->
  exists t,
    reportDevice dbg fs g dir = Some t /\ fileReads t = deviceReads fs dir.
Proof.
  intros Hsmall. unfold reportDevice, deviceReads.
  destruct (ReadFile fs (namePath dir)) as [content|].
  - destruct (len content <? 1).
    + eexists. split; [reflexivity|].
      now rewrite !fileReads_app, !fileReads_debug.
    + assert (Hgot : exists r got,
                GetSensorData dbg fs fs (Trim content cutset) dir
                  = Some (r, got) /\
                fileReads got =
                  if String.eqb (Trim content cutset) EmptyString
                     || String.eqb dir EmptyString then []
                  else match countLoop fs dir (S (size fs)) 1 with
                       | Some (total, _) =>
                           inputPaths dir (total + 1) ++ inputPaths dir total
                       | None => []
                       end).
      { destruct (String.eqb_spec (Trim content cutset) EmptyString)
          as [Hl|Hl].
        { rewrite GetSensorData_invalid by auto. eauto. }
        destruct (String.eqb_spec dir EmptyString) as [Hd|Hd].
        { rewrite GetSensorData_invalid by auto. eauto. }
        destruct (GetSensorData_reads dbg fs (Trim content cutset) dir
                    Hsmall Hl Hd)
          as [total [counted [r [got [Hcount [Hrun Hreads]]]]]].
        exists r, got. split; [exact Hrun|]. simpl orb. cbv iota.
        now rewrite Hcount. }
      destruct Hgot as [[sensors err] [got [Hrun Hreads]]].
      rewrite Hrun.
      destruct ((match err with Some _ => true | None => false end)
                || (Z.of_nat (length sensors) <? 1));
        eexists; (split; [reflexivity|]);
        rewrite !fileReads_app, ?fileReads_debug, ?fileReads_sensors, Hreads;
        simpl; now rewrite ?List.app_nil_r.
  - eexists. split; [reflexivity|].
    now rewrite !fileReads_app, !fileReads_debug.
Qed.

Lemma reportLoop_reads dbg fs g dirs :
  fitsInt fs ->
  exists t,
    reportLoop dbg fs g dirs = Some t /\
    fileReads t = concat (map (deviceReads fs) dirs).
Proof.
  intros Hsmall. induction dirs as [|dir dirs [t' [Hrun' Hreads']]].
  - now exists [].
  - destruct (reportDevice_reads dbg fs g dir Hsmall) as [t [Hrun Hreads]].
    simpl. rewrite Hrun, Hrun'. eexists. split; [reflexivity|].
    now rewrite fileReads_app, Hreads, Hreads'.
Qed.

(** X8. A run over a listing that is not empty reads, in this order: the
    name file of every listed device in the order of the listing, the CPU
    identification file, and then device after device its name file once
    more and, for a device with a label, its input files 1..N+1 and
    1..N.  No input file is read before the detection has read every
    name file and the CPU identification file. *)
Theorem X8_files_of_a_run (v : string) (dbg : bool) (w : World)
    (dirs : list string) :
  rootListing w = Some dirs -> dirs <> [] -> fitsInt (files w) ->
  exists t,
    run (mkOptions false dbg v) w = Some (Returned, t) /\
    fileReads t =
      map namePath dirs ++ cpuinfoDirectory ::
      concat (map (deviceReads (files w)) dirs).
Proof.
  intros Hlist Hne Hsmall. unfold run, main. simpl printVersion.
  cbv iota. rewrite Hlist. simpl debugMode.
  destruct (SetGlobalSensorFlags_run dbg (files w) dirs initialGlobals Hne)
    as [g' [flagged [Hflags [_ [_ Hr]]]]].
  rewrite Hflags. cbv iota beta.
  destruct (reportLoop_reads dbg (files w) g' dirs Hsmall)
    as [reported [Hrun Hreads]].
  rewrite Hrun. eexists. split; [reflexivity|].
  change (fileReads ([EvReadDir hardwareMonitorDirectory] ++ ?t))
    with (fileReads t).
  rewrite !fileReads_app, Hr, Hreads.
  assert (Hshown : fileReads
            (if dbg
             then debug dbg
                    ("The following IDs are present in the hardware sensor "
                     +:+ "monitoring directory:" +:+ nl) ++
                  concat (map (fun dir => debug dbg ("* " +:+ dir)) dirs)
             else []) = []).
  { destruct dbg; [|reflexivity].
    now rewrite fileReads_app, fileReads_debug, fileReads_listing. }
  rewrite Hshown. simpl. now rewrite <- List.app_assoc.
Qed.

Lemma X8_witness :
  (rootListing powerWorld = Some ["hwmon2"; "hwmon1"] /\
   ["hwmon2"; "hwmon1"] <> [] /\ fitsInt (files powerWorld)) /\
  exists t,
    run defaults powerWorld = Some (Returned, t) /\
    fileReads t =
      [ namePath "hwmon2"; namePath "hwmon1"; cpuinfoDirectory;
        namePath "hwmon2";
        inputPath "hwmon2" 1; inputPath "hwmon2" 2; inputPath "hwmon2" 1;
        namePath "hwmon1";
        inputPath "hwmon1" 1 ].
Proof.
  assert (Hsmall : fitsInt (files powerWorld)) by (vm_compute; reflexivity).
  split; [split; [reflexivity | split; [discriminate | exact Hsmall]]|].
  destruct (X8_files_of_a_run "0.0" false powerWorld ["hwmon2"; "hwmon1"]
              eq_refl ltac:(discriminate) Hsmall) as [t [Hrun Hreads]].
  exists t. split; [exact Hrun|]. rewrite Hreads.
  vm_compute. reflexivity.
Defined.

End RunFacts.

(* ===================================================================== *)
(** ** The lines of the report: name column, value, unit *)
(* ===================================================================== *)

Module LineFacts.

Import Go Tempchk Props MoreProps Examples.
Import GoFacts CountFacts ReadFacts SensorFacts TraceFacts ReportFacts.
Import OrderFacts RecordFacts DetectionFacts.

Lemma string_app_assoc a b c : (a +:+ b) +:+ c = a +:+ b +:+ c.
Proof.
  induction a as [|x a IH]; [reflexivity|].
  rewrite !string_app_cons. now rewrite IH.
Qed.

Lemma len_app a b : len (a +:+ b) = len a + len b.
Proof. unfold len. rewrite string_length_app. lia. Qed.

Lemma len_spaces n : len (spaces n) = Z.of_nat n.
Proof.
  induction n as [|n IH]; [reflexivity|].
  change (spaces (S n)) with (" " +:+ spaces n).
  rewrite len_app, IH. unfold len. simpl String.length. lia.
Qed.

Lemma padLoop_spaces n s : padLoop n s = s +:+ spaces n.
Proof.
  revert s. induction n as [|n IH]; intros s.
  - simpl. induction s as [|x s IHs]; [reflexivity|].
    rewrite string_app_cons. now rewrite <- IHs.
  - simpl padLoop. rewrite IH, string_app_assoc. reflexivity.
Qed.

(** The padding of a name under variables whose width fits [int]. *)
Lemma pad_spaces g s :
  0 <= maxEntryLength g -> maxEntryLength g + spacerSize <= maxInt ->
  pad g s =
    s +:+ spaces (Z.to_nat (maxEntryLength g + spacerSize - len s)) /\
  len (pad g s) = Z.max (len s) (maxEntryLength g + spacerSize).
Proof.
  intros Hpos Hfit. unfold pad.
  assert (Hadd : add (maxEntryLength g) spacerSize
                 = maxEntryLength g + spacerSize).
  { apply wrapInt_id. unfold inInt, minInt, maxInt, spacerSize in *. lia. }
  rewrite Hadd, padLoop_spaces. split; [reflexivity|].
  rewrite len_app, len_spaces. pose proof (len_nonneg s). lia.
Qed.

Lemma detected_width_nonneg dbg fs dirs :
  0 <= maxEntryLength (detected dbg fs dirs).
Proof. rewrite detected_width. apply widest_le. Qed.

(** A line of the report comes from a listed device with a label, and is
    its N/A line or the line of one of its records. *)
Lemma report_line_origin dbg fs g dirs l :
  fitsInt fs ->
  In l (concat (map (deviceReport dbg fs g) dirs)) ->
  exists dir label sensors err got,
    In dir dirs /\ labelOf fs dir label /\
    GetSensorData dbg fs fs label dir = Some ((sensors, err), got) /\
    (l = NotAvailableLine dir (pad g label) \/
     exists s, In s sensors /\ l = sensorLine g dir s).
Proof.
  intros Hsmall Hl. apply in_report in Hl as [dir [Hdir Hl]].
  unfold deviceReport in Hl.
  destruct (ReadFile fs (namePath dir)) as [content|] eqn:Hread;
    [|destruct Hl].
  destruct (len content <? 1) eqn:El; [destruct Hl|].
  assert (Hne : content <> EmptyString) by (intros ->; discriminate).
  destruct (GetSensorData_total dbg fs fs (Trim content cutset) dir Hsmall)
    as [sensors [err [got [Hrun _]]]].
  exists dir, (Trim content cutset), sensors, err, got.
  split; [exact Hdir|].
  split.
  { exists content. split; [exact Hread|]. split; [exact Hne | reflexivity]. }
  split; [exact Hrun|].
  rewrite Hrun in Hl.
  destruct sensors as [|s0 rest]; [left; now destruct err, Hl|].
  destruct err as [e|]; [left; now destruct Hl|].
  right. apply in_map_iff in Hl as [s [<- Hs]]. eauto.
Qed.

(** X9. All lines of the report have a name column of the same width:
    the column holds the label of the device followed by spaces up to the
    length of the longest label plus 4. *)
Theorem X9_name_column (v : string) (dbg : bool) (w : World)
    (dirs : list string) :
  rootListing w = Some dirs -> dirs <> [] -> fitsInt (files w) ->
  maxEntryLength (detected dbg (files w) dirs) + spacerSize <= maxInt ->
  exists t,
    run (mkOptions false dbg v) w = Some (Returned, t) /\
    forall l, In l (reportLines t) ->
      exists dir label padded,
        In dir dirs /\ labelOf (files w) dir label /\
        lineDevice l = Some dir /\ linePadded l = Some padded /\
        padded =
          label +:+
          spaces (Z.to_nat (maxEntryLength (detected dbg (files w) dirs)
                            + spacerSize - len label)) /\
        len padded
        = maxEntryLength (detected dbg (files w) dirs) + spacerSize.
Proof.
  intros Hlist Hne Hsmall Hfit.
  destruct (run_report v dbg w dirs Hlist Hne Hsmall) as [t [Hrun [Hlines _]]].
  set (g := detected dbg (files w) dirs) in *.
  exists t. split; [exact Hrun|]. intros l Hl. rewrite Hlines in Hl.
  destruct (report_line_origin dbg (files w) g dirs l Hsmall Hl)
    as [dir [label [sensors [err [got [Hdir [Hlabel [Hget Hcase]]]]]]]].
  pose proof (detected_width_nonneg dbg (files w) dirs) as Hpos.
  fold g in Hpos.
  destruct (pad_spaces g label Hpos Hfit) as [Hpad Hlen].
  assert (Hle : len label <= maxEntryLength g).
  { unfold g. rewrite detected_width. now apply widest_ge_label with dir. }
  exists dir, label, (pad g label).
  split; [exact Hdir|]. split; [exact Hlabel|].
  assert (Hwidth : len (pad g label) = maxEntryLength g + spacerSize).
  { rewrite Hlen. unfold spacerSize. lia. }
  destruct Hcase as [-> | [s [Hs ->]]].
  - split; [reflexivity|]. split; [reflexivity|]. now split.
  - destruct (GetSensorData_record_shape _ _ _ _ _ _ _ _ s Hsmall Hget Hs)
      as [Hname _].
    change (lineDevice (sensorLine g dir s)) with (Some dir).
    change (linePadded (sensorLine g dir s)) with (Some (pad g (name s))).
    rewrite Hname.
    split; [reflexivity|]. split; [reflexivity|]. now split.
Qed.

Lemma X9_witness :
  (rootListing legacyWorld = Some ["hwmon0"; "hwmon1"; "hwmon2"] /\
   ["hwmon0"; "hwmon1"; "hwmon2"] <> [] /\ fitsInt (files legacyWorld) /\
   maxEntryLength (detected false (files legacyWorld)
                     ["hwmon0"; "hwmon1"; "hwmon2"]) + spacerSize <= maxInt)
  /\
  exists t,
    run defaults legacyWorld = Some (Returned, t) /\
    forall l, In l (reportLines t) ->
      exists padded, linePadded l = Some padded /\ len padded = 12.
Proof.
  assert (Hsmall : fitsInt (files legacyWorld)) by (vm_compute; reflexivity).
  assert (Hfit : maxEntryLength (detected false (files legacyWorld)
                   ["hwmon0"; "hwmon1"; "hwmon2"]) + spacerSize <= maxInt)
    by (vm_compute; discriminate).
  split.
  { split; [reflexivity|]. split; [discriminate|].
    split; [exact Hsmall | exact Hfit]. }
  destruct (X9_name_column "0.0" false legacyWorld
              ["hwmon0"; "hwmon1"; "hwmon2"] eq_refl
              ltac:(discriminate) Hsmall Hfit) as [t [Hrun Hcol]].
  exists t. split; [exact Hrun|]. intros l Hl.
  destruct (Hcol l Hl) as [dir [label [padded [_ [_ [_ [Hp [_ Hlen]]]]]]]].
  exists padded. split; [exact Hp|]. rewrite Hlen.
  vm_compute. reflexivity.
Defined.

(** X10. Every sensor line of the report shows a record of its device:
    the unit mark "C" with the number of the sensor, and a value that is
    never negative (a raw reading below 1 never becomes a record), 30 or
    more for a k10temp device while the alternate power module flag is
    false. *)
Theorem X10_sensor_lines (v : string) (dbg : bool) (w : World)
    (dirs : list string) :
  rootListing w = Some dirs -> dirs <> [] -> fitsInt (files w) ->
  exists t,
    run (mkOptions false dbg v) w = Some (Returned, t) /\
    forall dev padded value sensorLabel,
      In (SensorLine dev padded value sensorLabel) (reportLines t) ->
      exists label sensors err got s,
        labelOf (files w) dev label /\
        GetSensorData dbg (files w) (files w) label dev
          = Some ((sensors, err), got) /\
        In s sensors /\ 1 <= number s /\ 1 <= intData s /\
        sensorLabel = "C   temperature sensor " +:+ Itoa (number s) /\
        0 <= value /\
        (label = "k10temp" ->
         digitalAmdPowerModuleInUse (detected dbg (files w) dirs) = false ->
         value = Z.quot (intData s) 1000 + 30 /\ 30 <= value) /\
        (label <> "k10temp" \/
         digitalAmdPowerModuleInUse (detected dbg (files w) dirs) = true ->
         value = Z.quot (intData s) 1000).
Proof.
  intros Hlist Hne Hsmall.
  destruct (run_report v dbg w dirs Hlist Hne Hsmall) as [t [Hrun [Hlines _]]].
  set (g := detected dbg (files w) dirs) in *.
  exists t. split; [exact Hrun|].
  intros dev padded value sensorLabel Hl. rewrite Hlines in Hl.
  destruct (report_line_origin dbg (files w) g dirs _ Hsmall Hl)
    as [dir [label [sensors [err [got [Hdir [Hlabel [Hget Hcase]]]]]]]].
  destruct Hcase as [Hna | [s [Hs Hline]]]; [discriminate|].
  destruct (GetSensorData_record_shape _ _ _ _ _ _ _ _ s Hsmall Hget Hs)
    as [Hname [Hcat [Hnum [Hraw Hint]]]].
  pose proof (normalize_intData g s Hint) as Hvalue.
  assert (Hform : sensorLine g dir s =
                  SensorLine dir (pad g (name s)) (intData (normalize g s))
                    ("C   temperature sensor " +:+ Itoa (number s))).
  { unfold sensorLine.
    change (category (normalize g s)) with (category s).
    rewrite Hcat. reflexivity. }
  rewrite Hform, Hvalue in Hline. clear Hform.
  injection Hline as Hdev _ Hval Hlab. subst dev value sensorLabel.
  assert (Hq : 0 <= Z.quot (intData s) 1000).
  { apply Z.quot_pos; lia. }
  exists label, sensors, err, got, s.
  split; [exact Hlabel|]. split; [exact Hget|]. split; [exact Hs|].
  split; [exact Hnum|]. split; [exact Hraw|]. split; [reflexivity|].
  rewrite Hname. split; [|split].
  - destruct (String.eqb label "k10temp"
              && negb (digitalAmdPowerModuleInUse g)); lia.
  - intros -> Hflag. rewrite Hflag. simpl. split; [reflexivity | lia].
  - intros [Hl' | Hflag].
    + apply String.eqb_neq in Hl'. now rewrite Hl'.
    + rewrite Hflag. now rewrite andb_false_r.
Qed.

Lemma X10_witness :
  (rootListing legacyWorld = Some ["hwmon0"; "hwmon1"; "hwmon2"] /\
   ["hwmon0"; "hwmon1"; "hwmon2"] <> [] /\ fitsInt (files legacyWorld)) /\
  exists t,
    run defaults legacyWorld = Some (Returned, t) /\
    forall dev padded value sensorLabel,
      In (SensorLine dev padded value sensorLabel) (reportLines t) ->
      0 <= value.
Proof.
  assert (Hsmall : fitsInt (files legacyWorld)) by (vm_compute; reflexivity).
  split; [split; [reflexivity | split; [discriminate | exact Hsmall]]|].
  destruct (X10_sensor_lines "0.0" false legacyWorld
              ["hwmon0"; "hwmon1"; "hwmon2"] eq_refl
              ltac:(discriminate) Hsmall) as [t [Hrun Hshape]].
  exists t. split; [exact Hrun|]. intros dev padded value sensorLabel Hl.
  destruct (Hshape dev padded value sensorLabel Hl)
    as [label [sensors [err [got [s [_ [_ [_ [_ [_ [_ [Hpos _]]]]]]]]]]]].
  exact Hpos.
Defined.

End LineFacts.

(* ===================================================================== *)
(** ** [strconv.Atoi]: its loop with the cut-offs and its value *)
(* ===================================================================== *)

Module AtoiFacts.

Import Go GoNum.
Import GoFacts.

Lemma digitValue_range c d : digitValue c = Some d -> 0 <= d <= 9.
Proof.
  unfold digitValue.
  destruct (Z.leb_spec 48 (Z.of_nat (nat_of_ascii c)));
    destruct (Z.leb_spec (Z.of_nat (nat_of_ascii c)) 57);
    simpl; intros [= <-]; lia.
Qed.

Lemma parseDigits_ge s : forall acc v,
  0 <= acc -> parseDigits s acc = Some v -> acc <= v.
Proof.
  induction s as [|c s IH]; intros acc v Hacc; simpl.
  - intros [= <-]. lia.
  - destruct (digitValue c) as [d|] eqn:Hd; [|discriminate].
    apply digitValue_range in Hd. intros Hv.
    apply IH in Hv; lia.
Qed.

Lemma cutoff_value : maxUint64 / 10 + 1 = 1844674407370955162.
Proof. reflexivity. Qed.

Lemma pow64_value : 2 ^ 64 = 18446744073709551616.
Proof. reflexivity. Qed.

(** The loop of [ParseUint] gives the number the digits denote when that
    number fits [uint64], and a range error otherwise. *)
Lemma parseUintLoop_digits s : forall n,
  0 <= n < 2 ^ 64 ->
  match parseDigits s n with
  | Some v =>
      parseUintLoop s n
      = if v <? 2 ^ 64 then (v, None) else (maxUint64, Some ErrRange)
  | None =>
      parseUintLoop s n = (0, Some ErrSyntax) \/
      parseUintLoop s n = (maxUint64, Some ErrRange)
  end.
Proof.
  induction s as [|c s IH]; intros n Hn.
  - simpl. destruct (Z.ltb_spec n (2 ^ 64)); [reflexivity | lia].
  - simpl parseDigits. simpl parseUintLoop.
    destruct (digitValue c) as [d|] eqn:Hd; [|now left].
    apply digitValue_range in Hd.
    rewrite cutoff_value, Z.geb_leb.
    destruct (Z.leb_spec 1844674407370955162 n) as [Hbig|Hsmall].
    + destruct (parseDigits s (n * 10 + d)) as [v|] eqn:Hv; [|now right].
      apply parseDigits_ge in Hv; [|lia].
      destruct (Z.ltb_spec v (2 ^ 64)) as [Hlt|_]; [|reflexivity].
      rewrite pow64_value in Hlt. lia.
    + destruct (Z.lt_ge_cases (n * 10 + d) (2 ^ 64)) as [Hfit|Hover].
      * rewrite (Z.mod_small (n * 10 + d)) by lia.
        destruct (Z.ltb_spec (n * 10 + d) (n * 10)) as [Hlt|_]; [lia|].
        rewrite Z.gtb_ltb.
        destruct (Z.ltb_spec maxUint64 (n * 10 + d)) as [Hlt|_].
        { unfold maxUint64 in Hlt. lia. }
        simpl orb. cbv iota. apply IH. lia.
      * assert (Hmod : (n * 10 + d) mod 2 ^ 64 = n * 10 + d - 2 ^ 64).
        { symmetry. apply (Z.mod_unique_pos _ _ 1).
          - rewrite pow64_value in *. lia.
          - lia. }
        rewrite Hmod.
        destruct (Z.ltb_spec (n * 10 + d - 2 ^ 64) (n * 10)) as [_|Hge].
        2:{ rewrite pow64_value in *. lia. }
        simpl orb. cbv iota.
        destruct (parseDigits s (n * 10 + d)) as [v|] eqn:Hv; [|now right].
        apply parseDigits_ge in Hv; [|lia].
        destruct (Z.ltb_spec v (2 ^ 64)) as [Hlt|_]; [lia | reflexivity].
Qed.

(** [ParseUint] against the digits of a text. *)
Lemma ParseUint_digits s :
  match parseUnsigned s with
  | Some v =>
      0 <= v /\
      ParseUint s
      = if v <? 2 ^ 64 then (v, None) else (maxUint64, Some ErrRange)
  | None =>
      ParseUint s = (0, Some ErrSyntax) \/
      ParseUint s = (maxUint64, Some ErrRange)
  end.
Proof.
  destruct s as [|c s]; [now left|].
  unfold parseUnsigned, ParseUint.
  pose proof (parseUintLoop_digits (String c s) 0 ltac:(lia)) as H.
  destruct (parseDigits (String c s) 0) as [v|] eqn:Hv; [|exact H].
  split; [|exact H]. apply parseDigits_ge in Hv; lia.
Qed.

Lemma wrapInt_neg_wrapInt u :
  0 <= u <= 2 ^ 63 -> wrapInt (- wrapInt u) = - u.
Proof.
  intros Hu. destruct (Z.eq_dec u (2 ^ 63)) as [->|Hne]; [reflexivity|].
  rewrite (wrapInt_id u) by (unfold inInt, minInt, maxInt; lia).
  apply wrapInt_id. unfold inInt, minInt, maxInt. lia.
Qed.

(** The value and the nil error of [strconv.Atoi]: the text is a decimal
    integer that fits [int]. *)
Lemma AtoiResult_Atoi s v : AtoiResult s = (v, None) <-> Atoi s = Some v.
Proof.
  unfold AtoiResult, ParseInt, Atoi. destruct s as [|c rest]; [easy|].
  assert (Hpow : 2 ^ 63 = 9223372036854775808) by reflexivity.
  destruct (Ascii.eqb c "-") eqn:Hminus.
  - replace (Ascii.eqb c "+") with false
      by (apply Ascii.eqb_eq in Hminus; now subst c).
    simpl orb. simpl negb. simpl andb. cbv iota.
    pose proof (ParseUint_digits rest) as H.
    destruct (parseUnsigned rest) as [u|].
    + destruct H as [Hu ->]. unfold checkRange, minInt, maxInt.
      destruct (Z.ltb_spec u (2 ^ 64)) as [Hlt|Hge].
      * rewrite Z.gtb_ltb.
        destruct (Z.ltb_spec (2 ^ 63) u) as [Hover|Hfit].
        { destruct (Z.leb_spec (- 2 ^ 63) (- u)); [lia|]. simpl. easy. }
        rewrite wrapInt_neg_wrapInt by lia.
        destruct (Z.leb_spec (- 2 ^ 63) (- u)); [|lia].
        destruct (Z.leb_spec (- u) (2 ^ 63 - 1)); [|lia].
        simpl. split; intros [= <-]; reflexivity.
      * destruct (Z.leb_spec (- 2 ^ 63) (- u)) as [Hle|_].
        { rewrite Hpow in Hle. rewrite pow64_value in Hge. lia. }
        simpl. easy.
    + destruct H as [-> | ->]; simpl; easy.
  - destruct (Ascii.eqb c "+") eqn:Hplus.
    + simpl orb. simpl negb. simpl andb. cbv iota.
      pose proof (ParseUint_digits rest) as H.
      destruct (parseUnsigned rest) as [u|].
      * destruct H as [Hu ->]. unfold checkRange, minInt, maxInt.
        destruct (Z.ltb_spec u (2 ^ 64)) as [Hlt|Hge].
        -- rewrite Z.geb_leb.
           destruct (Z.leb_spec (2 ^ 63) u) as [Hover|Hfit].
           { destruct (Z.leb_spec (- 2 ^ 63) u); [|lia].
             destruct (Z.leb_spec u (2 ^ 63 - 1)); [lia|]. simpl. easy. }
           rewrite !(wrapInt_id u) by (unfold inInt, minInt, maxInt; lia).
           destruct (Z.leb_spec (- 2 ^ 63) u); [|lia].
           destruct (Z.leb_spec u (2 ^ 63 - 1)); [|lia].
           simpl. split; intros [= <-]; reflexivity.
        -- destruct (Z.leb_spec u (2 ^ 63 - 1)) as [Hle|_].
           { rewrite Hpow in Hle. rewrite pow64_value in Hge. lia. }
           rewrite andb_false_r. simpl. easy.
      * destruct H as [-> | ->]; simpl; easy.
    + simpl orb. simpl negb. simpl andb. cbv iota.
      pose proof (ParseUint_digits (String c rest)) as H.
      destruct (parseUnsigned (String c rest)) as [u|].
      * destruct H as [Hu ->]. unfold checkRange, minInt, maxInt.
        destruct (Z.ltb_spec u (2 ^ 64)) as [Hlt|Hge].
        -- rewrite Z.geb_leb.
           destruct (Z.leb_spec (2 ^ 63) u) as [Hover|Hfit].
           { destruct (Z.leb_spec (- 2 ^ 63) u); [|lia].
             destruct (Z.leb_spec u (2 ^ 63 - 1)); [lia|]. simpl. easy. }
           rewrite !(wrapInt_id u) by (unfold inInt, minInt, maxInt; lia).
           destruct (Z.leb_spec (- 2 ^ 63) u); [|lia].
           destruct (Z.leb_spec u (2 ^ 63 - 1)); [|lia].
           simpl. split; intros [= <-]; reflexivity.
        -- destruct (Z.leb_spec u (2 ^ 63 - 1)) as [Hle|_].
           { rewrite Hpow in Hle. rewrite pow64_value in Hge. lia. }
           rewrite andb_false_r. simpl. easy.
      * destruct H as [-> | ->]; simpl; easy.
Qed.

End AtoiFacts.

(* ===================================================================== *)
(** ** The earlier revisions against the latest *)
(* ===================================================================== *)

Module RevisionFacts.

Import Go GoNum Tempchk Props MoreProps Examples.
Import GoFacts CountFacts ReadFacts SensorFacts TraceFacts ReportFacts.
Import OrderFacts LineFacts AtoiFacts.

Lemma string_app_nil_r s : s +:+ EmptyString = s.
Proof.
  induction s as [|c s IH]; [reflexivity|].
  rewrite string_app_cons. now rewrite IH.
Qed.

Lemma lastByte_spaces n : lastByte (spaces (S n)) = Some " "%char.
Proof.
  induction n as [|n IH]; [reflexivity|].
  change (spaces (S (S n))) with (String " " (spaces (S n))).
  change (lastByte (String " " (spaces (S n))))
    with (lastByte (spaces (S n))).
  exact IH.
Qed.

Lemma lastByte_app_spaces s n :
  lastByte (s +:+ spaces (S n)) = Some " "%char.
Proof.
  induction s as [|c s IH]; [apply lastByte_spaces|].
  rewrite string_app_cons.
  destruct (s +:+ spaces (S n)) as [|d r] eqn:E; [discriminate IH|].
  exact IH.
Qed.

(** A padded name that got at least one space is not the text "k10temp". *)
Lemma pad_not_k10temp g s :
  0 <= maxEntryLength g -> maxEntryLength g + spacerSize <= maxInt ->
  len s < maxEntryLength g + spacerSize ->
  String.eqb (pad g s) "k10temp" = false.
Proof.
  intros Hpos Hfit Hshort. destruct (pad_spaces g s Hpos Hfit) as [-> _].
  apply String.eqb_neq. intros Heq.
  destruct (Z.to_nat (maxEntryLength g + spacerSize - len s)) as [|n] eqn:En;
    [lia|].
  pose proof (lastByte_app_spaces s n) as Hlast.
  rewrite Heq in Hlast. discriminate Hlast.
Qed.

(** Padding a padded name changes nothing. *)
Lemma pad_pad g s :
  0 <= maxEntryLength g -> maxEntryLength g + spacerSize <= maxInt ->
  pad g (pad g s) = pad g s.
Proof.
  intros Hpos Hfit. destruct (pad_spaces g s Hpos Hfit) as [_ Hlen].
  destruct (pad_spaces g (pad g s) Hpos Hfit) as [-> _].
  replace (Z.to_nat (maxEntryLength g + spacerSize - len (pad g s)))
    with 0%nat by lia.
  apply string_app_nil_r.
Qed.

(** The sensor loop of the revision that padded the name in place, once
    the name has been padded. *)
Lemma sensorLoop_padded g dir s sensors :
  0 <= maxEntryLength g -> maxEntryLength g + spacerSize <= maxInt ->
  len s < maxEntryLength g + spacerSize ->
  (forall x, In x sensors -> inInt (intData x)) ->
  Previous.sensorLoop g dir (pad g s) sensors =
  map (fun x => EvPrintln (SensorLine dir (pad g s)
                             (Z.quot (intData x) 1000) "C")) sensors.
Proof.
  intros Hpos Hfit Hshort. induction sensors as [|x rest IH]; intros Hint.
  - reflexivity.
  - simpl Previous.sensorLoop.
    rewrite (pad_not_k10temp g s Hpos Hfit Hshort), (pad_pad g s Hpos Hfit).
    simpl andb. cbv iota.
    destruct (quot_1000_inInt (intData x) (Hint x (or_introl eq_refl)))
      as [Hq _].
    unfold quo. rewrite (wrapInt_id _ Hq).
    rewrite IH by (intros y Hy; apply Hint; now right).
    reflexivity.
Qed.

(** X11. In the revision of [main] whose sensor loop pads [trimmedName]
    in place, the 30 degrees of a "k10temp" device reach the line of its
    first sensor only: after the first turn the name carries spaces and
    is no longer "k10temp".  The latest revision adds them on every
    line. *)
Theorem X11_offset_on_first_sensor_only (g : Globals) (dir : string)
    (first : Sensor) (others : list Sensor) :
  4 <= maxEntryLength g -> maxEntryLength g + spacerSize <= maxInt ->
  digitalAmdPowerModuleInUse g = false ->
  (forall x, In x (first :: others) ->
     name x = "k10temp" /\ category x = tempPrefix /\ inInt (intData x)) ->
  Previous.sensorLoop g dir "k10temp" (first :: others) =
    EvPrintln (SensorLine dir (pad g "k10temp")
                 (Z.quot (intData first) 1000 + 30) "C")
    :: map (fun x => EvPrintln (SensorLine dir (pad g "k10temp")
                                  (Z.quot (intData x) 1000) "C")) others
  /\
  map (sensorLine g dir) (first :: others) =
    map (fun x => SensorLine dir (pad g "k10temp")
                    (Z.quot (intData x) 1000 + 30)
                    ("C   temperature sensor " +:+ Itoa (number x)))
      (first :: others).
Proof.
  intros Hwide Hfit Hflag Hall.
  assert (Hpos : 0 <= maxEntryLength g) by lia.
  assert (Hshort : len "k10temp" < maxEntryLength g + spacerSize).
  { change (len "k10temp") with 7. unfold spacerSize. lia. }
  split.
  - simpl Previous.sensorLoop. rewrite Hflag. simpl andb. cbv iota.
    destruct (Hall first (or_introl eq_refl)) as [_ [_ Hint]].
    destruct (quot_1000_inInt (intData first) Hint) as [Hq Hq30].
    unfold quo, add. rewrite (wrapInt_id _ Hq), (wrapInt_id _ Hq30).
    rewrite (sensorLoop_padded g dir "k10temp" others Hpos Hfit Hshort).
    + reflexivity.
    + intros x Hx. apply Hall. now right.
  - apply map_ext_in. intros x Hx.
    destruct (Hall x Hx) as [Hname [Hcat Hint]].
    assert (Hvalue : intData (normalize g x)
                     = Z.quot (intData x) 1000 + 30).
    { rewrite (normalize_intData g x Hint), Hname, Hflag. reflexivity. }
    unfold sensorLine.
    change (category (normalize g x)) with (category x).
    change (name (normalize g x)) with (name x).
    change (number (normalize g x)) with (number x).
    rewrite Hcat, Hname, Hvalue. reflexivity.
Qed.

Lemma X11_witness :
  let g := {| digitalAmdPowerModuleInUse := false; maxEntryLength := 7 |} in
  let s1 := record "k10temp" "hwmon0" 2 1 45000 in
  let s2 := record "k10temp" "hwmon0" 2 2 51999 in
  (4 <= maxEntryLength g /\ maxEntryLength g + spacerSize <= maxInt /\
   digitalAmdPowerModuleInUse g = false) /\
  stdout (Previous.sensorLoop g "hwmon0" "k10temp" [s1; s2]) =
    [SensorLine "hwmon0" "k10temp    " 75 "C";
     SensorLine "hwmon0" "k10temp    " 51 "C"] /\
  map (sensorLine g "hwmon0") [s1; s2] =
    [SensorLine "hwmon0" "k10temp    " 75 "C   temperature sensor 1";
     SensorLine "hwmon0" "k10temp    " 81 "C   temperature sensor 2"].
Proof.
  intros g s1 s2.
  assert (Hwide : 4 <= maxEntryLength g) by (vm_compute; discriminate).
  assert (Hfit : maxEntryLength g + spacerSize <= maxInt)
    by (vm_compute; discriminate).
  split; [split; [exact Hwide | split; [exact Hfit | reflexivity]]|].
  assert (Hall : forall x, In x [s1; s2] ->
            name x = "k10temp" /\ category x = tempPrefix /\
            inInt (intData x)).
  { intros x [<- | [<- | []]];
      (split; [reflexivity|]; split; [reflexivity|];
       split; vm_compute; discriminate). }
  destruct (X11_offset_on_first_sensor_only g "hwmon0" s1 [s2]
              Hwide Hfit eq_refl Hall) as [Hold Hnew].
  split.
  - rewrite Hold. vm_compute. reflexivity.
  - rewrite Hnew. vm_compute. reflexivity.
Defined.

(** *** The reading of one sensor *)

Lemma inputPath_1 hwmon :
  hardwareMonitorDirectory +:+ hwmon +:+ "/" +:+
  tempPrefix +:+ "1" +:+ inputSuffix = inputPath hwmon 1.
Proof. reflexivity. Qed.

(** [GetSensorData] of the single-sensor revision on valid input, by the
    file [temp1_input]. *)
Lemma previous_reading dbg fs label hwmon :
  label <> EmptyString -> hwmon <> EmptyString ->
  (Previous.GetSensorData dbg fs label hwmon).1 =
  match ReadFile fs (inputPath hwmon 1) with
  | None => (Some Previous.ReadFailed, -1)
  | Some rawData =>
      if len rawData <? 1 then (None, -1)
      else (option_map Previous.AtoiFailed
              (AtoiResult (Trim rawData cutset)).2,
            (AtoiResult (Trim rawData cutset)).1)
  end /\
  fileReads (Previous.GetSensorData dbg fs label hwmon).2
  = [inputPath hwmon 1].
Proof.
  intros Hl Hh. unfold Previous.GetSensorData.
  apply String.eqb_neq in Hl, Hh. rewrite Hl, Hh. simpl orb. cbv iota.
  rewrite inputPath_1.
  destruct (ReadFile fs (inputPath hwmon 1)) as [rawData|].
  - destruct (len rawData <? 1).
    + split; [reflexivity|].
      cbn [snd]. rewrite fileReads_app, fileReads_debug. reflexivity.
    + destruct (AtoiResult (Trim rawData cutset)) as [v e].
      split; [reflexivity|]. cbn [snd].
      rewrite !fileReads_app, !fileReads_debug. reflexivity.
  - split; [reflexivity|].
    cbn [snd]. rewrite fileReads_app, fileReads_debug. reflexivity.
Qed.

(** X13. [GetSensorData] of the single-sensor revision reads the file
    [temp1_input] of the device and no other.  When the file cannot be
    read the error is not nil and the value is -1; an empty file gives
    the value -1 with a nil error.  A value of 1 or more comes with a nil
    error exactly when the latest revision returns a record for sensor
    number 1 with that value. *)
Theorem X13_single_sensor_reading (dbg : bool) (fs : gmap string string)
    (label hwmon : string) :
  label <> EmptyString -> hwmon <> EmptyString -> fitsInt fs ->
  fileReads (Previous.GetSensorData dbg fs label hwmon).2
  = [inputPath hwmon 1] /\
  (ReadFile fs (inputPath hwmon 1) = None ->
   (Previous.GetSensorData dbg fs label hwmon).1
   = (Some Previous.ReadFailed, -1)) /\
  (ReadFile fs (inputPath hwmon 1) = Some EmptyString ->
   (Previous.GetSensorData dbg fs label hwmon).1 = (None, -1)) /\
  exists sensors err t,
    GetSensorData dbg fs fs label hwmon = Some ((sensors, err), t) /\
    forall v, 1 <= v ->
      ((Previous.GetSensorData dbg fs label hwmon).1 = (None, v) <->
       exists s, In s sensors /\ number s = 1 /\ intData s = v).
Proof.
  intros Hl Hh Hsmall.
  destruct (previous_reading dbg fs label hwmon Hl Hh) as [Hres Hreads].
  split; [exact Hreads|].
  split; [intros Hnone; rewrite Hres, Hnone; reflexivity|].
  split; [intros Hempty; rewrite Hres, Hempty; reflexivity|].
  destruct (GetSensorData_total dbg fs fs label hwmon Hsmall)
    as [sensors [err [t [Hrun _]]]].
  exists sensors, err, t. split; [exact Hrun|].
  intros v Hv. rewrite Hres. split.
  - intros Hold.
    destruct (ReadFile fs (inputPath hwmon 1)) as [rawData|] eqn:Hread;
      [|discriminate Hold].
    destruct (len rawData <? 1) eqn:Hlen.
    { injection Hold as Hold. lia. }
    assert (Hne : rawData <> EmptyString).
    { intros ->. discriminate Hlen. }
    destruct (AtoiResult (Trim rawData cutset)) as [v' e] eqn:Hparse.
    cbn [fst snd] in Hold. destruct e as [e|]; [discriminate Hold|].
    injection Hold as ->.
    apply AtoiResult_Atoi in Hparse.
    apply (GetSensorData_keeps dbg fs label hwmon sensors err t 1 v
             Hsmall Hl Hh Hrun ltac:(lia)).
    + intros j Hj. replace j with 1 by lia. now exists rawData.
    + now exists rawData.
    + exact Hv.
  - intros [s [Hs [Hnum Hdata]]].
    destruct (GetSensorData_records dbg fs fs label hwmon sensors err t s
                Hsmall Hrun Hs) as [_ [_ [_ Hparses]]].
    rewrite Hnum, Hdata in Hparses.
    destruct Hparses as [rawData [Hread [Hne Hparse]]].
    rewrite Hread.
    destruct (len rawData <? 1) eqn:Hlen.
    { apply len_lt_1 in Hlen. contradiction. }
    apply AtoiResult_Atoi in Hparse. rewrite Hparse. reflexivity.
Qed.

Lemma X13_witness :
  ("k10temp" <> EmptyString /\ "hwmon0" <> EmptyString /\
   fitsInt legacyFiles) /\
  (Previous.GetSensorData false legacyFiles "k10temp" "hwmon0").1
  = (None, 45000) /\
  exists sensors err t,
    GetSensorData false legacyFiles legacyFiles "k10temp" "hwmon0"
    = Some ((sensors, err), t) /\
    exists s, In s sensors /\ number s = 1 /\ intData s = 45000.
Proof.
  assert (Hsmall : fitsInt legacyFiles) by (vm_compute; reflexivity).
  split; [split; [discriminate | split; [discriminate | exact Hsmall]]|].
  assert (Hold : (Previous.GetSensorData false legacyFiles
                    "k10temp" "hwmon0").1 = (None, 45000))
    by (vm_compute; reflexivity).
  split; [exact Hold|].
  destruct (X13_single_sensor_reading false legacyFiles "k10temp" "hwmon0"
              ltac:(discriminate) ltac:(discriminate) Hsmall)
    as [_ [_ [_ [sensors [err [t [Hrun Hiff]]]]]]].
  exists sensors, err, t. split; [exact Hrun|].
  apply (Hiff 45000); [clear; lia | exact Hold].
Defined.

End RevisionFacts.

(* ===================================================================== *)
(** ** The revision with one temperature per device *)
(* ===================================================================== *)

Module SingleFacts.

Import Go GoNum Tempchk Props MoreProps Examples.
Import GoFacts CountFacts ReadFacts SensorFacts TraceFacts ReportFacts.
Import OrderFacts RecordFacts DetectionFacts LineFacts AtoiFacts.

Lemma tempPath_1 dir :
  hardwareMonitorDirectory +:+ dir +:+ "/" +:+ Single.hardwareTempFile
  = inputPath dir 1.
Proof. reflexivity. Qed.

Lemma AtoiResult_error s v e : AtoiResult s = (v, Some e) -> Atoi s = None.
Proof.
  intros H. destruct (Atoi s) as [u|] eqn:Hu; [|reflexivity].
  apply AtoiResult_Atoi in Hu. rewrite Hu in H. discriminate H.
Qed.

Lemma shown_value g label v :
  inInt v ->
  (if String.eqb label "k10temp" && negb (digitalAmdPowerModuleInUse g)
   then add (quo v 1000) 30 else quo v 1000) = shown g label v.
Proof.
  intros Hv. destruct (quot_1000_inInt v Hv) as [Hq Hq30].
  unfold shown, add, quo. rewrite (wrapInt_id _ Hq).
  destruct (_ && _); [now rewrite (wrapInt_id _ Hq30) | reflexivity].
Qed.

(** The lines and the file reads of one turn of the device loop, by the
    name file and the file [temp1_input] of the device. *)
Lemma single_device dbg fs g dir :
  reportLines (Single.reportDevice dbg fs g dir) =
    match ReadFile fs (namePath dir) with
    | None => []
    | Some content =>
        if len content <? 1 then []
        else
          match ReadFile fs (inputPath dir 1) with
          | None => [NotAvailableLine dir (pad g (Trim content cutset))]
          | Some rawData =>
              if len rawData <? 1
              then [NotAvailableLine dir (pad g (Trim content cutset))]
              else
                match Atoi (Trim rawData cutset) with
                | Some v =>
                    [SensorLine dir (pad g (Trim content cutset))
                       (shown g (Trim content cutset) v) ("C" +:+ nl)]
                | None =>
                    [NotAvailableLine dir (pad g (Trim content cutset))]
                end
          end
    end /\
  fileReads (Single.reportDevice dbg fs g dir) =
    namePath dir :: if hasLabel fs dir then [inputPath dir 1] else [].
Proof.
  unfold Single.reportDevice, hasLabel. rewrite tempPath_1.
  fold (namePath dir).
  destruct (ReadFile fs (namePath dir)) as [content|].
  2:{ split; autorewrite with quiet;
        rewrite ?fileReads_app, ?fileReads_debug; reflexivity. }
  destruct (len content <? 1).
  { split; autorewrite with quiet;
      rewrite ?fileReads_app, ?fileReads_debug; reflexivity. }
  simpl negb. cbv iota.
  destruct (ReadFile fs (inputPath dir 1)) as [rawData|].
  2:{ split; rewrite ?reportLines_app, ?reportLines_debug,
        ?fileReads_app, ?fileReads_debug; reflexivity. }
  destruct (len rawData <? 1).
  { split; rewrite ?reportLines_app, ?reportLines_debug,
      ?fileReads_app, ?fileReads_debug; reflexivity. }
  destruct (AtoiResult (Trim rawData cutset)) as [v [e|]] eqn:Hparse.
  - rewrite (AtoiResult_error _ _ _ Hparse). simpl orb. cbv iota.
    split; rewrite ?reportLines_app, ?reportLines_debug,
      ?fileReads_app, ?fileReads_debug; reflexivity.
  - apply AtoiResult_Atoi in Hparse. rewrite Hparse.
    simpl orb. cbv iota.
    rewrite (shown_value g _ v (Atoi_inInt _ _ Hparse)).
    split; rewrite ?reportLines_app, ?reportLines_debug,
      ?fileReads_app, ?fileReads_debug; reflexivity.
Qed.

(** The line of a device with a label whose [temp1_input] parses. *)
Lemma single_parsed dbg fs g dir label v :
  labelOf fs dir label -> inputParses fs dir 1 v ->
  reportLines (Single.reportDevice dbg fs g dir)
  = [SensorLine dir (pad g label) (shown g label v) ("C" +:+ nl)].
Proof.
  intros [content [Hread [Hne <-]]] [rawData [Hraw [Hrne Hparse]]].
  destruct (single_device dbg fs g dir) as [-> _].
  rewrite Hread, Hraw, Hparse.
  destruct (len content <? 1) eqn:E.
  { apply len_lt_1 in E. contradiction. }
  destruct (len rawData <? 1) eqn:E'; [|reflexivity].
  apply len_lt_1 in E'. contradiction.
Qed.

(** X14. In the revision that reads one temperature per device, a device
    with a label has exactly one line in the report: when [temp1_input]
    can be read, is not empty and trims to a base-10 integer, the line
    shows that integer divided by 1000 (plus 30 for "k10temp" while the
    flag is false), whatever its sign; otherwise it is the N/A line.
    The turn reads the name file, then [temp1_input], and nothing else. *)
Theorem X14_one_line_per_device (dbg : bool) (fs : gmap string string)
    (g : Globals) (dir label : string) :
  labelOf fs dir label ->
  (forall v, inputParses fs dir 1 v ->
     reportLines (Single.reportDevice dbg fs g dir)
     = [SensorLine dir (pad g label) (shown g label v) ("C" +:+ nl)]) /\
  ((forall v, ~ inputParses fs dir 1 v) ->
     reportLines (Single.reportDevice dbg fs g dir)
     = [NotAvailableLine dir (pad g label)]) /\
  fileReads (Single.reportDevice dbg fs g dir)
  = [namePath dir; inputPath dir 1].
Proof.
  intros Hlabel.
  split; [intros v; now apply single_parsed|].
  destruct Hlabel as [content [Hread [Hne <-]]].
  destruct (single_device dbg fs g dir) as [Hlines Hreads].
  unfold hasLabel in Hreads. rewrite Hread in Hlines, Hreads.
  assert (Hlen : (len content <? 1) = false).
  { destruct (len content <? 1) eqn:E; [|reflexivity].
    apply len_lt_1 in E. contradiction. }
  rewrite Hlen in Hlines, Hreads.
  split; [|exact Hreads].
  - intros Hnone. rewrite Hlines.
    destruct (ReadFile fs (inputPath dir 1)) as [rawData|] eqn:Hraw;
      [|reflexivity].
    destruct (len rawData <? 1) eqn:E; [reflexivity|].
    destruct (Atoi (Trim rawData cutset)) as [v|] eqn:Hparse; [|reflexivity].
    exfalso. apply (Hnone v). exists rawData.
    split; [exact Hraw|]. split; [|exact Hparse].
    intros ->. discriminate E.
Qed.

Lemma X14_witness :
  labelOf legacyFiles "hwmon0" "k10temp" /\
  reportLines (Single.reportDevice false legacyFiles initialGlobals "hwmon0")
  = [SensorLine "hwmon0" "k10temp" 75 ("C" +:+ nl)].
Proof.
  assert (Hlabel : labelOf legacyFiles "hwmon0" "k10temp").
  { exists ("k10temp" +:+ nl).
    split; [vm_compute; reflexivity|]. split; [discriminate|].
    vm_compute. reflexivity. }
  split; [exact Hlabel|].
  destruct (X14_one_line_per_device false legacyFiles initialGlobals
              "hwmon0" "k10temp" Hlabel) as [Hvalue _].
  rewrite (Hvalue 45000).
  - vm_compute. reflexivity.
  - exists ("45000" +:+ nl).
    split; [vm_compute; reflexivity|]. split; [discriminate|].
    vm_compute. reflexivity.
Defined.

Lemma inputParses_fun fs dir i v v' :
  inputParses fs dir i v -> inputParses fs dir i v' -> v = v'.
Proof.
  intros [r [Hr [_ Hv]]] [r' [Hr' [_ Hv']]].
  rewrite Hr in Hr'. injection Hr' as <-. rewrite Hv in Hv'.
  now injection Hv'.
Qed.

(** X15. The two revisions on the first sensor of a device: a reading
    of 1 or more in [temp1_input] is shown with the same name column
    and the same value by both; a reading below 1 is shown by the
    revision with one temperature per device, and the latest revision
    has no line for sensor 1. *)
Theorem X15_first_sensor_across_revisions (dbg : bool)
    (fs : gmap string string) (g : Globals) (dir label : string) (v : Z) :
  fitsInt fs -> dir <> EmptyString -> label <> EmptyString ->
  labelOf fs dir label -> inputParses fs dir 1 v ->
  reportLines (Single.reportDevice dbg fs g dir)
  = [SensorLine dir (pad g label) (shown g label v) ("C" +:+ nl)] /\
  (1 <= v ->
   In (SensorLine dir (pad g label) (shown g label v)
         "C   temperature sensor 1")
      (deviceReport dbg fs g dir)) /\
  (v < 1 ->
   forall padded value,
     ~ In (SensorLine dir padded value "C   temperature sensor 1")
          (deviceReport dbg fs g dir)).
Proof.
  intros Hsmall Hdir Hlab Hlabel Hparses.
  split.
  { now apply single_parsed. }
  destruct Hlabel as [content [Hread [Hne Htrim]]].
  destruct (GetSensorData_total dbg fs fs label dir Hsmall)
    as [sensors [err [got [Hrun Herr]]]].
  assert (Hreport : deviceReport dbg fs g dir =
            match sensors with
            | [] => [NotAvailableLine dir (pad g label)]
            | _ :: _ => map (sensorLine g dir) sensors
            end).
  { unfold deviceReport. rewrite Hread.
    destruct (len content <? 1) eqn:E.
    { apply len_lt_1 in E. contradiction. }
    rewrite Htrim, Hrun.
    destruct sensors as [|s rest]; [now destruct err|].
    destruct err as [e|]; [|reflexivity].
    destruct Herr as [_ Herr]. now discriminate Herr. }
  assert (Hline : forall s, In s sensors ->
            sensorLine g dir s =
            SensorLine dir (pad g label) (shown g label (intData s))
              ("C   temperature sensor " +:+ Itoa (number s))).
  { intros s Hs.
    destruct (GetSensorData_record_shape _ _ _ _ _ _ _ _ s Hsmall Hrun Hs)
      as [Hname [Hcat [_ [_ Hint]]]].
    unfold sensorLine.
    change (category (normalize g s)) with (category s).
    change (name (normalize g s)) with (name s).
    change (number (normalize g s)) with (number s).
    rewrite Hcat, Hname, (normalize_intData g s Hint), Hname.
    reflexivity. }
  split.
  - intros Hv.
    destruct (GetSensorData_keeps dbg fs label dir sensors err got 1 v
                Hsmall Hlab Hdir Hrun ltac:(lia)) as [s [Hs [Hnum Hdata]]].
    + intros j Hj. replace j with 1 by lia.
      destruct Hparses as [r [Hr [Hrne _]]]. now exists r.
    + exact Hparses.
    + exact Hv.
    + rewrite Hreport. destruct sensors as [|s0 rest]; [destruct Hs|].
      apply in_map_iff. exists s. split; [|exact Hs].
      rewrite (Hline s Hs), Hnum, Hdata. reflexivity.
  - intros Hv padded value Hin. rewrite Hreport in Hin.
    destruct sensors as [|s0 rest].
    { destruct Hin as [Hin|[]]. discriminate Hin. }
    apply in_map_iff in Hin as [s [Heq Hs]].
    rewrite (Hline s Hs) in Heq. injection Heq as _ _ Hnum.
    change (Itoa (number s) = Itoa 1) in Hnum.
    apply Itoa_inj in Hnum.
    destruct (GetSensorData_records dbg fs fs label dir _ err got s
                Hsmall Hrun Hs) as [_ [_ [Hpos Hp]]].
    rewrite Hnum in Hp.
    pose proof (inputParses_fun fs dir 1 _ _ Hp Hparses). lia.
Qed.

Lemma X15_witness :
  (fitsInt legacyFiles /\ "hwmon0" <> EmptyString /\
   "k10temp" <> EmptyString /\ labelOf legacyFiles "hwmon0" "k10temp" /\
   inputParses legacyFiles "hwmon0" 1 45000) /\
  reportLines (Single.reportDevice false legacyFiles initialGlobals "hwmon0")
  = [SensorLine "hwmon0" "k10temp" 75 ("C" +:+ nl)] /\
  In (SensorLine "hwmon0" "k10temp" 75 "C   temperature sensor 1")
     (deviceReport false legacyFiles initialGlobals "hwmon0").
Proof.
  assert (Hsmall : fitsInt legacyFiles) by (vm_compute; reflexivity).
  assert (Hlabel : labelOf legacyFiles "hwmon0" "k10temp").
  { exists ("k10temp" +:+ nl).
    split; [vm_compute; reflexivity|]. split; [discriminate|].
    vm_compute. reflexivity. }
  assert (Hparses : inputParses legacyFiles "hwmon0" 1 45000).
  { exists ("45000" +:+ nl).
    split; [vm_compute; reflexivity|]. split; [discriminate|].
    vm_compute. reflexivity. }
  split.
  { split; [exact Hsmall|]. split; [discriminate|]. split; [discriminate|].
    split; [exact Hlabel | exact Hparses]. }
  destruct (X15_first_sensor_across_revisions false legacyFiles
              initialGlobals "hwmon0" "k10temp" 45000 Hsmall
              ltac:(discriminate) ltac:(discriminate) Hlabel Hparses)
    as [Hold [Hnew _]].
  split; [exact Hold|]. apply Hnew. clear. lia.
Defined.

(** The devices of the lines of one turn of the device loop. *)
Lemma single_device_shown dbg fs g dir :
  map lineDevice (reportLines (Single.reportDevice dbg fs g dir))
  = if hasLabel fs dir then [Some dir] else [].
Proof.
  destruct (single_device dbg fs g dir) as [-> _]. unfold hasLabel.
  destruct (ReadFile fs (namePath dir)) as [content|]; [|reflexivity].
  destruct (len content <? 1); [reflexivity|]. simpl negb. cbv iota.
  destruct (ReadFile fs (inputPath dir 1)) as [rawData|]; [|reflexivity].
  destruct (len rawData <? 1); [reflexivity|].
  destruct (Atoi (Trim rawData cutset)); reflexivity.
Qed.

Lemma single_loop dbg fs g dirs :
  map lineDevice (reportLines (Single.reportLoop dbg fs g dirs))
  = map Some (List.filter (hasLabel fs) dirs) /\
  fileReads (Single.reportLoop dbg fs g dirs)
  = concat (map (fun dir =>
                   namePath dir ::
                   if hasLabel fs dir then [inputPath dir 1] else [])
              dirs).
Proof.
  unfold Single.reportLoop.
  induction dirs as [|dir rest [IHl IHr]]; [now split|].
  simpl map. simpl concat.
  rewrite reportLines_app, fileReads_app, map_app, IHl, IHr.
  rewrite single_device_shown.
  destruct (single_device dbg fs g dir) as [_ ->].
  split; [|reflexivity].
  simpl List.filter. destruct (hasLabel fs dir); reflexivity.
Qed.

(** X16. A run of the revision with one temperature per device over a
    listing that is not empty ends with [os.Exit(0)]; its report has one
    line for every listed device whose name file can be read and is not
    empty, in listing order, and no other line.  The run reads every
    name file for the quirk detection, then for each device its name
    file and, when the device has a label, [temp1_input]: never another
    input file, never the CPU identification file. *)
Theorem X16_single_reading_run (v : string) (dbg : bool) (w : World)
    (dirs : list string) :
  rootListing w = Some dirs -> dirs <> [] ->
  exists t,
    Single.main (mkOptions false dbg v) w initialGlobals = (Exited 0, t) /\
    map lineDevice (reportLines t)
    = map Some (List.filter (hasLabel (files w)) dirs) /\
    fileReads t
    = map namePath dirs ++
      concat (map (fun dir =>
                     namePath dir ::
                     if hasLabel (files w) dir then [inputPath dir 1]
                     else [])
                dirs).
Proof.
  intros Hlist Hne. unfold Single.main.
  cbn [printVersion debugMode]. rewrite Hlist.
  rewrite (previous_flags dbg (files w) dirs initialGlobals Hne).
  eexists. split; [reflexivity|].
  destruct (flagsLoop_trace dbg (files w) dirs initialGlobals)
    as [Hfl Hfr].
  set (g := (flagsLoop dbg (files w) dirs initialGlobals).1).
  destruct (single_loop dbg (files w) g dirs) as [Hl Hr].
  assert (Hshown : forall msg1 msg2,
            reportLines (if dbg then debug dbg msg1 ++ debug dbg msg2
                         else []) = [] /\
            fileReads (if dbg then debug dbg msg1 ++ debug dbg msg2
                       else []) = []).
  { intros msg1 msg2. destruct dbg; [|now split].
    rewrite reportLines_app, fileReads_app, !reportLines_debug,
      !fileReads_debug. now split. }
  split.
  - rewrite !reportLines_app.
    rewrite (proj1 (Hshown _ _)), Hfl. simpl app at 1.
    rewrite <- Hl. reflexivity.
  - rewrite !fileReads_app.
    rewrite (proj2 (Hshown _ _)), Hfr, Hr. reflexivity.
Qed.

Lemma X16_witness :
  (rootListing legacyWorld = Some ["hwmon0"; "hwmon1"; "hwmon2"] /\
   ["hwmon0"; "hwmon1"; "hwmon2"] <> []) /\
  exists t,
    Single.main defaults legacyWorld initialGlobals = (Exited 0, t) /\
    map lineDevice (reportLines t) = [Some "hwmon0"; Some "hwmon1"].
Proof.
  split; [split; [reflexivity | discriminate]|].
  destruct (X16_single_reading_run "0.0" false legacyWorld
              ["hwmon0"; "hwmon1"; "hwmon2"] eq_refl ltac:(discriminate))
    as [t [Hrun [Hlines _]]].
  exists t. split; [exact Hrun|].
  rewrite Hlines. vm_compute. reflexivity.
Defined.

End SingleFacts.
